(** * FameForecast TextView: the ingestion-and-distribution core

    A shallow embedding of the chat pipeline of the repository
    (rate limiter, IRC shard session, shard manager, audio capture
    backpressure, queue bridge, WebSocket subscriber lifecycle) and the
    properties its specification states about them.

    Conventions of the embedding:
    - Python [int] is [Z]; wall-clock readings ([time.time()]) are exact
      rationals [Q] (every finite float is one); [str] is [string];
    - [dict] is [gmap], [set] is [gset], [deque] and [list] are [list];
    - queues are FIFO lists, the head being the next item a consumer gets;
    - a method that mutates [self] or the shared context returns the new
      state; a clock reading is an argument of the call that takes it, or
      the clock field of the state the call runs in. *)

From Stdlib Require Import ZArith QArith Qround Lqa Lia Bool Ascii String List.
From Stdlib Require Import DecimalString OrderedTypeEx.
From stdpp Require Import gmap strings list sorting.

Open Scope string_scope.
Open Scope Z_scope.
Open Scope Q_scope.
Open Scope list_scope.

(** ** Rational comparisons as the booleans Python computes *)

Definition Qltb (x y : Q) : bool := negb (Qle_bool y x).

(** ** The Python built-ins the sources call

    Strings are sequences of characters with code points below 256
    ([ascii]); [isspace] and [lower] are Python's on that range. *)

Module Py.

(** [str.startswith] *)
Definition startswith (s pre : string) : bool := String.prefix pre s.

(** [sub in s] *)
Definition contains (sub s : string) : bool :=
  match String.index 0 sub s with Some _ => true | None => false end.

Definition rev_string (cs : list ascii) : string :=
  string_of_list_ascii (rev cs).

(** [str.split(sep, maxsplit)] for a non-empty [sep]; [maxsplit = None] is
    Python's default (no limit).  [skip] counts the characters of a
    separator just matched that are still to be passed over and [cur]
    holds the current field, last character first. *)
Fixpoint split_go (sep : string) (maxsplit : option nat) (skip : nat)
    (cur : list ascii) (s : string) : list string :=
  match s with
  | EmptyString => [rev_string cur]
  | String c rest =>
      match skip with
      | S k => split_go sep maxsplit k cur rest
      | O =>
          match maxsplit with
          | Some O => [rev_string cur +:+ s]
          | _ =>
              if String.prefix sep s then
                rev_string cur ::
                  split_go sep (pred <$> maxsplit) (String.length sep - 1) [] rest
              else split_go sep maxsplit 0 (c :: cur) rest
          end
      end
  end.

Definition split (sep : string) (s : string) : list string :=
  split_go sep None 0 [] s.

Definition split1 (sep : string) (s : string) : list string :=
  split_go sep (Some 1%nat) 0 [] s.

(** [str.isspace] on one character with code point below 256. *)
Definition isspace (c : ascii) : bool :=
  let n := nat_of_ascii c in
  (((9 <=? n) && (n <=? 13)) || ((28 <=? n) && (n <=? 32))
   || (n =? 133) || (n =? 160))%nat.

Fixpoint lstrip_by (p : ascii -> bool) (s : string) : string :=
  match s with
  | String c rest => if p c then lstrip_by p rest else s
  | EmptyString => EmptyString
  end.

Definition rstrip_by (p : ascii -> bool) (s : string) : string :=
  rev_string (list_ascii_of_string
    (lstrip_by p (rev_string (list_ascii_of_string s)))).

(** [str.strip()] *)
Definition strip (s : string) : string := rstrip_by isspace (lstrip_by isspace s).

(** [str.lstrip(chars)] *)
Definition lstrip (chars : string) (s : string) : string :=
  lstrip_by (fun c => bool_decide (c ∈ list_ascii_of_string chars)) s.

(** [str.lower] on code points below 256: A-Z and the Latin-1 capitals. *)
Definition lower_char (c : ascii) : ascii :=
  let n := nat_of_ascii c in
  if (((65 <=? n) && (n <=? 90))
      || ((192 <=? n) && (n <=? 222) && negb (n =? 215)))%nat
  then ascii_of_nat (n + 32) else c.

Fixpoint lower (s : string) : string :=
  match s with
  | String c rest => String (lower_char c) (lower rest)
  | EmptyString => EmptyString
  end.

(** [s[1:]] *)
Definition tail (s : string) : string :=
  match s with String _ rest => rest | EmptyString => EmptyString end.

(** [str(n)] for an [int]. *)
Definition str_of_Z (z : Z) : string := NilZero.string_of_int (Z.to_int z).

(** [sep.join(l)] *)
Definition join (sep : string) (l : list string) : string := String.concat sep l.

(** The line terminator of the chat protocol, [\r\n]. *)
Definition crlf : string := String "013" (String "010" EmptyString).

End Py.

(** Truncation of a float to an [int] ([int(x)]): toward zero. *)
Definition py_int_of_Q (q : Q) : Z :=
  if Qle_bool 0 q then Qfloor q else Qceiling q.

(** ** Dynamically typed values

    The values the sources put on queues and into the shared
    [bot_state] dictionary.  A [dict] with string keys is an association
    list in insertion order. *)
#[warnings="-register-all"]
Inductive PyVal :=
| VNone
| VBool (b : bool)
| VInt (z : Z)
| VFloat (q : Q)
| VStr (s : string)
| VBytes (b : list Byte.byte)
| VTuple (l : list PyVal)
| VList (l : list PyVal)
| VDict (d : list (string * PyVal)).

(** [repr] of a [str] or of [bytes]: single quotes, unless the text has a
    single quote and no double quote; the backslash, the quote in use,
    tab, line feed and carriage return are escaped, every other
    character that is not printable is written [\xNN].  [printable] says
    which characters are written as they are. *)
Definition double_quote : ascii := "034"%char.

Definition hex_digit (n : nat) : ascii :=
  nth n (list_ascii_of_string "0123456789abcdef") "0"%char.

Definition hex_escape (c : ascii) : string :=
  let n := nat_of_ascii c in
  "\x" +:+ String (hex_digit (n / 16)) (String (hex_digit (n mod 16)) "").

Definition escape_char (printable : ascii -> bool) (quote c : ascii) : string :=
  let n := nat_of_ascii c in
  if Ascii.eqb c "\"%char then "\\"
  else if Ascii.eqb c quote then String "\"%char (String quote "")
  else if (n =? 9)%nat then "\t"
  else if (n =? 10)%nat then "\n"
  else if (n =? 13)%nat then "\r"
  else if printable c then String c ""
  else hex_escape c.

Definition quoted (printable : ascii -> bool) (s : string) : string :=
  let chars := list_ascii_of_string s in
  let quote :=
    if bool_decide ("'"%char ∈ chars) && negb (bool_decide (double_quote ∈ chars))
    then double_quote else "'"%char in
  String quote
    (String.concat "" (map (escape_char printable quote) chars)
       +:+ String quote "").

(** [str.isprintable] on one character with code point below 256. *)
Definition isprintable (c : ascii) : bool :=
  let n := nat_of_ascii c in
  (((32 <=? n) && (n <=? 126)) || ((161 <=? n) && (n <=? 172))
   || ((174 <=? n) && (n <=? 255)))%nat.

(** What [bytes.__repr__] writes as it is: printable ASCII. *)
Definition isprintable_byte (c : ascii) : bool :=
  let n := nat_of_ascii c in ((32 <=? n) && (n <=? 126))%nat.

Definition repr_str (s : string) : string := quoted isprintable s.

Definition repr_bytes (b : list Byte.byte) : string :=
  "b" +:+ quoted isprintable_byte (string_of_list_byte b).

(** [type(v).__name__] *)
Definition py_type_name (v : PyVal) : string :=
  match v with
  | VNone => "NoneType"
  | VBool _ => "bool"
  | VInt _ => "int"
  | VFloat _ => "float"
  | VStr _ => "str"
  | VBytes _ => "bytes"
  | VTuple _ => "tuple"
  | VList _ => "list"
  | VDict _ => "dict"
  end.

(** [repr(v)].  A float prints as its exact fraction, which no property
    below looks at. *)
Fixpoint py_repr (v : PyVal) : string :=
  match v with
  | VNone => "None"
  | VBool true => "True"
  | VBool false => "False"
  | VInt z => Py.str_of_Z z
  | VFloat q => Py.str_of_Z (Qnum q) +:+ "/" +:+ Py.str_of_Z (Zpos (Qden q))
  | VStr s => repr_str s
  | VBytes b => repr_bytes b
  | VTuple [x] => "(" +:+ py_repr x +:+ ",)"
  | VTuple l => "(" +:+ Py.join ", " (map py_repr l) +:+ ")"
  | VList l => "[" +:+ Py.join ", " (map py_repr l) +:+ "]"
  | VDict d =>
      "{" +:+ Py.join ", "
                (map (fun kv => repr_str (fst kv) +:+ ": " +:+ py_repr (snd kv)) d)
          +:+ "}"
  end.

(** [str(v)], as an f-string interpolates it. *)
Definition py_str (v : PyVal) : string :=
  match v with VStr s => s | _ => py_repr v end.

(** [d.get(key, default)] on a [dict]. *)
Fixpoint dict_get (d : list (string * PyVal)) (key : string) (default : PyVal)
    : PyVal :=
  match d with
  | [] => default
  | (k, v) :: rest => if String.eqb k key then v else dict_get rest key default
  end.

(** The three-element tuples [(channel, tag, text)] the workers put on the
    GUI queue. *)
Definition msg3 (channel tag text : string) : PyVal :=
  VTuple [VStr channel; VStr tag; VStr text].

(** ** twitch_chat_monitor/irc.py: configuration defaults (public build)

    The minimum delay is the decimal 1.6 the source writes. *)

Definition MSG_LIMIT : Z := 20%Z.
Definition MSG_WINDOW : Q := 30.
Definition MIN_MSG_DELAY : Q := 16 # 10.

(** ** twitch_chat_monitor/irc.py: class TwitchLimiter *)

Module TwitchLimiter.

(** [self.metrics['avg_delay']] is a float: [0.0] at first, then the
    floating-point mean [sum(delays) / len(delays)] of the gaps the last
    accepted call found between the timestamps of the deque.  The model
    keeps the gaps the mean is taken of (the difference of two clock
    readings this close is exact) and does not evaluate the
    floating-point sum and quotient, which round. *)
Inductive AvgDelay :=
| NoDelay
| MeanOf (delays : list Q).

(** [self.metrics]: the five figures kept under fixed keys. *)
Record Metrics := mkMetrics {
  total_attempts : Z;
  allowed_messages : Z;
  rate_limited : Z;
  min_delay_blocked : Z;
  avg_delay : AvgDelay
}.

Record t := mk {
  limit : Z;
  window : Q;
  min_delay : Q;
  events : list Q;          (* deque of accepted timestamps, oldest first *)
  last_message : Q;
  metrics : Metrics;
  start_time : Q
}.

(** [__init__]: [now] is the reading of [time.time()] stored in
    [start_time]. *)
Definition init (limit : Z) (window min_delay : Q) (now : Q) : t :=
  {| limit := limit; window := window; min_delay := min_delay;
     events := []; last_message := 0;
     metrics := mkMetrics 0 0 0 0 NoDelay;
     start_time := now |}.

Definition new (now : Q) : t := init MSG_LIMIT MSG_WINDOW MIN_MSG_DELAY now.

(** [while self.events and now - self.events[0] > self.window:
        self.events.popleft()] *)
Fixpoint popleft_expired (window now : Q) (events : list Q) : list Q :=
  match events with
  | [] => []
  | e :: rest =>
      if Qltb window (now - e) then popleft_expired window now rest
      else events
  end.

(** [[self.events[i] - self.events[i-1] for i in range(1, len(self.events))]] *)
Fixpoint delays (events : list Q) : list Q :=
  match events with
  | a :: ((b :: _) as rest) => (b - a) :: delays rest
  | _ => []
  end.

Definition with_metrics (self : t) (m : Metrics) : t :=
  {| limit := limit self; window := window self; min_delay := min_delay self;
     events := events self; last_message := last_message self;
     metrics := m; start_time := start_time self |}.

Definition bump_total (m : Metrics) : Metrics :=
  mkMetrics (total_attempts m + 1) (allowed_messages m) (rate_limited m)
            (min_delay_blocked m) (avg_delay m).

Definition bump_min_delay_blocked (m : Metrics) : Metrics :=
  mkMetrics (total_attempts m) (allowed_messages m) (rate_limited m)
            (min_delay_blocked m + 1) (avg_delay m).

Definition bump_rate_limited (m : Metrics) : Metrics :=
  mkMetrics (total_attempts m) (allowed_messages m) (rate_limited m + 1)
            (min_delay_blocked m) (avg_delay m).

Definition bump_allowed (m : Metrics) (events : list Q) : Metrics :=
  mkMetrics (total_attempts m) (allowed_messages m + 1) (rate_limited m)
            (min_delay_blocked m)
            (if (1 <? Z.of_nat (length events))%Z
             then MeanOf (delays events)
             else avg_delay m).

(** [allow]: the whole body runs under [self.lock], so it is one atomic
    transition; [now] is the reading of [time.time()] it takes. *)
Definition allow (self : t) (now : Q) : bool * t :=
  let m := bump_total (metrics self) in
  if Qltb (now - last_message self) (min_delay self) then
    (false, with_metrics self (bump_min_delay_blocked m))
  else
    let kept := popleft_expired (window self) now (events self) in
    if (Z.of_nat (length kept) <? limit self)%Z then
      let events' := kept ++ [now] in
      (true,
       {| limit := limit self; window := window self;
          min_delay := min_delay self;
          events := events'; last_message := now;
          metrics := bump_allowed m events';
          start_time := start_time self |})
    else
      (false,
       {| limit := limit self; window := window self;
          min_delay := min_delay self;
          events := kept; last_message := last_message self;
          metrics := bump_rate_limited m;
          start_time := start_time self |}).

(** [get_metrics]: the counters plus the derived figures, at reading [now]. *)
Record Report := mkReport {
  counters : Metrics;
  runtime_seconds : Q;
  messages_per_minute : Q
}.

Definition get_metrics (self : t) (now : Q) : Report :=
  let runtime := now - start_time self in
  {| counters := metrics self;
     runtime_seconds := runtime;
     messages_per_minute :=
       if Qltb 0 runtime
       then inject_Z (allowed_messages (metrics self)) / runtime * 60
       else 0 |}.

(** A sequence of [allow()] calls, one per clock reading, in order: the
    results and the limiter left behind. *)
Fixpoint allow_calls (self : t) (nows : list Q) : list bool * t :=
  match nows with
  | [] => ([], self)
  | now :: rest =>
      let '(ok, self') := allow self now in
      let '(oks, self'') := allow_calls self' rest in
      (ok :: oks, self'')
  end.

(** The readings of the calls that returned [True], in call order. *)
Fixpoint accepted (self : t) (nows : list Q) : list Q :=
  match nows with
  | [] => []
  | now :: rest =>
      let '(ok, self') := allow self now in
      if ok then now :: accepted self' rest else accepted self' rest
  end.

End TwitchLimiter.

(** How many of the timestamps [l] fall in the trailing window
    [[t - w, t]]. *)
Definition in_window (w t a : Q) : bool := Qle_bool (t - w) a && Qle_bool a t.

Definition sends_in_window (w t : Q) (l : list Q) : nat :=
  length (filter (fun a => in_window w t a = true) l).

(** Accepted timestamps [l], in call order, are pairwise at least [d]
    apart. *)
Definition separated (d : Q) (l : list Q) : Prop :=
  forall i j a b, (i < j)%nat -> l !! i = Some a -> l !! j = Some b -> d <= b - a.

(** What relates a limiter to the timestamps [acc] it has accepted so
    far: the deque is the tail of [acc] that has not been evicted, every
    evicted entry is more than a window older than the last send, and the
    two bounds of the rate limit hold of [acc]. *)
Record limiter_inv (self : TwitchLimiter.t) (acc : list Q) : Prop := {
  inv_split : exists gone, acc = gone ++ TwitchLimiter.events self /\
      Forall (fun d => TwitchLimiter.window self < TwitchLimiter.last_message self - d) gone;
  inv_last : Forall (fun a => a <= TwitchLimiter.last_message self) acc;
  inv_len : (Z.of_nat (length (TwitchLimiter.events self)) <= TwitchLimiter.limit self)%Z;
  inv_window : forall t,
      (Z.of_nat (sends_in_window (TwitchLimiter.window self) t acc) <= TwitchLimiter.limit self)%Z;
  inv_sep : separated (TwitchLimiter.min_delay self) acc
}.

(** The spec's wording of the algorithm, over the three fields it names. *)
Fixpoint evict_older_than (W now : Q) (timestamps : list Q) : list Q :=
  match timestamps with
  | ts :: later => if Qltb W (now - ts) then evict_older_than W now later
                   else ts :: later
  | [] => []
  end.

Definition allow_spec (L : Z) (W minDelay : Q) (timestamps : list Q)
    (lastSend now : Q) : bool * list Q * Q :=
  if Qltb (now - lastSend) minDelay then (false, timestamps, lastSend)
  else
    let remaining := evict_older_than W now timestamps in
    if (Z.of_nat (length remaining) <? L)%Z
    then (true, remaining ++ [now], now)
    else (false, remaining, lastSend).

(** ** Exceptions, sockets, the data logger and the runtime context *)

Inductive Exn :=
| OSError (msg : string)
| ValueError (msg : string)
| IndexError (msg : string)
| TypeError (msg : string)
| AttributeError (msg : string)
| NameError (msg : string)
| JSONDecodeError (msg : string)
| UnicodeDecodeError (msg : string)
| RecursionError (msg : string).

Definition exn_str (e : Exn) : string :=
  match e with
  | OSError m | ValueError m | IndexError m | TypeError m
  | AttributeError m | NameError m | JSONDecodeError m
  | UnicodeDecodeError m | RecursionError m => m
  end.

(** A TCP socket as the session sees it: connected, created but never
    connected (the connection attempt failed), or closed; and what has
    been sent on it. *)
Inductive SocketStatus := Connected | Unconnected | Closed.

Record Socket := mkSocket {
  sock_status : SocketStatus;
  sock_sent : list string
}.

(** Whether a send can still succeed. *)
Definition sock_alive (s : Socket) : bool :=
  match sock_status s with Connected => true | _ => false end.

(** What [send] raises on a socket that is not connected (on Linux): a
    closed socket has no file descriptor left, an unconnected one has no
    peer. *)
Definition send_error (s : Socket) : Exn :=
  match sock_status s with
  | Closed => OSError "[Errno 9] Bad file descriptor"
  | _ => OSError "[Errno 32] Broken pipe"
  end.

(** [sock.send(data)] *)
Definition sock_send (s : Socket) (data : string) : Exn + Socket :=
  if sock_alive s then inr (mkSocket Connected (sock_sent s ++ [data]))
  else inl (send_error s).

(** [sock.close()] *)
Definition sock_close (s : Socket) : Socket := mkSocket Closed (sock_sent s).

(** twitch_chat_monitor/logger.py: the rows [DataLogger] appends, the
    writes taken to succeed.  A timestamp is the clock reading it was
    taken at. *)
Module DataLogger.

Record ChatRow := mkChatRow {
  chat_timestamp : Q;
  chat_channel : string;
  chat_user : string;
  chat_message_type : string;
  chat_message : string;
  chat_experiment_id : string;
  chat_irc_delay_ms : Z;
  chat_msg_length : Z
}.

Record SystemRow := mkSystemRow {
  sys_timestamp : Q;
  sys_event_type : string;
  sys_channel : string;
  sys_details : string;
  sys_severity : string
}.

Record t := mk {
  experiment_id : string;
  chat_rows : list ChatRow;
  system_rows : list SystemRow
}.

Definition log_chat (self : t) (timestamp : Q) (channel user msg_type message : string)
    (irc_delay : Z) : t :=
  mk (experiment_id self)
     (chat_rows self ++
        [mkChatRow timestamp channel (Py.lower user) msg_type message
                   (experiment_id self) irc_delay
                   (Z.of_nat (String.length message))])
     (system_rows self).

Definition log_system (self : t) (timestamp : Q)
    (event_type channel details severity : string) : t :=
  mk (experiment_id self) (chat_rows self)
     (system_rows self ++ [mkSystemRow timestamp event_type channel details severity]).

End DataLogger.

(** twitch_monitor_web.py: [RuntimeContext], the part the sessions use. *)
Module RuntimeContext.

Record t := mk {
  gui_queue : list PyVal;
  send_queue : list (string * string);
  control_queue : list string;
  bot_state : gmap string PyVal;
  data_logger : DataLogger.t;
  data_dir : option string;
  active_channels : gset string
}.

Definition set_gui_queue (c : t) (q : list PyVal) : t :=
  mk q (send_queue c) (control_queue c) (bot_state c) (data_logger c)
     (data_dir c) (active_channels c).

(** [gui_queue.put(item)] *)
Definition gui_put (c : t) (item : PyVal) : t :=
  set_gui_queue c (gui_queue c ++ [item]).

Definition set_send_queue (c : t) (q : list (string * string)) : t :=
  mk (gui_queue c) q (control_queue c) (bot_state c) (data_logger c)
     (data_dir c) (active_channels c).

Definition set_control_queue (c : t) (q : list string) : t :=
  mk (gui_queue c) (send_queue c) q (bot_state c) (data_logger c)
     (data_dir c) (active_channels c).

Definition set_bot_state (c : t) (b : gmap string PyVal) : t :=
  mk (gui_queue c) (send_queue c) (control_queue c) b (data_logger c)
     (data_dir c) (active_channels c).

Definition set_data_logger (c : t) (l : DataLogger.t) : t :=
  mk (gui_queue c) (send_queue c) (control_queue c) (bot_state c) l
     (data_dir c) (active_channels c).

Definition set_active_channels (c : t) (a : gset string) : t :=
  mk (gui_queue c) (send_queue c) (control_queue c) (bot_state c)
     (data_logger c) (data_dir c) a.

Definition log_chat (c : t) (timestamp : Q) (channel user msg_type message : string)
    (irc_delay : Z) : t :=
  set_data_logger c
    (DataLogger.log_chat (data_logger c) timestamp channel user msg_type message irc_delay).

Definition log_system (c : t) (timestamp : Q)
    (event_type channel details severity : string) : t :=
  set_data_logger c
    (DataLogger.log_system (data_logger c) timestamp event_type channel details severity).

End RuntimeContext.

(** The per-session metrics file ([json.dump] of a dictionary with these
    keys). *)
Module MetricsFile.

Record t := mk {
  shard_id : string;
  channels : list string;
  message_count : Z;
  runtime_seconds : Q;
  rate_limiter_metrics : TwitchLimiter.Report
}.

End MetricsFile.

(** ** twitch_chat_monitor/irc.py: class IRCShard *)

Definition BOT_USERNAME : string := "".
Definition TWITCH_OAUTH : string := "".
(** The analyzer module is not part of the public build: its import fails
    and the insight branch of [parse_privmsg] never runs. *)
Definition ANALYZER_AVAILABLE : bool := false.

Module IRCShard.

Record t := mk {
  channels : list string;
  shard_id : string;
  sock : option Socket;
  buffer : string;
  limiter : TwitchLimiter.t;
  running : bool;
  reconnect_delay : Z;
  message_count : Z;
  start_time : Q;
  username : string;
  data_dir : option string;
  channel_users : gmap string (gset string)
}.

(** The machine a session runs on: itself, the shared context, the clock
    ([time.time()] reads it, [time.sleep] and a receive timeout advance
    it), every [time.sleep] so far, and the files written.  Time passes
    in a sleep and in a receive that times out only, and then for as
    long as was asked and no longer: the least a real clock lets
    pass. *)
Record State := mkState {
  self : t;
  context : RuntimeContext.t;
  clock : Q;
  slept : list Q;
  files : gmap string MetricsFile.t
}.

Definition set_self (st : State) (s : t) : State :=
  mkState s (context st) (clock st) (slept st) (files st).
Definition set_context (st : State) (c : RuntimeContext.t) : State :=
  mkState (self st) c (clock st) (slept st) (files st).

(** [time.sleep(d)] *)
Definition sleep (st : State) (d : Q) : State :=
  mkState (self st) (context st) (clock st + d) (slept st ++ [d]) (files st).

Definition set_channels (s : t) (v : list string) : t :=
  mk v (shard_id s) (sock s) (buffer s) (limiter s) (running s)
     (reconnect_delay s) (message_count s) (start_time s) (username s)
     (data_dir s) (channel_users s).
Definition set_sock (s : t) (v : option Socket) : t :=
  mk (channels s) (shard_id s) v (buffer s) (limiter s) (running s)
     (reconnect_delay s) (message_count s) (start_time s) (username s)
     (data_dir s) (channel_users s).
Definition set_buffer (s : t) (v : string) : t :=
  mk (channels s) (shard_id s) (sock s) v (limiter s) (running s)
     (reconnect_delay s) (message_count s) (start_time s) (username s)
     (data_dir s) (channel_users s).
Definition set_limiter (s : t) (v : TwitchLimiter.t) : t :=
  mk (channels s) (shard_id s) (sock s) (buffer s) v (running s)
     (reconnect_delay s) (message_count s) (start_time s) (username s)
     (data_dir s) (channel_users s).
Definition set_running (s : t) (v : bool) : t :=
  mk (channels s) (shard_id s) (sock s) (buffer s) (limiter s) v
     (reconnect_delay s) (message_count s) (start_time s) (username s)
     (data_dir s) (channel_users s).
Definition set_reconnect_delay (s : t) (v : Z) : t :=
  mk (channels s) (shard_id s) (sock s) (buffer s) (limiter s) (running s)
     v (message_count s) (start_time s) (username s)
     (data_dir s) (channel_users s).
Definition set_message_count (s : t) (v : Z) : t :=
  mk (channels s) (shard_id s) (sock s) (buffer s) (limiter s) (running s)
     (reconnect_delay s) v (start_time s) (username s)
     (data_dir s) (channel_users s).
Definition set_channel_users (s : t) (v : gmap string (gset string)) : t :=
  mk (channels s) (shard_id s) (sock s) (buffer s) (limiter s) (running s)
     (reconnect_delay s) (message_count s) (start_time s) (username s)
     (data_dir s) v.

(** [__init__(channels, shard_id, context)] at clock reading [now]. *)
Definition init (channels : list string) (shard_id : string)
    (context : RuntimeContext.t) (now : Q) : t :=
  {| channels := channels;
     shard_id := shard_id;
     sock := None;
     buffer := "";
     limiter := TwitchLimiter.new now;
     running := true;
     reconnect_delay := 1;
     message_count := 0;
     start_time := now;
     username :=
       match RuntimeContext.bot_state context !! "bot_username" with
       | Some v => py_str v
       | None => BOT_USERNAME
       end;
     data_dir := RuntimeContext.data_dir context;
     channel_users :=
       list_to_map (map (fun chan => (Py.lower chan, (∅ : gset string))) channels) |}.

(** [stop] *)
Definition stop (s : t) : t :=
  set_sock (set_running s false) (sock_close <$> sock s).

(** The first loop of [part_channels]: a PART per channel, each followed
    by a notice on the GUI queue; a failed send is swallowed and its
    notice skipped. *)
Fixpoint send_parts (sk : Socket) (c : RuntimeContext.t) (chans : list string)
    : Socket * RuntimeContext.t :=
  match chans with
  | [] => (sk, c)
  | chan :: rest =>
      match sock_send sk ("PART #" +:+ chan +:+ Py.crlf) with
      | inr sk' =>
          send_parts sk'
            (RuntimeContext.gui_put c (msg3 chan "SYSTEM" ("Bot parted #" +:+ chan)))
            rest
      | inl _ => send_parts sk c rest
      end
  end.

(** [part_channels(channels_to_part)] *)
Definition part_channels (st : State) (channels_to_part : list string) : State :=
  match sock (self st) with
  | None => st
  | Some sk =>
      let '(sk', c') := send_parts sk (context st) channels_to_part in
      let s1 := set_sock (self st) (Some sk') in
      let s2 :=
        set_channels s1
          (filter (fun c => c ∉ channels_to_part) (channels s1)) in
      let s3 :=
        set_channel_users s2
          (foldl (fun users chan => delete (Py.lower chan) users)
                 (channel_users s2) channels_to_part) in
      set_context (set_self st s3) c'
  end.

(** The path of the snapshot a session writes. *)
Definition metrics_path (st : State) (dir : string) : string :=
  dir +:+ "/shard_" +:+ shard_id (self st) +:+ "_metrics.json".

(** [cleanup] *)
Definition cleanup (st : State) : State :=
  let st1 :=
    match sock (self st), channels (self st) with
    | Some _, _ :: _ => part_channels st (channels (self st))
    | _, _ => st
    end in
  let st2 := set_self st1 (set_sock (self st1) (sock_close <$> sock (self st1))) in
  match data_dir (self st2) with
  | None => st2
  | Some dir =>
      let metrics_file := metrics_path st2 dir in
      let metrics :=
        {| MetricsFile.shard_id := shard_id (self st2);
           MetricsFile.channels := channels (self st2);
           MetricsFile.message_count := message_count (self st2);
           MetricsFile.runtime_seconds := clock st2 - start_time (self st2);
           MetricsFile.rate_limiter_metrics :=
             TwitchLimiter.get_metrics (limiter (self st2)) (clock st2) |} in
      mkState (self st2) (context st2) (clock st2) (slept st2)
              (<[metrics_file := metrics]> (files st2))
  end.

(** The loop that starts tracking channels ([connect], [join_channels]):
    an empty speaker set per channel and a notice on the GUI queue. *)
Definition start_tracking (users : gmap string (gset string))
    (c : RuntimeContext.t) (chans : list string)
    : gmap string (gset string) * RuntimeContext.t :=
  foldl (fun '(users, c) chan =>
           let clean := Py.lower chan in
           (<[clean := (∅ : gset string)]> users,
            RuntimeContext.gui_put c
              (msg3 clean "SYSTEM"
                 "Collecting chatters in real-time from joins, parts & messages...")))
        (users, c) chans.

(** [join_channels(new_channels)] *)
Definition join_channels (st : State) (new_channels : list string) : State :=
  match sock (self st), new_channels with
  | None, _ | _, [] => st
  | Some sk, _ =>
      let fresh := filter (fun c => c ∉ channels (self st)) new_channels in
      match fresh with
      | [] => st
      | _ =>
          let join_str := Py.join "," (map (fun c => "#" +:+ c) fresh) in
          match sock_send sk ("JOIN " +:+ join_str +:+ Py.crlf) with
          | inr sk' =>
              let s1 := set_channels (set_sock (self st) (Some sk'))
                          (channels (self st) ++ fresh) in
              let c1 := RuntimeContext.gui_put (context st)
                          (msg3 "SYSTEM" "SYSTEM"
                             ("Joined additional channels: "
                                +:+ py_repr (VList (map VStr fresh)))) in
              let '(users, c2) := start_tracking (channel_users s1) c1 fresh in
              set_context (set_self st (set_channel_users s1 users)) c2
          | inl e =>
              set_context st
                (RuntimeContext.log_system (context st) (clock st)
                   "JOIN_FAILED" "ALL"
                   ("Shard " +:+ shard_id (self st) +:+ " failed to join "
                      +:+ py_repr (VList (map VStr fresh)) +:+ ": " +:+ exn_str e)
                   "WARNING")
          end
      end
  end.

(** [connect(channels)], called by [run] with [self.channels].
    [reachable] says whether the chat server accepts the TCP connection;
    when it refuses, [sock.connect] raises and [self.sock] is left
    holding the new, unconnected socket. *)
Definition connect (st : State) (reachable : bool) : option Exn * State :=
  let real_token :=
    match RuntimeContext.bot_state (context st) !! "oauth_token" with
    | Some v => py_str v
    | None => TWITCH_OAUTH
    end in
  if negb reachable then
    (Some (OSError "[Errno 111] Connection refused"),
     set_self st (set_sock (self st) (Some (mkSocket Unconnected []))))
  else
    let s := self st in
    let wire :=
      ["PASS " +:+ real_token +:+ Py.crlf;
       "NICK " +:+ username s +:+ Py.crlf;
       "CAP REQ :twitch.tv/tags twitch.tv/commands twitch.tv/membership" +:+ Py.crlf] in
    let '(wire, users, c) :=
      match channels s with
      | [] => (wire, channel_users s, context st)
      | _ =>
          let join_str := Py.join "," (map (fun c => "#" +:+ c) (channels s)) in
          let '(users, c) :=
            start_tracking (channel_users s) (context st) (channels s) in
          (wire ++ ["JOIN " +:+ join_str +:+ Py.crlf], users, c)
      end in
    let c := RuntimeContext.gui_put c
               (msg3 "SYSTEM" "SYSTEM"
                  ("Shard " +:+ shard_id s +:+ " connected to "
                     +:+ Py.str_of_Z (Z.of_nat (length (channels s)))
                     +:+ " channels")) in
    let c := RuntimeContext.log_system c (clock st) "SHARD_CONNECTED" "ALL"
               ("Shard " +:+ shard_id s +:+ " connected to channels: "
                  +:+ py_repr (VList (map VStr (channels s))))
               "INFO" in
    (None,
     set_context
       (set_self st
          (set_channel_users (set_sock s (Some (mkSocket Connected wire))) users))
       c).

(** The tag prefix of a line, [@k=v;k=v ...]: the items with an [=]
    become dictionary entries, later ones overriding earlier ones. *)
Definition parse_tags (tag_part : string) : gmap string string :=
  foldl (fun tags item =>
           if Py.contains "=" item then
             match Py.split1 "=" item with
             | [key; value] => <[key := value]> tags
             | _ => tags
             end
           else tags)
        ∅ (Py.split ";" (Py.tail tag_part)).

(** [header.split("!")[0][1:] if "!" in header else "Unknown"] *)
Definition raw_user_of (header : string) : string :=
  if Py.contains "!" header
  then Py.tail (hd "" (Py.split "!" header))
  else "Unknown".

(** Speaker tracking shared by [parse_privmsg] and [parse_presence]:
    a user not yet in the channel's set is added and logged. *)
Definition track_speaker (st : State) (chan user : string) : State :=
  match channel_users (self st) !! chan with
  | Some users =>
      if bool_decide (user ∈ users) then st
      else
        set_context
          (set_self st
             (set_channel_users (self st)
                (<[chan := {[user]} ∪ users]> (channel_users (self st)))))
          (RuntimeContext.log_system (context st) (clock st)
             "USER_PRESENT" chan user "INFO")
  | None => st
  end.

(** The [try] body of [parse_privmsg]. *)
Definition parse_privmsg_body (st : State) (line : string) : Exn + State :=
  let tagged :=
    if Py.startswith line "@" then
      match Py.split1 " " line with
      | [tag_part; rest] => inr (parse_tags tag_part, rest)
      | _ => inl (ValueError "not enough values to unpack (expected 2, got 1)")
      end
    else inr (∅, line) in
  match tagged with
  | inl e => inl e
  | inr (tags, line) =>
      match Py.split1 "PRIVMSG" line with
      | [header; body] =>
          let header := Py.strip header in
          let body := Py.strip body in
          if negb (Py.contains ":" body) then inr st
          else
            match Py.split1 ":" body with
            | [chan_part; msg_part] =>
                let chan := Py.lower (Py.lstrip "#" (Py.strip chan_part)) in
                let msg := Py.strip msg_part in
                let user := Py.lower (raw_user_of header) in
                let s := set_message_count (self st) (message_count (self st) + 1) in
                let c := RuntimeContext.log_chat (context st) (clock st)
                           chan user "CHAT" msg 0 in
                let c := RuntimeContext.gui_put c
                           (msg3 chan "CHAT" (user +:+ ": " +:+ msg)) in
                let is_subscriber :=
                  String.eqb (default "0" (tags !! "subscriber")) "1" in
                let user_id := default "0" (tags !! "user-id") in
                let c := RuntimeContext.log_system c (clock st)
                           "USER_METADATA" chan
                           ("user=" +:+ user +:+ " | id=" +:+ user_id
                              +:+ " | sub=" +:+ py_str (VBool is_subscriber))
                           "INFO" in
                inr (track_speaker (set_context (set_self st s) c) chan user)
            | _ => inl (ValueError "not enough values to unpack (expected 2, got 1)")
            end
      | _ => inr st
      end
  end.

(** [parse_privmsg]: whatever the body raises is logged as a parse error. *)
Definition parse_privmsg (st : State) (line : string) : State :=
  match parse_privmsg_body st line with
  | inr st' => st'
  | inl e =>
      set_context st
        (RuntimeContext.log_system (context st) (clock st)
           "PARSE_ERROR" "UNKNOWN" (exn_str e) "ERROR")
  end.

(** [parse_notice] *)
Definition parse_notice (st : State) (line : string) : State :=
  match Py.split1 "NOTICE" line with
  | [_; body] =>
      let body := Py.strip body in
      if Py.contains ":" body then
        match Py.split1 ":" body with
        | [chan_part; msg_part] =>
            let chan := Py.strip (Py.lstrip "#" (Py.strip chan_part)) in
            let msg := Py.strip msg_part in
            let c := RuntimeContext.gui_put (context st)
                       (msg3 chan "SYSTEM" ("[NOTICE] " +:+ msg)) in
            set_context st
              (RuntimeContext.log_system c (clock st) "IRC_NOTICE" chan msg "INFO")
        | _ =>
            set_context st
              (RuntimeContext.log_system (context st) (clock st)
                 "NOTICE_PARSE_ERROR" "UNKNOWN"
                 ("Failed to parse NOTICE: " +:+ line) "ERROR")
        end
      else st
  | _ => st
  end.

(** [parse_presence]; its bare [except] swallows everything. *)
Definition parse_presence (st : State) (line : string) : State :=
  if Py.contains "JOIN" line then
    match Py.split1 "JOIN" line with
    | [before; after] =>
        let user := Py.lower (raw_user_of before) in
        let chan := Py.lower (Py.lstrip "#" (Py.strip after)) in
        let st1 := set_context st
                     (RuntimeContext.log_system (context st) (clock st)
                        "USER_JOINED" chan user "INFO") in
        track_speaker st1 chan user
    | _ => st
    end
  else if Py.contains "PART" line then
    match Py.split1 "PART" line with
    | [before; after] =>
        let user := Py.lower (raw_user_of before) in
        let chan := Py.lower (Py.lstrip "#" (Py.strip after)) in
        let st1 := set_context st
                     (RuntimeContext.log_system (context st) (clock st)
                        "USER_PARTED" chan user "INFO") in
        match channel_users (self st1) !! chan with
        | Some users =>
            set_self st1
              (set_channel_users (self st1)
                 (<[chan := users ∖ {[user]}]> (channel_users (self st1))))
        | None => st1
        end
    | _ => st
    end
  else st.

(** *** The [run] loop

    What the environment does is given to the model as a script: per
    connection attempt, whether the server can be reached and what each
    [recv] of the connected loop returns. *)

Inductive RecvResult :=
| RecvTimeout                 (* socket.timeout after 0.1 s *)
| RecvFailed (e : Exn)        (* any other exception of recv *)
| RecvData (data : string).   (* the decoded bytes; empty when the peer closed *)

Inductive Attempt := mkAttempt (reachable : bool) (recvs : list RecvResult).

(** How a block of the loop body ends. *)
Inductive Flow := Continue | Break | Raise (e : Exn).

Definition no_socket : Exn :=
  AttributeError "'NoneType' object has no attribute 'send'".

(** The shutdown check at the top of the connected loop. *)
Definition check_control (st : State) : Flow * State :=
  match RuntimeContext.control_queue (context st) with
  | [] => (Continue, st)
  | item :: rest =>
      let st1 := set_context st (RuntimeContext.set_control_queue (context st) rest) in
      if String.eqb item "SHUTDOWN"
      then (Break, set_self st1 (set_running (self st1) false))
      else (Continue, st1)
  end.

(** [while not self.limiter.allow(): time.sleep(0.05)].  [fuel] bounds the
    number of [allow] calls; [None] means the bound was too small. *)
Fixpoint wait_for_limiter (fuel : nat) (st : State) : option State :=
  match fuel with
  | O => None
  | S fuel' =>
      let '(ok, lim) := TwitchLimiter.allow (limiter (self st)) (clock st) in
      let st1 := set_self st (set_limiter (self st) lim) in
      if ok then Some st1 else wait_for_limiter fuel' (sleep st1 (1 # 20))
  end.

(** The OUTGOING MESSAGES block. *)
Definition send_outgoing (fuel : nat) (st : State) : option (Flow * State) :=
  match RuntimeContext.send_queue (context st) with
  | [] => Some (Continue, st)
  | (target_chan, msg) :: rest =>
      let st0 := set_context st (RuntimeContext.set_send_queue (context st) rest) in
      let send_time := clock st0 in
      match wait_for_limiter fuel st0 with
      | None => None
      | Some st1 =>
          match sock (self st1) with
          | None => Some (Raise no_socket, st1)
          | Some sk =>
              match sock_send sk ("PRIVMSG #" +:+ target_chan +:+ " :" +:+ msg +:+ Py.crlf) with
              | inl e => Some (Raise e, st1)
              | inr sk' =>
                  let s := set_sock (self st1) (Some sk') in
                  let c := context st1 in
                  let c := RuntimeContext.set_bot_state c
                             (<[target_chan :=
                                  VDict [("last_msg", VStr msg);
                                         ("last_time", VFloat (clock st1))]]>
                                (RuntimeContext.bot_state c)) in
                  let c := RuntimeContext.log_chat c (clock st1) target_chan
                             (username s) "SELF" msg
                             (py_int_of_Q ((clock st1 - send_time) * 1000)) in
                  let c := RuntimeContext.gui_put c
                             (msg3 target_chan "SELF" ("You: " +:+ msg)) in
                  Some (Continue, set_context (set_self st1 s) c)
              end
          end
      end
  end.

(** The dispatch of the complete lines of one read; a failing send of the
    pong leaves the rest of the lines unread. *)
Fixpoint handle_lines (st : State) (lines : list string) : option Exn * State :=
  match lines with
  | [] => (None, st)
  | line :: rest =>
      if String.eqb line "" then handle_lines st rest
      else if Py.startswith line "PING" then
        match sock (self st) with
        | None => (Some no_socket, st)
        | Some sk =>
            match sock_send sk ("PONG :tmi.twitch.tv" +:+ Py.crlf) with
            | inl e => (Some e, st)
            | inr sk' => handle_lines (set_self st (set_sock (self st) (Some sk'))) rest
            end
        end
      else if Py.contains "PRIVMSG" line then handle_lines (parse_privmsg st line) rest
      else if Py.contains "NOTICE" line then handle_lines (parse_notice st line) rest
      else if Py.contains "JOIN" line || Py.contains "PART" line
      then handle_lines (parse_presence st line) rest
      else handle_lines st rest
  end.

Definition log_connection_error (st : State) (e : Exn) : State :=
  set_context st
    (RuntimeContext.log_system (context st) (clock st) "CONNECTION_ERROR" "ALL"
       ("Shard " +:+ shard_id (self st) +:+ ": " +:+ exn_str e) "ERROR").

(** The INCOMING MESSAGES block, given what [recv] returns. *)
Definition receive (st : State) (r : RecvResult) : Flow * State :=
  match r with
  | RecvTimeout =>
      (Continue,
       mkState (self st) (context st) (clock st + (1 # 10)) (slept st) (files st))
  | RecvFailed e => (Break, log_connection_error st e)
  | RecvData data =>
      if String.eqb data "" then (Break, st)
      else
        let lines := Py.split Py.crlf (buffer (self st) +:+ data) in
        let st1 := set_self st (set_buffer (self st) (List.last lines "")) in
        match handle_lines st1 (removelast lines) with
        | (None, st2) => (Continue, st2)
        | (Some e, st2) => (Break, log_connection_error st2 e)
        end
  end.

(** One pass through the body of the connected loop. *)
Definition connected_iteration (fuel : nat) (st : State) (r : RecvResult)
    : option (Flow * State) :=
  match check_control st with
  | (Break, st1) => Some (Break, st1)
  | (_, st1) =>
      match send_outgoing fuel st1 with
      | None => None
      | Some (Raise e, st2) => Some (Raise e, st2)
      | Some (_, st2) => Some (receive st2 r)
      end
  end.

(** The inner [while self.running:].  [Continue] is returned when the
    script ends with the session still in the loop. *)
Fixpoint connected_loop (fuel : nat) (st : State) (recvs : list RecvResult)
    : option (Flow * State) :=
  match recvs with
  | [] => Some (if running (self st) then Continue else Break, st)
  | r :: rest =>
      if negb (running (self st)) then Some (Break, st)
      else
        match connected_iteration fuel st r with
        | None => None
        | Some (Continue, st') => connected_loop fuel st' rest
        | Some (flow, st') => Some (flow, st')
        end
  end.

(** What handling incoming lines leaves alone: everything but the
    receive buffer, the speaker sets, the message counter, the GUI queue
    and the logs; on the socket only the list of what was sent grows. *)
Record untouched (st st' : State) : Prop := {
  same_running : running (self st') = running (self st);
  same_alive : sock_alive <$> sock (self st') = sock_alive <$> sock (self st);
  same_channels : channels (self st') = channels (self st);
  same_limiter : limiter (self st') = limiter (self st);
  same_reconnect_delay : reconnect_delay (self st') = reconnect_delay (self st);
  same_send_queue :
    RuntimeContext.send_queue (context st') = RuntimeContext.send_queue (context st);
  same_control_queue :
    RuntimeContext.control_queue (context st') = RuntimeContext.control_queue (context st);
  same_bot_state :
    RuntimeContext.bot_state (context st') = RuntimeContext.bot_state (context st);
  same_clock : clock st' = clock st;
  same_slept : slept st' = slept st;
  same_files : files st' = files st
}.


(** The limiter is certain to accept a call made at [t]: the minimum
    delay has passed and every recorded send has left the window. *)
Definition ready (lim : TwitchLimiter.t) (t : Q) : Prop :=
  TwitchLimiter.min_delay lim <= t - TwitchLimiter.last_message lim /\
  Forall (fun e => TwitchLimiter.window lim < t - e) (TwitchLimiter.events lim).

(** What the wait for the limiter changes between [st] and [st']: the
    limiter and the clock (and the naps taken); it ends with an accepted
    call made at the final clock reading. *)
Record waited (st st' : State) : Prop := {
  waited_self : self st' = set_limiter (self st) (limiter (self st'));
  waited_context : context st' = context st;
  waited_files : files st' = files st;
  waited_clock : clock st <= clock st';
  waited_last : TwitchLimiter.last_message (limiter (self st')) = clock st';
  waited_recorded :
    last (TwitchLimiter.events (limiter (self st'))) = Some (clock st')
}.

(** The specification's reading of the outgoing block: a session only
    takes items addressed to its own channels off the send queue. *)
Definition sends_only_own_channels : Prop :=
  forall (fuel : nat) (st st' : State) (target_chan msg : string)
         (rest : list (string * string)),
    RuntimeContext.send_queue (context st) = (target_chan, msg) :: rest ->
    send_outgoing fuel st = Some (Continue, st') ->
    RuntimeContext.send_queue (context st') = rest ->
    target_chan ∈ channels (self st).

(** A session that is running with nothing to send and no shutdown
    request pending. *)
Definition idle (st : State) : Prop :=
  running (self st) = true /\
  RuntimeContext.control_queue (context st) = [] /\
  RuntimeContext.send_queue (context st) = [].

(** A connection attempt that is refused, and one that succeeds and whose
    first read finds the connection closed by the peer. *)
Definition refused : Attempt := mkAttempt false [].
Definition accepted_then_closed : Attempt := mkAttempt true [RecvData ""].

(** The delays of [k] consecutive backoffs starting from delay 1:
    1, 2, 4, ... capped at 60. *)
Definition backoff_delays (k : nat) : list Q :=
  map (fun i => inject_Z (Z.min (2 ^ Z.of_nat i) 60)) (seq 0 k).

(** The [except Exception] of the outer loop: log, sleep for the current
    delay, then double it up to the cap. *)
Definition backoff (st : State) (e : Exn) : State :=
  let st1 :=
    set_context st
      (RuntimeContext.log_system (context st) (clock st) "RECONNECT_FAILED" "ALL"
         ("Shard " +:+ shard_id (self st) +:+ ": " +:+ exn_str e) "WARNING") in
  let st2 := sleep st1 (inject_Z (reconnect_delay (self st1))) in
  set_self st2
    (set_reconnect_delay (self st2) (Z.min (reconnect_delay (self st2) * 2) 60)).

(** [run]: the outer [while self.running:] over the script, then
    [cleanup].  The boolean tells whether the thread has terminated; it is
    [false] when the script ends first. *)
Fixpoint run (fuel : nat) (st : State) (script : list Attempt)
    : option (State * bool) :=
  match script with
  | [] => Some (if running (self st) then (st, false) else (cleanup st, true))
  | mkAttempt reachable recvs :: rest =>
      if negb (running (self st)) then Some (cleanup st, true)
      else
        match connect st reachable with
        | (Some e, st1) => run fuel (backoff st1 e) rest
        | (None, st1) =>
            let st2 := set_self st1 (set_reconnect_delay (self st1) 1) in
            match connected_loop fuel st2 recvs with
            | None => None
            | Some (Raise e, st3) => run fuel (backoff st3 e) rest
            | Some (Break, st3) => run fuel st3 rest
            | Some (Continue, st3) => Some (st3, false)
            end
        end
  end.

End IRCShard.

(** ** twitch_monitor_web.py: the shard manager *)

Definition MAX_CHANNELS_PER_CONN : nat := 10.

(** Python orders [str] by code point, lexicographically. *)
Definition str_le (a b : string) : Prop := String.leb a b = true.

#[global] Instance str_le_dec : RelDecision str_le :=
  fun a b => decide (String.leb a b = true).

(** [sorted(s)] for a set of strings: the sorted list is unique, so any
    sorting algorithm computes it. *)
Definition py_sorted (s : gset string) : list string :=
  merge_sort str_le (elements s).

(** [range(0, stop, step)] *)
Definition py_range_step (stop step : nat) : list nat :=
  map (fun k => (k * step)%nat) (seq 0 ((stop + step - 1) / step)).

(** [l[i:j]] for [0 <= i <= j] *)
Definition py_slice {A} (l : list A) (i j : nat) : list A :=
  take (j - i) (drop i l).

Module ShardManager.

(** [rebuild_shards]: [old] is the enclosing [shards] list.  Returns the
    old sessions as stopped and the new list; [now] is the clock reading
    the new sessions are created at. *)
Definition rebuild_shards (context : RuntimeContext.t) (old : list IRCShard.t)
    (now : Q) : list IRCShard.t * list IRCShard.t :=
  let stopped := map IRCShard.stop old in
  let channel_list := py_sorted (RuntimeContext.active_channels context) in
  let shards :=
    flat_map
      (fun i =>
         let shard_channels :=
           py_slice channel_list i (i + MAX_CHANNELS_PER_CONN) in
         match shard_channels with
         | [] => []
         | _ =>
             let shard_id :=
               "shard_" +:+ Py.str_of_Z (Z.of_nat (i / MAX_CHANNELS_PER_CONN)) in
             [IRCShard.init shard_channels shard_id context now]
         end)
      (py_range_step (length channel_list) MAX_CHANNELS_PER_CONN) in
  (stopped, shards).

(** The shards [rebuild_shards] creates. *)
Definition rebuilt (context : RuntimeContext.t) (now : Q) : list IRCShard.t :=
  snd (rebuild_shards context [] now).

End ShardManager.

(** ** twitch_chat_monitor/audio.py: the capture loop of [audio_worker] *)

Definition CHUNK_DURATION : Z := 5.
Definition SAMPLE_RATE : Z := 16000.

Module Audio.

(** [np.frombuffer(raw, dtype=np.float32)]: the little-endian 32-bit
    patterns of the samples; a buffer that is not a whole number of
    samples is a [ValueError]. *)
Fixpoint frombuffer_float32 (raw : list Byte.byte) : option (list Z) :=
  match raw with
  | [] => Some []
  | b0 :: b1 :: b2 :: b3 :: rest =>
      let word :=
        (Z.of_N (Byte.to_N b0)
         + Z.shiftl (Z.of_N (Byte.to_N b1)) 8
         + Z.shiftl (Z.of_N (Byte.to_N b2)) 16
         + Z.shiftl (Z.of_N (Byte.to_N b3)) 24)%Z in
      cons word <$> frombuffer_float32 rest
  | _ => None
  end.

(** An item of the audio queue. *)
Record Chunk := mkChunk {
  channel : string;
  audio_data : list Z;
  chunk_start : Z;
  chunk_end : Z
}.

(** What the inner loop works on: the chunk counter, the two shared
    queues and whether the ffmpeg child was asked to terminate. *)
Record State := mkState {
  idx : Z;
  audio_queue : list Chunk;
  control_queue : list string;
  terminated : bool
}.

Inductive Flow :=
| Continue            (* next iteration of the capture loop *)
| Break               (* stream ended: back to the outer loop *)
| Return              (* shutdown: the worker returns *)
| Raise (e : Exn).    (* caught by the outer loop as an audio crash *)

(** [chunk_size = 4 * SAMPLE_RATE * CHUNK_DURATION] *)
Definition chunk_size : Z := 4 * SAMPLE_RATE * CHUNK_DURATION.

(** One pass through the inner [while True:]; [raw] is what
    [process.stdout.read(chunk_size)] returns. *)
Definition capture_iteration (chan : string) (st : State) (raw : list Byte.byte)
    : Flow * State :=
  let '(shutdown, st) :=
    match control_queue st with
    | [] => (false, st)
    | item :: rest =>
        (String.eqb item "SHUTDOWN",
         mkState (idx st) (audio_queue st) rest (terminated st))
    end in
  if shutdown then
    (Return, mkState (idx st) (audio_queue st) (control_queue st) true)
  else
    match raw with
    | [] => (Break, st)
    | _ =>
        if (50 <? Z.of_nat (length (audio_queue st)))%Z then (Continue, st)
        else
          match frombuffer_float32 raw with
          | None =>
              (Raise (ValueError "buffer size must be a multiple of element size"), st)
          | Some samples =>
              (Continue,
               mkState (idx st + 1)
                 (audio_queue st ++
                    [mkChunk chan samples (idx st * CHUNK_DURATION)
                             ((idx st + 1) * CHUNK_DURATION)])
                 (control_queue st) (terminated st))
          end
    end.

(** The inner loop over the successive reads. *)
Fixpoint capture_loop (chan : string) (st : State) (reads : list (list Byte.byte))
    : Flow * State :=
  match reads with
  | [] => (Continue, st)
  | raw :: rest =>
      match capture_iteration chan st raw with
      | (Continue, st') => capture_loop chan st' rest
      | r => r
      end
  end.

End Audio.

(** ** twitch_chat_monitor/web/queue_bridge.py: class QueueBridge *)

(** [base64.b64encode(b).decode('utf-8')] *)
Definition b64_alphabet : list ascii :=
  list_ascii_of_string
    "ABCDEFGHIJKLMNOPQRSTUVWXYZabcdefghijklmnopqrstuvwxyz0123456789+/".

Definition b64_char (n : N) : ascii := nth (N.to_nat n) b64_alphabet "="%char.

Fixpoint b64encode (l : list Byte.byte) : string :=
  match l with
  | [] => ""
  | [a] =>
      let n := (Byte.to_N a * 65536)%N in
      String (b64_char (n / 262144))
        (String (b64_char ((n / 4096) mod 64)) "==")
  | [a; b] =>
      let n := (Byte.to_N a * 65536 + Byte.to_N b * 256)%N in
      String (b64_char (n / 262144))
        (String (b64_char ((n / 4096) mod 64))
           (String (b64_char ((n / 64) mod 64)) "="))
  | a :: b :: c :: rest =>
      let n := (Byte.to_N a * 65536 + Byte.to_N b * 256 + Byte.to_N c)%N in
      String (b64_char (n / 262144))
        (String (b64_char ((n / 4096) mod 64))
           (String (b64_char ((n / 64) mod 64))
              (String (b64_char (n mod 64)) (b64encode rest))))
  end.

(** The local time of day [datetime.now()] reads. *)
Record TimeOfDay := mkTimeOfDay { hour : nat; minute : nat; second : nat }.

Definition two_digits (n : nat) : string :=
  (if (n <? 10)%nat then "0" else "") +:+ Py.str_of_Z (Z.of_nat n).

(** [strftime("%H:%M:%S")] *)
Definition strftime_HMS (t : TimeOfDay) : string :=
  two_digits (hour t) +:+ ":" +:+ two_digits (minute t) +:+ ":"
    +:+ two_digits (second t).

(** [v == s] for a string literal [s]. *)
Definition py_eq_str (v : PyVal) (s : string) : bool :=
  match v with VStr s' => String.eqb s' s | _ => false end.

(** Truthiness. *)
Definition py_truthy (v : PyVal) : bool :=
  match v with
  | VNone => false
  | VBool b => b
  | VInt z => negb (z =? 0)%Z
  | VFloat q => negb (Qeq_bool q 0)
  | VStr s => negb (String.eqb s "")
  | VBytes b => negb (bool_decide (b = []))
  | VTuple l | VList l => negb (Nat.eqb (length l) 0)
  | VDict d => negb (Nat.eqb (length d) 0)
  end.

(** [v[:50]] is defined ([v] can be sliced). *)
Definition py_sliceable (v : PyVal) : bool :=
  match v with
  | VStr _ | VBytes _ | VTuple _ | VList _ => true
  | _ => false
  end.

Module QueueBridge.

(** What [socketio.emit(event, data)] was called with, in order.  Called
    without a recipient from the bridge thread, an emit is a broadcast to
    every connected client. *)
Definition Emitted := list (string * PyVal).

Definition index_error : Exn := IndexError "tuple index out of range".

(** [item[i]] on a tuple. *)
Definition tuple_get (l : list PyVal) (i : nat) : Exn + PyVal :=
  match l !! i with Some v => inr v | None => inl index_error end.

(** [_handle_metadata(channel, meta)] *)
Definition _handle_metadata (out : Emitted) (channel meta : PyVal)
    : option Exn * Emitted :=
  match meta with
  | VDict d =>
      let thumb_bytes := dict_get d "thumb_bytes" VNone in
      let thumb_b64 :=
        if py_truthy thumb_bytes then
          match thumb_bytes with
          | VBytes b => VStr (b64encode b)
          | _ => VNone
          end
        else VNone in
      (None,
       out ++ [("channel_meta",
                VDict [("channel", channel);
                       ("game", dict_get d "game" (VStr "Unknown"));
                       ("viewers", dict_get d "viewers" (VInt 0));
                       ("thumbnail", thumb_b64)])])
  | _ => (Some (AttributeError "object has no attribute 'get'"), out)
  end.

(** [_dispatch(item)]; [now] is the local time [datetime.now()] reads. *)
Definition _dispatch (out : Emitted) (item : PyVal) (now : TimeOfDay)
    : option Exn * Emitted :=
  match item with
  | VTuple l =>
      match tuple_get l 0 with
      | inl e => (Some e, out)
      | inr tag0 =>
          if py_eq_str tag0 "GUI_UPDATE_META" then
            match tuple_get l 1, tuple_get l 2 with
            | inr channel, inr meta => _handle_metadata out channel meta
            | inl e, _ | _, inl e => (Some e, out)
            end
          else if py_eq_str tag0 "ONLINE_PROMPT" then
            match tuple_get l 2 with
            | inl e => (Some e, out)
            | inr stream_info =>
                let '(channel, info) :=
                  match stream_info with
                  | VDict d => (dict_get d "user" (VStr "Unknown"), stream_info)
                  | _ => (VStr (py_str stream_info),
                          VDict [("user", VStr (py_str stream_info))])
                  end in
                (None,
                 out ++ [("stream_online",
                          VDict [("channel", channel); ("info", info)])])
            end
          else if py_eq_str tag0 "GUI_JOIN_NOW" then
            match tuple_get l 2 with
            | inl e => (Some e, out)
            | inr channel =>
                (None, out ++ [("channel_joined", VDict [("channel", channel)])])
            end
          else
            match l with
            | [channel; tag; text] =>
                if py_eq_str channel "SYSTEM" || py_eq_str channel "EXPERIMENT_DATA"
                then (None, out)
                else
                  let timestamp := strftime_HMS now in
                  if py_sliceable text then
                    (None,
                     out ++ [("chat_message",
                              VDict [("channel", channel); ("tag", tag);
                                     ("text", text);
                                     ("timestamp", VStr timestamp)])])
                  else (Some (TypeError "object is not subscriptable"), out)
            | _ => (None, out)
            end
      end
  | _ => (None, out)
  end.

(** One turn of [_poll_loop] with the bridge running: take the next item
    of the GUI queue, if any, and dispatch it; an exception is printed
    and the loop goes on. *)
Definition _poll_step (queue : list PyVal) (out : Emitted) (now : TimeOfDay)
    : list PyVal * Emitted :=
  match queue with
  | [] => ([], out)
  | item :: rest => (rest, snd (_dispatch out item now))
  end.

(** The tags of the three command shapes, and the reserved internal
    channels. *)
Definition command_tags : list string :=
  ["GUI_UPDATE_META"; "ONLINE_PROMPT"; "GUI_JOIN_NOW"].
Definition reserved_channels : list string := ["SYSTEM"; "EXPERIMENT_DATA"].

(** The [chat_message] event for [(channel, tag, text)] received at
    [now]. *)
Definition chat_message (channel tag text : string) (now : TimeOfDay)
    : string * PyVal :=
  ("chat_message",
   VDict [("channel", VStr channel); ("tag", VStr tag); ("text", VStr text);
          ("timestamp", VStr (strftime_HMS now))]).

End QueueBridge.

(** ** twitch_chat_monitor/web/socket_events.py *)

Module SocketEvents.

(** The handler functions the module defines. *)
Inductive Handler :=
| handle_connect
| handle_disconnect
| handle_send_chat
| handle_join_channel
| handle_skip_channel
| handle_get_channels
| handle_ping.

(** A [threading.Timer] that was started: when it is due and whether
    [cancel] was called on it. *)
Record Timer := mkTimer { deadline : Q; cancelled : bool }.

(** The module globals, Flask-SocketIO's handler registry, the timers
    started so far, the clock, the exit status once [os._exit] ran, what
    was emitted to which client, and the context [register] closed over
    ([None] in setup-only mode). *)
Record State := mkState {
  handlers : gmap string Handler;
  _connected_clients : gset string;
  _shutdown_timer : option nat;
  timers : list Timer;
  now : Q;
  exited : option Z;
  outbox : list (string * string * PyVal);
  context : option RuntimeContext.t
}.

(** The module as imported: nothing registered, nobody connected. *)
Definition initial (context : option RuntimeContext.t) (now : Q) : State :=
  mkState ∅ ∅ None [] now None [] context.

Definition set_handlers (st : State) (h : gmap string Handler) : State :=
  mkState h (_connected_clients st) (_shutdown_timer st) (timers st) (now st)
          (exited st) (outbox st) (context st).
Definition set_exited (st : State) (code : Z) : State :=
  mkState (handlers st) (_connected_clients st) (_shutdown_timer st) (timers st)
          (now st) (Some code) (outbox st) (context st).
Definition set_now (st : State) (t : Q) : State :=
  mkState (handlers st) (_connected_clients st) (_shutdown_timer st) (timers st)
          t (exited st) (outbox st) (context st).
Definition set_context (st : State) (c : option RuntimeContext.t) : State :=
  mkState (handlers st) (_connected_clients st) (_shutdown_timer st) (timers st)
          (now st) (exited st) (outbox st) c.

(** [emit(event, data)] inside a handler: to the client being served. *)
Definition emit (st : State) (sid event : string) (data : PyVal) : State :=
  mkState (handlers st) (_connected_clients st) (_shutdown_timer st) (timers st)
          (now st) (exited st) (outbox st ++ [(sid, event, data)]) (context st).

(** The statements of a function body that matter here. *)
Inductive Stmt :=
| Print (text : string)
| OsExit (code : Z)                      (* os._exit(code) *)
| On (event : string) (h : Handler).     (* @socketio.on(event) def h ... *)

(** The body of [register(socketio, context)]. *)
Definition register_body : list Stmt :=
  [On "connect" handle_connect; On "disconnect" handle_disconnect].

(** The body of [_trigger_shutdown()]. *)
Definition _trigger_shutdown_body : list Stmt :=
  [Print "[WebSocket] All clients disconnected. Exiting...";
   OsExit 0;
   On "send_chat" handle_send_chat;
   On "join_channel" handle_join_channel;
   On "skip_channel" handle_skip_channel;
   On "get_active_channels" handle_get_channels;
   On "ping" handle_ping].

(** Running a body: [os._exit] ends the process on the spot, and a
    decorator needs the name [socketio], which is a parameter of
    [register] and is not defined inside [_trigger_shutdown]. *)
Fixpoint exec (socketio_in_scope : bool) (body : list Stmt) (st : State)
    : option Exn * State :=
  match exited st with
  | Some _ => (None, st)
  | None =>
      match body with
      | [] => (None, st)
      | Print _ :: rest => exec socketio_in_scope rest st
      | OsExit code :: _ => (None, set_exited st code)
      | On event h :: rest =>
          if socketio_in_scope
          then exec socketio_in_scope rest
                 (set_handlers st (<[event := h]> (handlers st)))
          else (Some (NameError "name 'socketio' is not defined"), st)
      end
  end.

(** [register(socketio, context)] *)
Definition register (st : State) : State := snd (exec true register_body st).

(** [_trigger_shutdown()] *)
Definition _trigger_shutdown (st : State) : State :=
  snd (exec false _trigger_shutdown_body st).

Definition cancel (ts : list Timer) (i : nat) : list Timer :=
  alter (fun t => mkTimer (deadline t) true) i ts.

(** What each handler does for the client [sid]. *)
Definition run_handler (h : Handler) (sid : string) (data : PyVal) (st : State)
    : State :=
  match h with
  | handle_connect =>
      let '(timer, ts) :=
        match _shutdown_timer st with
        | Some i => (None, cancel (timers st) i)
        | None => (None, timers st)
        end in
      let st1 :=
        mkState (handlers st) ({[sid]} ∪ _connected_clients st) timer ts (now st)
                (exited st) (outbox st) (context st) in
      let st2 :=
        emit st1 sid "connected"
             (VDict [("status", VStr "ok"); ("sid", VStr sid)]) in
      match context st2 with
      | Some c =>
          emit st2 sid "active_channels"
               (VDict [("channels",
                        VList (map VStr (elements (RuntimeContext.active_channels c))))])
      | None => st2
      end
  | handle_disconnect =>
      let clients := _connected_clients st ∖ {[sid]} in
      if Nat.eqb (size clients) 0 then
        mkState (handlers st) clients (Some (length (timers st)))
                (timers st ++ [mkTimer (now st + 3) false]) (now st)
                (exited st) (outbox st) (context st)
      else
        mkState (handlers st) clients (_shutdown_timer st) (timers st) (now st)
                (exited st) (outbox st) (context st)
  | handle_send_chat =>
      match data with
      | VDict d =>
          match dict_get d "channel" VNone, dict_get d "message" (VStr "") with
          | VStr channel, VStr message =>
              let message := Py.strip message in
              match context st with
              | Some c =>
                  if negb (String.eqb channel "") && negb (String.eqb message "")
                  then
                    emit (set_context st
                            (Some (RuntimeContext.set_send_queue c
                                     (RuntimeContext.send_queue c ++ [(channel, message)]))))
                         sid "chat_sent"
                         (VDict [("channel", VStr channel); ("message", VStr message)])
                  else st
              | None => st
              end
          | _, _ => st
          end
      | _ => st
      end
  | handle_join_channel =>
      match data with
      | VDict d =>
          let channel := dict_get d "channel" VNone in
          match context st with
          | Some c =>
              if py_truthy channel then
                emit (set_context st
                        (Some (RuntimeContext.gui_put c
                                 (VTuple [VStr "GUI_JOIN_NOW"; VStr "SYSTEM"; channel]))))
                     sid "join_accepted" (VDict [("channel", channel)])
              else st
          | None => st
          end
      | _ => st
      end
  | handle_skip_channel =>
      match data with
      | VDict d =>
          emit st sid "channel_skipped"
               (VDict [("channel", dict_get d "channel" VNone)])
      | _ => st
      end
  | handle_get_channels =>
      match context st with
      | Some c =>
          emit st sid "active_channels"
               (VDict [("channels",
                        VList (map VStr (elements (RuntimeContext.active_channels c))))])
      | None => emit st sid "active_channels" (VDict [("channels", VList [])])
      end
  | handle_ping => emit st sid "pong" (VDict [("time", VFloat (now st))])
  end.

(** A timer that is due by [t] and was not cancelled. *)
Definition due (t : Q) (tm : Timer) : bool :=
  negb (cancelled tm) && Qle_bool (deadline tm) t.

(** What happens to the server process. *)
Inductive Event :=
| Deliver (event sid : string) (data : PyVal)   (* a WebSocket event arrives *)
| Elapse (d : Q).                               (* [d] seconds pass *)

Definition Connect (sid : string) : Event := Deliver "connect" sid VNone.
Definition Disconnect (sid : string) : Event := Deliver "disconnect" sid VNone.

Definition step (st : State) (e : Event) : State :=
  match exited st with
  | Some _ => st
  | None =>
      match e with
      | Deliver event sid data =>
          match handlers st !! event with
          | Some h => run_handler h sid data st
          | None => st
          end
      | Elapse d =>
          let st' := set_now st (now st + d) in
          if existsb (due (now st')) (timers st')
          then _trigger_shutdown st'
          else st'
      end
  end.

Definition steps (st : State) (es : list Event) : State := foldl step st es.


(** The registry [register] leaves behind. *)
Definition lifecycle_handlers : gmap string Handler :=
  <["disconnect" := handle_disconnect]> (<["connect" := handle_connect]> ∅).



End SocketEvents.

(** ** Sample states

    Concrete inputs at which the general statements below are
    instantiated. *)
Module Sample.

Definition logger : DataLogger.t := DataLogger.mk "20260101_160422" [] [].

(** A context with an empty active set and empty queues. *)
Definition context : RuntimeContext.t :=
  RuntimeContext.mk [] [] []
    (<["bot_username" := VStr "fame_bot"]>
       (<["oauth_token" := VStr "oauth:token"]> ∅))
    logger (Some "session_data/20260101_160422") ∅.

Definition channels23 : list string :=
  ["alpha"; "bravo"; "charlie"; "delta"; "echo"; "foxtrot"; "golf"; "hotel";
   "india"; "juliett"; "kilo"; "lima"; "mike"; "november"; "oscar"; "papa";
   "quebec"; "romeo"; "sierra"; "tango"; "uniform"; "victor"; "whiskey"].

(** The same context monitoring 23 channels. *)
Definition context23 : RuntimeContext.t :=
  RuntimeContext.set_active_channels context (list_to_set channels23).

(** A session for [channels], just created at clock reading 1700000000,
    with nothing slept and no file written. *)
Definition fresh (channels : list string) : IRCShard.State :=
  IRCShard.mkState (IRCShard.init channels "shard_0" context 1700000000)
                   context 1700000000 [] ∅.

(** The session for two channels once [connect] has succeeded. *)
Definition connected : IRCShard.State :=
  snd (IRCShard.connect (fresh ["foo"; "bar"]) true).

(** The well-formed chat line of the specification, the same line
    without the colon that starts the text, and a heartbeat. *)
Definition hello_line : string := ":alice!alice@x PRIVMSG #foo :hello".

(** The connected session for [foo] and [bar] with one message waiting
    on the send queue, addressed to a channel it does not own. *)
Definition connected_with_foreign_item : IRCShard.State :=
  IRCShard.set_context connected
    (RuntimeContext.set_send_queue (IRCShard.context connected) [("baz", "hi")]).

(** A capture worker on its fourth chunk with an audio queue of [depth]
    earlier chunks, and a read of two samples. *)
Definition capture (depth : nat) : Audio.State :=
  Audio.mkState 3 (replicate depth (Audio.mkChunk "foo" [] 0 5)) [] false.

Definition two_samples : list Byte.byte :=
  [Byte.x00; Byte.x00; Byte.x80; Byte.x3f; Byte.x00; Byte.x00; Byte.x00; Byte.x40].

Definition noon : TimeOfDay := mkTimeOfDay 12 0 7.

(** The WebSocket server with its handlers registered and one client
    attached. *)
Definition server_with_client : SocketEvents.State :=
  SocketEvents.step
    (SocketEvents.register (SocketEvents.initial (Some context) 0))
    (SocketEvents.Connect "sid-a").

End Sample.

(** ** Vocabulary for the properties of the incoming path *)

(** The GUI event [parse_privmsg] queues next to a chat row. *)
Definition chat_event (row : DataLogger.ChatRow) : PyVal :=
  msg3 (DataLogger.chat_channel row) (DataLogger.chat_message_type row)
       (DataLogger.chat_user row +:+ ": " +:+ DataLogger.chat_message row).

(** A three-element tuple whose tag is CHAT. *)
Definition is_chat_event (item : PyVal) : bool :=
  match item with
  | VTuple [_; tag; _] => py_eq_str tag "CHAT"
  | _ => false
  end.

(** What handling incoming lines adds between [st] and [st']: the chat
    rows [rows], as many counted messages, and GUI events of which the
    CHAT ones are those of the rows, in order. *)
Record chats_added (st st' : IRCShard.State) (rows : list DataLogger.ChatRow)
    : Prop := {
  added_rows :
    DataLogger.chat_rows (RuntimeContext.data_logger (IRCShard.context st'))
    = DataLogger.chat_rows (RuntimeContext.data_logger (IRCShard.context st))
      ++ rows;
  added_count :
    IRCShard.message_count (IRCShard.self st')
    = (IRCShard.message_count (IRCShard.self st) + Z.of_nat (length rows))%Z;
  added_events :
    exists events,
      RuntimeContext.gui_queue (IRCShard.context st')
      = RuntimeContext.gui_queue (IRCShard.context st) ++ events /\
      List.filter is_chat_event events = map chat_event rows;
  added_shape :
    Forall (fun row =>
              DataLogger.chat_message_type row = "CHAT" /\
              DataLogger.chat_timestamp row = IRCShard.clock st /\
              Py.lower (DataLogger.chat_channel row) = DataLogger.chat_channel row /\
              Py.lower (DataLogger.chat_user row) = DataLogger.chat_user row /\
              DataLogger.chat_msg_length row
              = Z.of_nat (String.length (DataLogger.chat_message row)))
           rows
}.

(** The speaker sets are kept under lower-case channel names and hold
    lower-case user names. *)
Definition lowercase_tracking (users : gmap string (gset string)) : Prop :=
  forall chan names,
    users !! chan = Some names ->
    Py.lower chan = chan /\ forall u, u ∈ names -> Py.lower u = u.

(** ** twitch_chat_monitor/irc.py: the sender's wait on a real clock

    [while not self.limiter.allow(): time.sleep(0.05)] when the time
    between one call of [allow] and the next is whatever the machine
    takes: [time.sleep(0.05)] returns after 0.05 s or later, and the
    calls take their time too.  [gaps] lists these times, one per nap;
    [None] means the loop is still waiting when they are used up.
    [IRCShard.wait_for_limiter] is this loop with every gap exactly
    0.05 s. *)

(** [time.sleep(0.05)] that returns [gap] seconds later. *)
Definition nap (st : IRCShard.State) (gap : Q) : IRCShard.State :=
  IRCShard.mkState (IRCShard.self st) (IRCShard.context st)
                   (IRCShard.clock st + gap)
                   (IRCShard.slept st ++ [1 # 20]) (IRCShard.files st).

Fixpoint wait_for_limiter_paced (gaps : list Q) (st : IRCShard.State)
    : option IRCShard.State :=
  let '(ok, lim) :=
    TwitchLimiter.allow (IRCShard.limiter (IRCShard.self st)) (IRCShard.clock st) in
  let st1 := IRCShard.set_self st (IRCShard.set_limiter (IRCShard.self st) lim) in
  if ok then Some st1
  else
    match gaps with
    | [] => None
    | gap :: rest => wait_for_limiter_paced rest (nap st1 gap)
    end.

(** The time [gaps] add up to. *)
Definition elapsed (gaps : list Q) : Q := foldr Qplus 0 gaps.

(** The reading past which the limiter is certain to accept a call: the
    last send plus the minimum delay while fewer sends than the limit
    are recorded, and plus the longer of the minimum delay and the
    window otherwise. *)
Definition ready_by (lim : TwitchLimiter.t) : Q :=
  TwitchLimiter.last_message lim
  + (if (Z.of_nat (length (TwitchLimiter.events lim)) <? TwitchLimiter.limit lim)%Z
     then TwitchLimiter.min_delay lim
     else if Qle_bool (TwitchLimiter.min_delay lim) (TwitchLimiter.window lim)
          then TwitchLimiter.window lim
          else TwitchLimiter.min_delay lim).

(** ** twitch_chat_monitor/irc.py: one pass of the outer loop of [run]

    [run] from just after the test of its outer [while self.running],
    for the connection attempt [a] and then the rest of the script: the
    [try] block with [connect] and the connected loop, the backoff when
    it raises, and the loop again. *)
Definition run_attempt (fuel : nat) (st : IRCShard.State) (a : IRCShard.Attempt)
    (rest : list IRCShard.Attempt) : option (IRCShard.State * bool) :=
  let 'IRCShard.mkAttempt reachable recvs := a in
  match IRCShard.connect st reachable with
  | (Some e, st1) => IRCShard.run fuel (IRCShard.backoff st1 e) rest
  | (None, st1) =>
      let st2 :=
        IRCShard.set_self st1
          (IRCShard.set_reconnect_delay (IRCShard.self st1) 1) in
      match IRCShard.connected_loop fuel st2 recvs with
      | None => None
      | Some (IRCShard.Raise e, st3) => IRCShard.run fuel (IRCShard.backoff st3 e) rest
      | Some (IRCShard.Break, st3) => IRCShard.run fuel st3 rest
      | Some (IRCShard.Continue, st3) => Some (st3, false)
      end
  end.

(** ** twitch_monitor_web.py: the orchestrator

    [main] and the closures it defines.  The web build's context carries
    two more attributes than the sessions use, [live_data] and
    [selected_channels]; with the enclosing variables of [main] they make
    up the state below.  A worker process is a [multiprocessing.Process];
    the dictionary [audio_procs] and the list [processes] hold references
    to the same objects, so the objects live in a table and both refer to
    them by index of creation.  The list [shards] holds the sessions as
    the orchestrator created them; what their threads do with them
    afterwards is the subject of the session model above, and nothing the
    orchestrator does depends on it. *)
Module Main.

Record Process := mkProcess {
  target : string;               (* the worker function *)
  arg_channel : option string;   (* its channel argument, if it has one *)
  alive : bool                   (* started and not terminated *)
}.

Record State := mkState {
  context : RuntimeContext.t;
  live_data : gmap string PyVal;
  selected_channels : gset string;
  shards : list IRCShard.t;
  retired : list IRCShard.t;     (* sessions stopped and dropped from [shards] *)
  table : list Process;
  audio_procs : gmap string nat;
  processes : list nat;
  channels_with_workers : gset string;
  known_live_channels : gset string
}.

Definition set_context (st : State) (c : RuntimeContext.t) : State :=
  mkState c (live_data st) (selected_channels st) (shards st) (retired st)
          (table st) (audio_procs st) (processes st)
          (channels_with_workers st) (known_live_channels st).
Definition set_selected_channels (st : State) (s : gset string) : State :=
  mkState (context st) (live_data st) s (shards st) (retired st)
          (table st) (audio_procs st) (processes st)
          (channels_with_workers st) (known_live_channels st).
Definition set_channels_with_workers (st : State) (s : gset string) : State :=
  mkState (context st) (live_data st) (selected_channels st) (shards st)
          (retired st) (table st) (audio_procs st) (processes st)
          s (known_live_channels st).

(** [rebuild_shards]: every session is stopped and dropped, and the
    sorted active set is cut into new sessions, created and started at
    clock reading [now]. *)
Definition rebuild_shards (st : State) (now : Q) : State :=
  let '(stopped, new) :=
    ShardManager.rebuild_shards (context st) (shards st) now in
  mkState (context st) (live_data st) (selected_channels st) new
          (retired st ++ stopped) (table st) (audio_procs st) (processes st)
          (channels_with_workers st) (known_live_channels st).

(** [p.terminate()] *)
Definition terminate (tbl : list Process) (pid : nat) : list Process :=
  alter (fun p => mkProcess (target p) (arg_channel p) false) pid tbl.

(** The body of the first loop of [update_audio_workers]; [chan] is a key
    of [audio_procs] there. *)
Definition stop_worker (st : State) (chan : string) : State :=
  match audio_procs st !! chan with
  | Some pid =>
      mkState (context st) (live_data st) (selected_channels st) (shards st)
              (retired st) (terminate (table st) pid)
              (delete chan (audio_procs st)) (processes st)
              (channels_with_workers st) (known_live_channels st)
  | None => st
  end.

(** The body of its second loop: a new process is created, started and
    recorded under the channel and in [processes]. *)
Definition start_worker (st : State) (chan : string) : State :=
  let pid := length (table st) in
  mkState (context st) (live_data st) (selected_channels st) (shards st)
          (retired st)
          (table st ++ [mkProcess "audio_worker" (Some chan) true])
          (<[chan := pid]> (audio_procs st)) (processes st ++ [pid])
          (channels_with_workers st) (known_live_channels st).

(** [update_audio_workers]; a set is iterated in the order of its
    [elements]. *)
Definition update_audio_workers (st : State) : State :=
  let current := dom (audio_procs st) in
  let needed := RuntimeContext.active_channels (context st) in
  let st1 := foldl stop_worker st (elements (current ∖ needed)) in
  foldl start_worker st1 (elements (needed ∖ current)).

(** [handle_join_channel(channel)] *)
Definition handle_join_channel (st : State) (channel : string) (now : Q) : State :=
  let c := context st in
  let c :=
    if bool_decide (channel ∈ RuntimeContext.active_channels c) then c
    else RuntimeContext.set_active_channels c
           ({[channel]} ∪ RuntimeContext.active_channels c) in
  let st := update_audio_workers (rebuild_shards (set_context st c) now) in
  set_context st
    (RuntimeContext.gui_put (context st)
       (msg3 channel "SYSTEM" ("Joined " +:+ channel))).

(** The body of the loop of [process_join_requests] over the channels
    that need workers: [handle_join_channel(ch)], then
    [channels_with_workers.add(ch)]. *)
Definition start_workers_for (now : Q) (st : State) (ch : string) : State :=
  let st := handle_join_channel st ch now in
  set_channels_with_workers st ({[ch]} ∪ channels_with_workers st).

(** One turn of the loop of [process_join_requests], after its sleep. *)
Definition process_join_requests (st : State) (now : Q) : State :=
  let channels_needing_workers :=
    RuntimeContext.active_channels (context st) ∖ channels_with_workers st in
  let st :=
    foldl (start_workers_for now) st (elements channels_needing_workers) in
  set_selected_channels st ∅.

(** The offline detection of [monitor_loop]: a notice per channel, then
    the channel leaves the active set. *)
Definition drop_offline (c : RuntimeContext.t) (went_offline : list string)
    : RuntimeContext.t :=
  foldl (fun c ch =>
           let c := RuntimeContext.gui_put c
                      (msg3 ch "SYSTEM" (ch +:+ " went offline")) in
           RuntimeContext.set_active_channels c
             (RuntimeContext.active_channels c ∖ {[ch]}))
        c went_offline.

(** Its prompts for streams that just went live. *)
Definition prompt_new_streams (c : RuntimeContext.t)
    (current_live_data : gmap string PyVal) (just_went_live : list string)
    : RuntimeContext.t :=
  foldl (fun c ch_name =>
           if bool_decide (ch_name ∈ RuntimeContext.active_channels c) then c
           else
             match current_live_data !! ch_name with
             | Some stream_info =>
                 RuntimeContext.gui_put c
                   (VTuple [VStr "ONLINE_PROMPT"; VStr "SYSTEM"; stream_info])
             | None => c
             end)
        c just_went_live.

(** Its metadata updates for the active channels. *)
Definition update_metadata (c : RuntimeContext.t)
    (current_live_data : gmap string PyVal) : RuntimeContext.t :=
  foldl (fun c ch =>
           match current_live_data !! ch with
           | Some data =>
               RuntimeContext.gui_put c
                 (VTuple [VStr "GUI_UPDATE_META"; VStr ch; data])
           | None => c
           end)
        c (elements (RuntimeContext.active_channels c)).

(** The body of the [try] of [monitor_loop] from the point the live
    status has been fetched: [current_live_data] is what
    [get_live_status] returned, keyed by lower-case login. *)
Definition monitor_pass (st : State) (current_live_data : gmap string PyVal)
    (now : Q) : State :=
  let current_live_names := dom current_live_data in
  let went_offline :=
    filter (fun ch => Py.lower ch ∉ current_live_names)
           (elements (RuntimeContext.active_channels (context st))) in
  let c := drop_offline (context st) went_offline in
  let just_went_live :=
    filter (fun ch => ch ∉ known_live_channels st)
           (elements current_live_names) in
  let c := prompt_new_streams c current_live_data just_went_live in
  let c := update_metadata c current_live_data in
  let st :=
    mkState c current_live_data (selected_channels st) (shards st) (retired st)
            (table st) (audio_procs st) (processes st)
            (channels_with_workers st) current_live_names in
  match went_offline with
  | [] => st
  | _ => update_audio_workers (rebuild_shards st now)
  end.

(** The state [main] starts from: nothing active, no session, no
    worker. *)
Definition initial (c : RuntimeContext.t) : State :=
  mkState (RuntimeContext.set_active_channels c ∅) ∅ ∅ [] [] [] ∅ [] ∅ ∅.

(** Every entry of [audio_procs] refers to a live process started for
    that channel. *)
Definition workers_ok (st : State) : Prop :=
  forall chan pid,
    audio_procs st !! chan = Some pid ->
    table st !! pid = Some (mkProcess "audio_worker" (Some chan) true).

(** The sessions' channel lists, put end to end, are the active set in
    sorted order: every active channel is owned by exactly one session
    and no session owns anything else. *)
Definition sessions_cover (st : State) : Prop :=
  concat (map IRCShard.channels (shards st))
  = py_sorted (RuntimeContext.active_channels (context st)).

(** The items [monitor_pass] queues. *)
Definition offline_notice (ch : string) : PyVal :=
  msg3 ch "SYSTEM" (ch +:+ " went offline").
Definition online_prompt (data : gmap string PyVal) (name : string) : PyVal :=
  VTuple [VStr "ONLINE_PROMPT"; VStr "SYSTEM"; default VNone (data !! name)].
Definition metadata_update (data : gmap string PyVal) (ch : string) : PyVal :=
  VTuple [VStr "GUI_UPDATE_META"; VStr ch; default VNone (data !! ch)].

End Main.

(** ** twitch_chat_monitor/web/routes.py: the channel routes *)

Module Routes.

(** What a view returns: the JSON body and the status code; an exception
    that escapes the view is Flask's 500 response. *)
Definition Response : Type := Exn + (PyVal * Z).

(** What calling a method [name] raises on a value [v] whose type does
    not have it. *)
Definition no_attribute (v : PyVal) (name : string) : Exn :=
  AttributeError
    ("'" +:+ py_type_name v +:+ "' object has no attribute '" +:+ name +:+ "'").

(** [join_channel]: [context] is [current_app.context], [data] is
    [request.json]. *)
Definition join_channel (context : option Main.State) (data : PyVal)
    : Response * option Main.State :=
  match data with
  | VDict d =>
      let value := dict_get d "channel" VNone in
      let value := if py_truthy value then value else VStr "" in
      match value with
      | VStr s =>
          let channel := Py.lower (Py.strip s) in
          if String.eqb channel "" then
            (inr (VDict [("error", VStr "No channel specified")], 400%Z), context)
          else
            match context with
            | None =>
                (inr (VDict [("error", VStr "Not initialized")], 500%Z), context)
            | Some st =>
                let c := Main.context st in
                let c := RuntimeContext.set_active_channels c
                           ({[channel]} ∪ RuntimeContext.active_channels c) in
                let st := Main.set_context st c in
                let st := Main.set_selected_channels st
                            ({[channel]} ∪ Main.selected_channels st) in
                let st := Main.set_context st
                            (RuntimeContext.gui_put (Main.context st)
                               (VTuple [VStr "GUI_JOIN_NOW"; VStr "SYSTEM";
                                        VStr channel])) in
                (inr (VDict [("success", VBool true); ("channel", VStr channel)],
                      200%Z),
                 Some st)
            end
      | _ => (inl (no_attribute value "strip"), context)
      end
  | _ => (inl (no_attribute data "get"), context)
  end.

(** [get_active_channels] *)
Definition get_active_channels (context : option Main.State) : Response :=
  match context with
  | None => inr (VDict [("channels", VList [])], 200%Z)
  | Some st =>
      inr (VDict [("channels",
                   VList (map VStr
                            (elements (RuntimeContext.active_channels
                                         (Main.context st)))))],
           200%Z)
  end.

End Routes.

(** ** More sample states *)
Module Case.

(** The orchestrator before any channel is selected, and with [foo] and
    [bar] active and their sessions and workers started. *)
Definition idle_main : Main.State := Main.initial Sample.context.

Definition two_channels : Main.State :=
  Main.process_join_requests
    (Main.set_context idle_main
       (RuntimeContext.set_active_channels Sample.context {["foo"; "bar"]}))
    1700000000.

(** Live data in which only [bar] is streaming. *)
Definition only_bar_live : gmap string PyVal :=
  {["bar" := VDict [("user", VStr "bar"); ("game", VStr "Chess");
                    ("viewers", VInt 12); ("thumb_bytes", VNone)]]}.

(** A connected session whose limiter has a limit of zero, with one
    message waiting to be sent. *)
Definition no_budget : IRCShard.State :=
  IRCShard.set_self Sample.connected_with_foreign_item
    (IRCShard.set_limiter (IRCShard.self Sample.connected_with_foreign_item)
       (TwitchLimiter.init 0 MSG_WINDOW MIN_MSG_DELAY 1700000000)).

(** The connected session for [foo] and [bar] just after a send: its
    limiter has accepted a call at the present clock reading. *)
Definition just_sent : IRCShard.State :=
  IRCShard.set_self Sample.connected
    (IRCShard.set_limiter (IRCShard.self Sample.connected)
       (TwitchLimiter.allow (IRCShard.limiter (IRCShard.self Sample.connected))
                            (IRCShard.clock Sample.connected)).2).

End Case.

(** ** twitch_chat_monitor/web/queue_bridge.py: the polling loop

    [_poll_loop] while [self.running] stays set: a turn per reading of
    the clock; a turn that finds the GUI queue empty times out and the
    loop goes on. *)
Fixpoint _poll_loop (queue : list PyVal) (out : QueueBridge.Emitted)
    (nows : list TimeOfDay) : list PyVal * QueueBridge.Emitted :=
  match nows with
  | [] => (queue, out)
  | now :: rest =>
      let '(queue, out) := QueueBridge._poll_step queue out now in
      _poll_loop queue out rest
  end.

(** ** twitch_chat_monitor/web/socket_events.py: runs of the server *)


(** ** twitch_chat_monitor/user_config.py

    The configuration dictionary, and the configuration file as
    [json.load] finds it. *)

(** [a and b] *)
Definition py_and (a b : PyVal) : PyVal := if py_truthy a then b else a.

(** What [json.load] reads back after [json.dump] wrote [v]: tuples
    come back as lists, and [bytes] cannot be written at all. *)
Fixpoint json_value (v : PyVal) : option PyVal :=
  match v with
  | VNone | VBool _ | VInt _ | VFloat _ | VStr _ => Some v
  | VBytes _ => None
  | VTuple l | VList l =>
      VList <$>
        (fix go (l : list PyVal) : option (list PyVal) :=
           match l with
           | [] => Some []
           | x :: rest =>
               match json_value x, go rest with
               | Some x', Some rest' => Some (x' :: rest')
               | _, _ => None
               end
           end) l
  | VDict d =>
      VDict <$>
        (fix go (d : list (string * PyVal)) : option (list (string * PyVal)) :=
           match d with
           | [] => Some []
           | (k, x) :: rest =>
               match json_value x, go rest with
               | Some x', Some rest' => Some ((k, x') :: rest')
               | _, _ => None
               end
           end) d
  end.

Module UserConfig.

Definition DEFAULT_CONFIG : gmap string PyVal :=
  list_to_map
    [("twitch_client_id", VStr ""); ("twitch_client_secret", VStr "");
     ("access_token", VStr ""); ("refresh_token", VStr "");
     ("bot_username", VStr ""); ("main_username", VStr "");
     ("setup_complete", VBool false)].

(** The configuration file: not there; there, with [open] or
    [json.load] raising [e] ([OSError] when it cannot be opened or read,
    [UnicodeDecodeError] when its bytes are not text, [JSONDecodeError]
    when the text is not JSON, [RecursionError] when the JSON is nested
    too deeply); cut short by a dump that failed, which leaves the
    beginning of a JSON document; or holding JSON text that parses to
    [saved]. *)
Inductive File :=
| Missing
| Raising (e : Exn)
| Truncated
| Parsed (saved : PyVal).

(** [except (json.JSONDecodeError, IOError)]: [IOError] is [OSError]. *)
Definition caught (e : Exn) : bool :=
  match e with
  | JSONDecodeError _ | OSError _ => true
  | _ => false
  end.

Record t := mk {
  config : gmap string PyVal;
  file : File
}.

(** The dictionary a parsed JSON object is: of two entries with the same
    key the later one wins. *)
Definition dict_of (d : list (string * PyVal)) : gmap string PyVal :=
  list_to_map (reverse d).

(** [_load]: an exception of [open] or [json.load] that the [except]
    clause does not name escapes; [{**DEFAULT_CONFIG, **saved}] needs
    [saved] to be a mapping, and the [TypeError] it raises otherwise is
    not among the exceptions caught either. *)
Definition _load (f : File) : Exn + gmap string PyVal :=
  match f with
  | Missing | Truncated => inr DEFAULT_CONFIG
  | Raising e => if caught e then inr DEFAULT_CONFIG else inl e
  | Parsed (VDict d) => inr (dict_of d ∪ DEFAULT_CONFIG)
  | Parsed saved =>
      inl (TypeError ("'" +:+ py_type_name saved +:+ "' object is not a mapping"))
  end.

(** [__init__] *)
Definition init (f : File) : Exn + t :=
  match _load f with
  | inr c => inr (mk c f)
  | inl e => inl e
  end.

(** [reload] *)
Definition reload (self : t) : Exn + t :=
  match _load (file self) with
  | inr c => inr (mk c (file self))
  | inl e => inl e
  end.

(** The entries [json.dump] writes for a dictionary, if every value can
    be written. *)
Definition json_entries (m : gmap string PyVal) : option (list (string * PyVal)) :=
  mapM (fun kv => pair kv.1 <$> json_value kv.2) (map_to_list m).

(** [save]: the file is truncated when it is opened, so a dump that
    fails part of the way leaves text behind that is not JSON. *)
Definition save (self : t) : option Exn * t :=
  match json_entries (config self) with
  | Some d => (None, mk (config self) (Parsed (VDict d)))
  | None =>
      (Some (TypeError "Object of type bytes is not JSON serializable"),
       mk (config self) Truncated)
  end.

(** [get(key, default)] *)
Definition get (self : t) (key : string) (default : PyVal) : PyVal :=
  match config self !! key with Some v => v | None => default end.

(** [is_setup_complete] *)
Definition is_setup_complete (self : t) : PyVal :=
  py_and (py_and (get self "setup_complete" (VBool false))
                 (get self "twitch_client_id" VNone))
         (get self "access_token" VNone).

(** [set(key, value)] *)
Definition set (self : t) (key : string) (value : PyVal) : t :=
  mk (<[key := value]> (config self)) (file self).

(** [update] with its keyword arguments, in the order given *)
Definition update (self : t) (kwargs : list (string * PyVal)) : option Exn * t :=
  save (mk (foldl (fun m kv => <[kv.1 := kv.2]> m) (config self) kwargs)
           (file self)).

(** Every value of the configuration is one JSON gives back as it
    was. *)
Definition json_stable (self : t) : Prop :=
  forall k v, config self !! k = Some v -> json_value v = Some v.

End UserConfig.

(** [x.strip()] for the values a JSON request holds: only a string has
    the method. *)
Definition py_str_strip (v : PyVal) : option string :=
  match v with VStr s => Some (Py.strip s) | _ => None end.

(** twitch_chat_monitor/web/routes.py: [save_setup] *)
Definition save_setup (user_config : UserConfig.t) (data : PyVal)
    : Routes.Response * UserConfig.t :=
  match data with
  | VDict d =>
      match py_str_strip (dict_get d "client_id" (VStr "")),
            py_str_strip (dict_get d "client_secret" (VStr "")),
            py_str_strip (dict_get d "username" (VStr "")) with
      | Some client_id, Some client_secret, Some username =>
          match UserConfig.update user_config
                  [("twitch_client_id", VStr client_id);
                   ("twitch_client_secret", VStr client_secret);
                   ("access_token", dict_get d "access_token" (VStr ""));
                   ("refresh_token", dict_get d "refresh_token" (VStr ""));
                   ("bot_username", VStr username);
                   ("main_username", VStr username);
                   ("setup_complete", VBool true)] with
          | (None, user_config) =>
              (inr (VDict [("success", VBool true)], 200%Z), user_config)
          | (Some e, user_config) => (inl e, user_config)
          end
      | None, _, _ =>
          (inl (Routes.no_attribute (dict_get d "client_id" (VStr "")) "strip"),
           user_config)
      | _, None, _ =>
          (inl (Routes.no_attribute (dict_get d "client_secret" (VStr "")) "strip"),
           user_config)
      | _, _, None =>
          (inl (Routes.no_attribute (dict_get d "username" (VStr "")) "strip"),
           user_config)
      end
  | _ => (inl (Routes.no_attribute data "get"), user_config)
  end.

(** * Properties *)

Section limiter.

Import TwitchLimiter.

Lemma Qltb_lt (x y : Q) : Qltb x y = true <-> x < y.
Proof.
  unfold Qltb. rewrite negb_true_iff, <- not_true_iff_false, Qle_bool_iff.
  split; [apply Qnot_le_lt | apply Qlt_not_le].
Qed.

Lemma Qltb_ge (x y : Q) : Qltb x y = false <-> y <= x.
Proof.
  unfold Qltb. rewrite negb_false_iff, Qle_bool_iff. reflexivity.
Qed.

Lemma popleft_expired_split (w now : Q) (events : list Q) :
  exists gone, events = gone ++ popleft_expired w now events /\
               Forall (fun d => w < now - d) gone.
Proof.
  induction events as [|e rest IH]; simpl.
  - exists []. split; [reflexivity | constructor].
  - destruct (Qltb w (now - e)) eqn:He.
    + destruct IH as (gone & Heq & Hall). exists (e :: gone). split.
      * simpl. congruence.
      * constructor; [by apply Qltb_lt | done].
    + exists []. split; [reflexivity | constructor].
Qed.

Lemma popleft_expired_length (w now : Q) (events : list Q) :
  (length (popleft_expired w now events) <= length events)%nat.
Proof.
  destruct (popleft_expired_split w now events) as (gone & Heq & _).
  rewrite Heq at 2. rewrite length_app. lia.
Qed.

Lemma popleft_expired_all (w now : Q) (events : list Q) :
  Forall (fun e => w < now - e) events -> popleft_expired w now events = [].
Proof.
  induction 1 as [|e rest He _ IH]; simpl; [done|].
  apply Qltb_lt in He. by rewrite He.
Qed.

(** The parameters never change. *)
Lemma allow_params (self : t) (now : Q) :
  limit (allow self now).2 = limit self /\
  window (allow self now).2 = window self /\
  min_delay (allow self now).2 = min_delay self /\
  start_time (allow self now).2 = start_time self.
Proof.
  unfold allow.
  destruct (Qltb _ _); [done|]. destruct (_ <? _)%Z; done.
Qed.



Lemma sends_in_window_app w t l1 l2 :
  sends_in_window w t (l1 ++ l2) =
  (sends_in_window w t l1 + sends_in_window w t l2)%nat.
Proof. unfold sends_in_window. by rewrite filter_app, length_app. Qed.

Lemma sends_in_window_le w t l : (sends_in_window w t l <= length l)%nat.
Proof. unfold sends_in_window. apply length_filter. Qed.

Lemma in_window_spec w t a : in_window w t a = true <-> t - w <= a /\ a <= t.
Proof. unfold in_window. by rewrite andb_true_iff, !Qle_bool_iff. Qed.

Lemma sends_in_window_expired w t now l :
  now <= t -> Forall (fun d => w < now - d) l -> sends_in_window w t l = 0%nat.
Proof.
  intros Ht Hall. unfold sends_in_window.
  induction Hall as [|d l Hd _ IH]; [done|].
  rewrite filter_cons. destruct (decide _) as [Hin|_]; [|exact IH].
  apply in_window_spec in Hin. lra.
Qed.

Lemma limiter_inv_init lim w md now :
  (0 <= lim)%Z -> limiter_inv (init lim w md now) [].
Proof.
  intros Hl. split; simpl.
  - exists []. split; [done | constructor].
  - constructor.
  - done.
  - intros t. unfold sends_in_window. simpl. lia.
  - intros i j a b _ Hi. by rewrite lookup_nil in Hi.
Qed.

Lemma allow_inv (self : t) (acc : list Q) (now : Q) :
  0 <= min_delay self ->
  limiter_inv self acc ->
  limiter_inv (allow self now).2
              (if (allow self now).1 then acc ++ [now] else acc).
Proof.
  intros Hmd [Hsplit Hlast Hlen Hwin Hsep]. unfold allow.
  destruct (Qltb (now - last_message self) (min_delay self)) eqn:Hgate; simpl.
  { by split. }
  apply Qltb_ge in Hgate.
  destruct (popleft_expired_split (window self) now (events self))
    as (gone' & Hev & Hgone').
  pose proof (popleft_expired_length (window self) now (events self)) as Hkl.
  destruct Hsplit as (gone & Hacc & Hgone).
  destruct (Z.of_nat (length (popleft_expired _ _ _)) <? limit self)%Z eqn:Hroom;
    simpl.
  - apply Z.ltb_lt in Hroom.
    assert (Hall : Forall (fun d => window self < now - d) (gone ++ gone')).
    { apply Forall_app. split; [|done].
      eapply Forall_impl; [exact Hgone|]. simpl. intros d Hd. lra. }
    split; simpl.
    + exists (gone ++ gone'). split; [|done].
      rewrite Hacc. rewrite Hev at 1. by rewrite !app_assoc.
    + apply Forall_app. split.
      * eapply Forall_impl; [exact Hlast|]. simpl. intros a Ha. lra.
      * constructor; [lra | constructor].
    + rewrite length_app. simpl. lia.
    + intros t. rewrite sends_in_window_app.
      destruct (in_window (window self) t now) eqn:Hin.
      * apply in_window_spec in Hin.
        rewrite Hacc. rewrite Hev at 1. rewrite app_assoc.
        rewrite sends_in_window_app.
        rewrite (sends_in_window_expired _ t now (gone ++ gone'));
          [|lra|done].
        pose proof (sends_in_window_le (window self) t
                      (popleft_expired (window self) now (events self))).
        pose proof (sends_in_window_le (window self) t [now]).
        simpl in *. lia.
      * unfold sends_in_window at 2. rewrite filter_cons, filter_nil.
        destruct (decide _) as [Hc|_]; [congruence|].
        simpl. specialize (Hwin t). lia.
    + intros i j a b Hij Hi Hj.
      destruct (decide (j < length acc)%nat) as [Hjl|Hjl].
      * rewrite lookup_app_l in Hi, Hj by lia. eauto.
      * assert (j = length acc) as ->.
        { apply lookup_lt_Some in Hj. rewrite length_app in Hj. simpl in Hj. lia. }
        rewrite lookup_app_l in Hi by lia.
        rewrite list_lookup_middle in Hj by done. injection Hj as <-.
        apply list_elem_of_lookup_2 in Hi.
        rewrite Forall_forall in Hlast. specialize (Hlast a Hi). lra.
  - apply Z.ltb_ge in Hroom.
    assert (gone' = []) as ->.
    { destruct gone' as [|g gs]; [done|]. exfalso.
      rewrite Hev in Hlen. rewrite length_app in Hlen. simpl in Hlen. lia. }
    simpl in Hev. rewrite <- Hev.
    split; simpl; eauto.
Qed.

Lemma allow_calls_inv (nows : list Q) : forall (self : t) (acc : list Q),
  0 <= min_delay self ->
  limiter_inv self acc ->
  limiter_inv (allow_calls self nows).2 (acc ++ accepted self nows) /\
  window (allow_calls self nows).2 = window self /\
  limit (allow_calls self nows).2 = limit self /\
  min_delay (allow_calls self nows).2 = min_delay self.
Proof.
  induction nows as [|now rest IH]; intros self acc Hmd Hinv; simpl.
  - by rewrite app_nil_r.
  - pose proof (allow_inv self acc now Hmd Hinv) as Hstep.
    destruct (allow_params self now) as (Hl & Hw & Hd & _).
    destruct (allow self now) as [ok self'] eqn:Hcall. simpl in *.
    assert (Hmd' : 0 <= min_delay self') by (by rewrite Hd).
    specialize (IH self' _ Hmd' Hstep).
    destruct (allow_calls self' rest) as [oks self''] eqn:Hrest. simpl in *.
    destruct IH as (IH & -> & -> & ->).
    split; [|done].
    destruct ok; [|done]. by rewrite <- app_assoc in IH.
Qed.


Lemma allow_refines_spec (self : t) (now : Q) :
  ((allow self now).1, events (allow self now).2,
   last_message (allow self now).2) =
  allow_spec (limit self) (window self) (min_delay self)
             (events self) (last_message self) now.
Proof.
  unfold allow, allow_spec.
  assert (Hev : forall l, popleft_expired (window self) now l =
                          evict_older_than (window self) now l).
  { induction l as [|e l IH]; simpl; [done|]. by rewrite IH. }
  rewrite Hev.
  destruct (Qltb _ _); [done|]. by destruct (_ <? _)%Z.
Qed.

Lemma allow_min_delay_blocked (self : t) (now : Q) :
  now - last_message self < min_delay self ->
  (allow self now).1 = false /\
  events (allow self now).2 = events self /\
  last_message (allow self now).2 = last_message self /\
  min_delay (allow self now).2 = min_delay self /\
  min_delay_blocked (metrics (allow self now).2) =
    (min_delay_blocked (metrics self) + 1)%Z /\
  rate_limited (metrics (allow self now).2) = rate_limited (metrics self) /\
  allowed_messages (metrics (allow self now).2) = allowed_messages (metrics self).
Proof.
  intros H. apply Qltb_lt in H. unfold allow. by rewrite H.
Qed.

Lemma burst_blocked (n : nat) : forall (self : t) (T : Q),
  T - last_message self < min_delay self ->
  (allow_calls self (repeat T n)).1 = repeat false n /\
  min_delay_blocked (metrics (allow_calls self (repeat T n)).2) =
    (min_delay_blocked (metrics self) + Z.of_nat n)%Z /\
  rate_limited (metrics (allow_calls self (repeat T n)).2) =
    rate_limited (metrics self) /\
  allowed_messages (metrics (allow_calls self (repeat T n)).2) =
    allowed_messages (metrics self).
Proof.
  induction n as [|n IH]; intros self T Hgate; simpl.
  - split; [done|]. split; [lia|done].
  - destruct (allow_min_delay_blocked self T Hgate)
      as (Hres & Hev & Hlast & Hmd & Hblk & Hrl & Hal).
    destruct (allow self T) as [ok self'] eqn:Hcall. simpl in *. subst ok.
    assert (Hgate' : T - last_message self' < min_delay self')
      by (by rewrite Hlast, Hmd).
    specialize (IH self' T Hgate').
    destruct (allow_calls self' (repeat T n)) as [oks self''] eqn:Hrest.
    simpl in *. destruct IH as (-> & -> & -> & ->).
    split; [done|]. split; [lia|]. by rewrite Hrl, Hal.
Qed.

Lemma first_call_accepted (start T : Q) :
  MIN_MSG_DELAY <= T ->
  (allow (new start) T).1 = true /\
  last_message (allow (new start) T).2 = T /\
  min_delay (allow (new start) T).2 = MIN_MSG_DELAY /\
  min_delay_blocked (metrics (allow (new start) T).2) = 0%Z /\
  rate_limited (metrics (allow (new start) T).2) = 0%Z /\
  allowed_messages (metrics (allow (new start) T).2) = 1%Z.
Proof.
  intros HT. unfold allow, new, init. simpl.
  assert (Qltb (T - 0) MIN_MSG_DELAY = false) as ->.
  { apply Qltb_ge. lra. }
  done.
Qed.

(** [accepted] lists exactly the readings of the calls that [allow_calls]
    answers with [true]. *)
Lemma accepted_are_the_true_calls (nows : list Q) : forall (self : t),
  accepted self nows =
  fst <$> filter (fun p : Q * bool => snd p = true)
                 (zip nows (allow_calls self nows).1).
Proof.
  induction nows as [|now rest IH]; intros self; [done|].
  cbn [accepted allow_calls].
  destruct (allow self now) as [ok self'].
  specialize (IH self'). destruct (allow_calls self' rest) as [oks self''].
  cbn [fst snd zip zip_with] in *. rewrite filter_cons.
  destruct ok; simpl; by rewrite IH.
Qed.

(** C1.  Whatever the clock readings of a sequence of [allow()] calls on a
    limiter with the default limit 20, window 30 and minimum delay 1.6:
    at most 20 accepted calls fall in any window [[t - 30, t]]; two
    accepted calls are at least 1.6 apart; a call is rejected at once
    when the minimum delay has not passed, otherwise expired timestamps
    are evicted from the front and the call is accepted exactly when
    fewer than 20 remain, the reading being appended and remembered as
    the last send; and 25 calls at one instant (a wall-clock reading, at
    least 1.6 s after the epoch) give one success, the first, and 24
    rejections by the minimum-delay check. *)
Theorem limiter_window_and_min_delay :
  (forall (start : Q) (nows : list Q) (t : Q),
     (sends_in_window MSG_WINDOW t (accepted (new start) nows) <= 20)%nat) /\
  (forall (start : Q) (nows : list Q) (i j : nat) (a b : Q),
     (i < j)%nat ->
     accepted (new start) nows !! i = Some a ->
     accepted (new start) nows !! j = Some b ->
     MIN_MSG_DELAY <= b - a) /\
  (forall (self : t) (now : Q),
     ((allow self now).1, events (allow self now).2,
      last_message (allow self now).2) =
     allow_spec (limit self) (window self) (min_delay self)
                (events self) (last_message self) now) /\
  (forall (start T : Q),
     MIN_MSG_DELAY <= T ->
     let '(results, after) := allow_calls (new start) (repeat T 25) in
     results = true :: repeat false 24 /\
     min_delay_blocked (metrics after) = 24%Z /\
     rate_limited (metrics after) = 0%Z /\
     allowed_messages (metrics after) = 1%Z).
Proof.
  assert (Hinv : forall start nows,
             limiter_inv (allow_calls (new start) nows).2
                         (accepted (new start) nows) /\
             window (allow_calls (new start) nows).2 = MSG_WINDOW /\
             limit (allow_calls (new start) nows).2 = MSG_LIMIT /\
             min_delay (allow_calls (new start) nows).2 = MIN_MSG_DELAY).
  { intros start nows.
    apply (allow_calls_inv nows (new start) []); [simpl; unfold MIN_MSG_DELAY; lra|].
    by apply limiter_inv_init. }
  repeat split.
  - intros start nows t.
    destruct (Hinv start nows) as ([_ _ _ Hwin _] & Hw & Hl & _).
    specialize (Hwin t). rewrite Hw, Hl in Hwin. unfold MSG_LIMIT in Hwin. lia.
  - intros start nows i j a b Hij Hi Hj.
    destruct (Hinv start nows) as ([_ _ _ _ Hsep] & _ & _ & Hd).
    rewrite Hd in Hsep. eauto.
  - apply allow_refines_spec.
  - intros start T HT. change (repeat T 25) with (T :: repeat T 24).
    cbn [allow_calls].
    destruct (first_call_accepted start T HT) as (Hok & Hlast & Hmd & Hb & Hr & Ha).
    destruct (allow (new start) T) as [ok self'] eqn:Hcall.
    cbn [fst snd] in *. subst ok.
    assert (Hgate : T - last_message self' < min_delay self').
    { rewrite Hlast, Hmd. unfold MIN_MSG_DELAY. lra. }
    destruct (burst_blocked 24 self' T Hgate) as (Hres & Hblk & Hrl & Hal).
    destruct (allow_calls self' (repeat T 24)) as [oks after] eqn:Hrest.
    cbn [fst snd] in *. subst oks. rewrite Hblk, Hrl, Hal, Hb, Hr, Ha. done.
Qed.

Lemma limiter_window_and_min_delay_witness :
  MIN_MSG_DELAY <= 1700000000 /\
  let '(results, after) := allow_calls (new 1700000000) (repeat 1700000000 25) in
  results = true :: repeat false 24 /\
  min_delay_blocked (metrics after) = 24%Z /\
  rate_limited (metrics after) = 0%Z /\
  allowed_messages (metrics after) = 1%Z.
Proof.
  assert (H : MIN_MSG_DELAY <= 1700000000) by (unfold MIN_MSG_DELAY; lra).
  split; [exact H|].
  exact (proj2 (proj2 (proj2 limiter_window_and_min_delay)) 1700000000 1700000000 H).
Defined.

End limiter.

Section shard_manager.

(** * The shard manager: [rebuild_shards] *)

Section chunking.
Context {A : Type}.
Implicit Types l : list A.

Lemma py_slice_take_drop l i n : py_slice l i (i + n) = take n (drop i l).
Proof. unfold py_slice. f_equal. lia. Qed.

(** The first [m] slices of width [n] make up the first [m * n] elements. *)
Lemma slices_concat l (n m : nat) :
  concat (map (fun i => py_slice l i (i + n))
              (map (fun k => (k * n)%nat) (seq 0 m)))
  = take (m * n) l.
Proof.
  induction m as [|m IH]; [done|].
  rewrite seq_S, !map_app, concat_app, IH. simpl.
  rewrite app_nil_r, py_slice_take_drop, take_take_drop.
  f_equal. lia.
Qed.

Lemma range_step_covers (len n : nat) :
  (0 < n)%nat -> (len <= (len + n - 1) / n * n)%nat.
Proof.
  intros Hn.
  pose proof (Nat.div_mod_eq (len + n - 1) n) as Hdm.
  pose proof (Nat.mod_upper_bound (len + n - 1) n) as Hub. nia.
Qed.

Lemma range_step_below (len n i : nat) :
  (0 < n)%nat -> i ∈ py_range_step len n -> (i < len)%nat.
Proof.
  intros Hn. unfold py_range_step. rewrite list_elem_of_fmap.
  intros (k & -> & Hk). apply elem_of_seq in Hk.
  pose proof (Nat.div_mod_eq (len + n - 1) n) as Hdm.
  pose proof (Nat.mod_upper_bound (len + n - 1) n) as Hub. nia.
Qed.

Lemma slices_partition l (n : nat) :
  (0 < n)%nat ->
  concat (map (fun i => py_slice l i (i + n)) (py_range_step (length l) n)) = l.
Proof.
  intros Hn. unfold py_range_step. rewrite slices_concat.
  apply take_ge. by apply range_step_covers.
Qed.

Lemma slice_bounds l (n i : nat) :
  (0 < n)%nat -> (i < length l)%nat ->
  (0 < length (py_slice l i (i + n)) <= n)%nat.
Proof.
  intros Hn Hi. rewrite py_slice_take_drop, length_take, length_drop. lia.
Qed.

(** In a list of groups whose concatenation has no duplicates, an element
    occurs in one group only. *)
Lemma concat_NoDup_unique (gs : list (list A)) :
  NoDup (concat gs) ->
  forall i j g g' x, gs !! i = Some g -> gs !! j = Some g' ->
                     x ∈ g -> x ∈ g' -> i = j.
Proof.
  induction gs as [|g0 gs IH]; intros Hnd i j g g' x Hi Hj Hx Hx'.
  { by rewrite lookup_nil in Hi. }
  simpl in Hnd. apply NoDup_app in Hnd as (_ & Hdisj & Hnd).
  assert (Hin : forall k h, gs !! k = Some h -> x ∈ h -> x ∈ concat gs).
  { intros k h Hk Hh. apply list_elem_of_In, in_concat. exists h.
    split; apply list_elem_of_In; [|done]. by eapply list_elem_of_lookup_2. }
  destruct i as [|i], j as [|j]; simpl in *.
  - done.
  - injection Hi as <-. exfalso. eapply Hdisj; eauto.
  - injection Hj as <-. exfalso. eapply Hdisj; eauto.
  - f_equal. eauto.
Qed.

End chunking.

Lemma str_le_total : Total str_le.
Proof. intros a b. apply String.leb_total. Qed.

Lemma py_sorted_perm (s : gset string) : py_sorted s ≡ₚ elements s.
Proof. apply merge_sort_Permutation. Qed.

Lemma py_sorted_length (s : gset string) : length (py_sorted s) = size s.
Proof. by rewrite py_sorted_perm. Qed.

(** The channel lists of the new sessions are the slices themselves: none
    is empty, so none is skipped. *)
Lemma rebuilt_groups (context : RuntimeContext.t) (now : Q) :
  map IRCShard.channels (ShardManager.rebuilt context now) =
  map (fun i => py_slice (py_sorted (RuntimeContext.active_channels context))
                         i (i + MAX_CHANNELS_PER_CONN))
      (py_range_step
         (length (py_sorted (RuntimeContext.active_channels context)))
         MAX_CHANNELS_PER_CONN).
Proof.
  unfold ShardManager.rebuilt, ShardManager.rebuild_shards. simpl.
  set (l := py_sorted _).
  assert (Hall : Forall (fun i => (i < length l)%nat)
                        (py_range_step (length l) MAX_CHANNELS_PER_CONN)).
  { apply Forall_forall. intros i Hi.
    eapply range_step_below; [|exact Hi]. unfold MAX_CHANNELS_PER_CONN. lia. }
  induction Hall as [|i rest Hi _ IH]; [done|].
  cbn [flat_map map]. rewrite map_app, IH. 
  pose proof (slice_bounds l MAX_CHANNELS_PER_CONN i) as Hb.
  destruct (py_slice l i (i + MAX_CHANNELS_PER_CONN)) eqn:Hs.
  - unfold MAX_CHANNELS_PER_CONN in Hb. simpl in Hb. lia.
  - done.
Qed.

Lemma str_le_spec (a b : string) :
  str_le a b <-> a = b \/ String_as_OT.lt a b.
Proof.
  unfold str_le, String.leb.
  rewrite <- String_as_OT.cmp_lt, <- String_as_OT.cmp_eq.
  unfold String_as_OT.cmp.
  destruct (String.compare a b); intuition congruence.
Qed.

Lemma str_le_trans : Transitive str_le.
Proof.
  intros a b c. rewrite !str_le_spec.
  intros [->|Hab] [->|Hbc]; eauto using String_as_OT.lt_trans.
Qed.

(** C3.  [rebuild_shards] cuts the sorted active set into consecutive
    groups of at most ten channels, one new session per group: the groups
    put end to end are the active channels in lexicographic order, every
    active channel is in exactly one group, and 23 active channels give
    three sessions of 10, 10 and 3 channels. *)
Theorem rebuild_shards_partitions_active_set
    (context : RuntimeContext.t) (now : Q) :
  let active := RuntimeContext.active_channels context in
  let groups := map IRCShard.channels (ShardManager.rebuilt context now) in
  concat groups = py_sorted active /\
  StronglySorted str_le (concat groups) /\
  Forall (fun g => (0 < length g <= 10)%nat) groups /\
  (forall c, c ∈ active <-> exists i g, groups !! i = Some g /\ c ∈ g) /\
  (forall c i j g g',
      groups !! i = Some g -> groups !! j = Some g' ->
      c ∈ g -> c ∈ g' -> i = j) /\
  (size active = 23%nat -> map length groups = [10; 10; 3]%nat).
Proof.
  intros active groups.
  assert (Hgroups : groups =
            map (fun i => py_slice (py_sorted active) i (i + MAX_CHANNELS_PER_CONN))
                (py_range_step (length (py_sorted active)) MAX_CHANNELS_PER_CONN))
    by apply rebuilt_groups.
  assert (Hcat : concat groups = py_sorted active).
  { rewrite Hgroups. apply slices_partition. unfold MAX_CHANNELS_PER_CONN. lia. }
  assert (Hnd : NoDup (concat groups)).
  { rewrite Hcat, py_sorted_perm. apply NoDup_elements. }
  split; [exact Hcat|]. split.
  { rewrite Hcat.
    apply (@StronglySorted_merge_sort _ str_le _ str_le_trans str_le_total). }
  split.
  { rewrite Hgroups. apply Forall_forall. intros g Hg.
    apply list_elem_of_fmap in Hg as (i & -> & Hi).
    apply slice_bounds; [lia|].
    eapply range_step_below; [|exact Hi]. unfold MAX_CHANNELS_PER_CONN. lia. }
  split.
  { intros c. rewrite <- elem_of_elements, <- py_sorted_perm, <- Hcat.
    rewrite list_elem_of_In, in_concat. split.
    - intros (g & Hg & Hc). apply list_elem_of_In, list_elem_of_lookup in Hg as [i Hi].
      exists i, g. by rewrite list_elem_of_In.
    - intros (i & g & Hi & Hc). exists g.
      rewrite <- !list_elem_of_In. eauto using list_elem_of_lookup_2. }
  split.
  { intros c i j g g'. apply (concat_NoDup_unique groups Hnd i j g g' c). }
  intros Hsize. rewrite Hgroups, py_sorted_length, Hsize.
  unfold py_range_step, MAX_CHANNELS_PER_CONN.
  change ((23 + 10 - 1) / 10)%nat with 3%nat. cbn [map seq].
  rewrite !py_slice_take_drop, !length_take, !length_drop.
  rewrite py_sorted_length, Hsize. reflexivity.
Qed.

Lemma rebuild_shards_partitions_active_set_witness :
  size (RuntimeContext.active_channels Sample.context23) = 23%nat /\
  map length (map IRCShard.channels (ShardManager.rebuilt Sample.context23 0))
  = [10; 10; 3]%nat.
Proof.
  assert (Hsize : size (RuntimeContext.active_channels Sample.context23) = 23%nat)
    by (vm_compute; reflexivity).
  split; [exact Hsize|].
  pose proof (rebuild_shards_partitions_active_set Sample.context23 0) as H.
  cbv zeta in H. destruct H as (_ & _ & _ & _ & _ & H). exact (H Hsize).
Defined.

Example rebuild_shards_23_channels :
  map (fun s => (IRCShard.shard_id s, IRCShard.channels s))
      (ShardManager.rebuilt Sample.context23 0) =
  [("shard_0", ["alpha"; "bravo"; "charlie"; "delta"; "echo"; "foxtrot";
                "golf"; "hotel"; "india"; "juliett"]);
   ("shard_1", ["kilo"; "lima"; "mike"; "november"; "oscar"; "papa";
                "quebec"; "romeo"; "sierra"; "tango"]);
   ("shard_2", ["uniform"; "victor"; "whiskey"])].
Proof. vm_compute. reflexivity. Qed.

End shard_manager.

Section session_cleanup.

Import IRCShard.

(** * The session: [cleanup] and the metrics snapshot *)

Lemma filter_not_in_self (l : list string) : filter (fun c => c ∉ l) l = [].
Proof.
  destruct (filter (fun c => c ∉ l) l) as [|x rest] eqn:E; [done|].
  assert (Hx : x ∈ filter (fun c => c ∉ l) l) by (rewrite E; left).
  apply list_elem_of_filter in Hx as [Hout Hin]. done.
Qed.

(** Parting every owned channel empties [self.channels]. *)
Lemma part_channels_own (st : State) (sk : Socket) :
  sock (self st) = Some sk ->
  channels (self (part_channels st (channels (self st)))) = [] /\
  data_dir (self (part_channels st (channels (self st)))) = data_dir (self st) /\
  shard_id (self (part_channels st (channels (self st)))) = shard_id (self st) /\
  files (part_channels st (channels (self st))) = files st /\
  is_Some (sock (self (part_channels st (channels (self st))))).
Proof.
  intros Hs. unfold part_channels. rewrite Hs.
  destruct (send_parts sk (context st) (channels (self st))) as [sk' c'].
  simpl. rewrite filter_not_in_self. eauto.
Qed.

(** Once a socket exists, the snapshot [cleanup] writes lists no channel
    at all, whatever the session owned. *)
Lemma cleanup_snapshot_channels_empty (st : State) (sk : Socket) (dir : string) :
  sock (self st) = Some sk ->
  data_dir (self st) = Some dir ->
  MetricsFile.channels <$> files (cleanup st) !! metrics_path st dir = Some [].
Proof.
  intros Hs Hd. unfold cleanup, metrics_path. rewrite Hs.
  destruct (channels (self st)) as [|c cs] eqn:Hc.
  - simpl. rewrite Hd. simpl. rewrite lookup_insert_eq. simpl. by rewrite Hc.
  - rewrite <- Hc.
    destruct (part_channels_own st sk Hs) as (Hch & Hdir & Hid & _ & _).
    remember (part_channels st (channels (self st))) as st1.
    simpl. rewrite Hdir, Hd. simpl.
    rewrite Hid, lookup_insert_eq. simpl. by rewrite Hch.
Qed.

(** Without a socket (the session never reached [connect]) nothing is
    parted and the snapshot lists the session's channels. *)
Lemma cleanup_snapshot_channels_unconnected (st : State) (dir : string) :
  sock (self st) = None ->
  data_dir (self st) = Some dir ->
  MetricsFile.channels <$> files (cleanup st) !! metrics_path st dir
  = Some (channels (self st)).
Proof.
  intros Hs Hd. unfold cleanup, metrics_path. rewrite Hs. simpl.
  rewrite Hd. simpl. by rewrite lookup_insert_eq.
Qed.

(** On a live socket every owned channel is parted, in order. *)
Lemma send_parts_alive (chans : list string) : forall (sk : Socket) (c : RuntimeContext.t),
  sock_alive sk = true ->
  send_parts sk c chans =
    (mkSocket Connected
       (sock_sent sk ++ map (fun chan => "PART #" +:+ chan +:+ Py.crlf) chans),
     foldl (fun c chan =>
              RuntimeContext.gui_put c (msg3 chan "SYSTEM" ("Bot parted #" +:+ chan)))
           c chans).
Proof.
  induction chans as [|chan rest IH]; intros sk c Hlive; cbn [send_parts map foldl].
  - rewrite app_nil_r. by destruct sk as [[] ?].
  - unfold sock_send. rewrite Hlive. rewrite IH by done. cbn [sock_sent].
    by rewrite <- app_assoc.
Qed.

(** What [cleanup] does get right on a connected session: a PART for every
    owned channel, the socket closed, and a snapshot under the session's
    path holding the message count, the uptime and the limiter metrics. *)
Lemma cleanup_parts_closes_and_writes (st : State) (sk : Socket) (dir : string) :
  sock (self st) = Some sk -> sock_alive sk = true ->
  data_dir (self st) = Some dir ->
  sock (self (cleanup st)) =
    Some (mkSocket Closed
            (sock_sent sk ++
               map (fun chan => "PART #" +:+ chan +:+ Py.crlf) (channels (self st)))) /\
  exists snapshot,
    files (cleanup st) !! metrics_path st dir = Some snapshot /\
    MetricsFile.shard_id snapshot = shard_id (self st) /\
    MetricsFile.message_count snapshot = message_count (self st) /\
    MetricsFile.runtime_seconds snapshot = clock st - start_time (self st) /\
    MetricsFile.rate_limiter_metrics snapshot =
      TwitchLimiter.get_metrics (limiter (self st)) (clock st).
Proof.
  intros Hs Hlive Hd. unfold cleanup, metrics_path. rewrite Hs.
  destruct (channels (self st)) as [|c cs] eqn:Hc.
  - simpl. rewrite Hs, Hd. simpl. rewrite app_nil_r. split; [done|].
    eexists. by rewrite lookup_insert_eq.
  - rewrite <- Hc. unfold part_channels. rewrite Hs.
    rewrite (send_parts_alive _ _ _ Hlive). simpl. rewrite Hd. simpl.
    split; [done|]. eexists. by rewrite lookup_insert_eq.
Qed.

(** C4, at a session that owns [foo] and [bar] and is connected: the
    snapshot's channel list is empty although Closing began with two
    channels owned. *)
Example cleanup_snapshot_loses_channels :
  channels (self Sample.connected) = ["foo"; "bar"] /\
  MetricsFile.channels <$>
    files (cleanup Sample.connected)
      !! "session_data/20260101_160422/shard_shard_0_metrics.json"
  = Some [].
Proof.
  split; [reflexivity|].
  vm_compute. reflexivity.
Qed.

End session_cleanup.

Section line_framing.

(** * Strings: cutting at a separator and joining again *)

Lemma append_cons (c : ascii) (s t : string) :
  String c s +:+ t = String c (s +:+ t).
Proof. reflexivity. Qed.

Lemma append_nil_r (s : string) : s +:+ "" = s.
Proof. induction s as [|c s IH]; [done | by rewrite append_cons, IH]. Qed.

Lemma append_assoc (a b c : string) : (a +:+ b) +:+ c = a +:+ (b +:+ c).
Proof. induction a as [|x a IH]; [done | by rewrite !append_cons, IH]. Qed.


Lemma string_of_list_ascii_app (l1 l2 : list ascii) :
  string_of_list_ascii (l1 ++ l2)
  = string_of_list_ascii l1 +:+ string_of_list_ascii l2.
Proof.
  induction l1 as [|x l1 IH]; [done|].
  cbn [app string_of_list_ascii]. by rewrite append_cons, IH.
Qed.

Lemma rev_string_cons (c : ascii) (cur : list ascii) (rest : string) :
  Py.rev_string (c :: cur) +:+ rest = Py.rev_string cur +:+ String c rest.
Proof.
  unfold Py.rev_string. cbn [rev].
  by rewrite string_of_list_ascii_app, append_assoc.
Qed.








(** A string that holds the separator nowhere starts with it nowhere. *)
Lemma contains_cons (sep : string) (c : ascii) (s : string) :
  Py.contains sep (String c s) = false ->
  String.prefix sep (String c s) = false /\ Py.contains sep s = false.
Proof.
  unfold Py.contains. cbn [index].
  destruct (String.prefix sep (String c s)); [done|].
  by destruct (index 0 sep s).
Qed.

(** The first line of a read: what comes before the first CRLF is the
    first field, and the cutting goes on after it. *)
Lemma split_go_line (line : string) : forall (cur : list ascii) (rest : string),
  Py.contains Py.crlf line = false ->
  Py.split_go Py.crlf None 0 cur (line +:+ Py.crlf +:+ rest)
  = (Py.rev_string cur +:+ line) :: Py.split_go Py.crlf None 0 [] rest.
Proof.
  induction line as [|c l IH]; intros cur rest Hno.
  - rewrite append_nil_r.
    change ("" +:+ Py.crlf +:+ rest) with (String "013" (String "010" rest)).
    unfold Py.crlf. cbn. by destruct rest.
  - apply contains_cons in Hno as [Hpre Hno].
    rewrite append_cons. cbn [Py.split_go].
    assert (String.prefix Py.crlf (String c (l +:+ Py.crlf +:+ rest)) = false) as ->.
    { destruct l as [|c2 l'].
      - change ("" +:+ Py.crlf +:+ rest) with (String "013" (String "010" rest)).
        unfold Py.crlf. cbn [String.prefix].
        destruct (ascii_dec "013" c); [|done]. by destruct (ascii_dec "010" "013").
      - rewrite append_cons. unfold Py.crlf in Hpre |- *.
        cbn [String.prefix] in Hpre |- *.
        destruct (ascii_dec "013" c); [|done].
        destruct (ascii_dec "010" c2); [|done]. by destruct l'. }
    rewrite IH by exact Hno. by rewrite rev_string_cons.
Qed.

(** A read that ends a single line: the line is the one complete field
    and nothing is left over. *)
Lemma split_line (line : string) :
  Py.contains Py.crlf line = false ->
  Py.split Py.crlf (line +:+ Py.crlf) = [line; ""].
Proof.
  intros Hno. unfold Py.split.
  rewrite <- (append_nil_r Py.crlf) at 2.
  by rewrite (split_go_line line [] "" Hno).
Qed.




End line_framing.

Section session_lines.

Import IRCShard.

(** * The session: line dispatch and parsing *)

Lemma untouched_refl (st : State) : untouched st st.
Proof. by split. Qed.

Lemma untouched_trans (st1 st2 st3 : State) :
  untouched st1 st2 -> untouched st2 st3 -> untouched st1 st3.
Proof. intros [] []. split; congruence. Qed.

Lemma track_speaker_untouched (st : State) (chan user : string) :
  untouched st (track_speaker st chan user).
Proof. unfold track_speaker. repeat case_match; by split. Qed.

Lemma track_speaker_events (st : State) (chan user : string) :
  RuntimeContext.gui_queue (context (track_speaker st chan user))
    = RuntimeContext.gui_queue (context st) /\
  DataLogger.chat_rows (RuntimeContext.data_logger (context (track_speaker st chan user)))
    = DataLogger.chat_rows (RuntimeContext.data_logger (context st)) /\
  message_count (self (track_speaker st chan user)) = message_count (self st).
Proof. unfold track_speaker. repeat case_match; done. Qed.

Lemma parse_privmsg_untouched (st : State) (line : string) :
  untouched st (parse_privmsg st line).
Proof.
  unfold parse_privmsg, parse_privmsg_body.
  repeat case_match; simplify_eq;
    try (eapply untouched_trans; [|apply track_speaker_untouched]);
    by split.
Qed.

Lemma parse_notice_untouched (st : State) (line : string) :
  untouched st (parse_notice st line).
Proof. unfold parse_notice. repeat case_match; by split. Qed.

Lemma parse_presence_untouched (st : State) (line : string) :
  untouched st (parse_presence st line).
Proof.
  unfold parse_presence.
  repeat case_match; simplify_eq;
    try (eapply untouched_trans; [|apply track_speaker_untouched]);
    by split.
Qed.

(** Dispatching the lines of a read only ever touches what [untouched]
    leaves out. *)
Lemma handle_lines_untouched (lines : list string) : forall (st : State),
  untouched st (handle_lines st lines).2.
Proof.
  induction lines as [|line rest IH]; intros st; [apply untouched_refl|].
  assert (Hnext : forall st1, untouched st st1 ->
                              untouched st (handle_lines st1 rest).2).
  { intros st1 Hu. eapply untouched_trans; [exact Hu | apply IH]. }
  cbn [handle_lines].
  destruct (String.eqb line ""); [apply Hnext, untouched_refl|].
  destruct (Py.startswith line "PING").
  { destruct (sock (self st)) as [sk|] eqn:Hsk; [|apply untouched_refl].
    unfold sock_send. destruct (sock_alive sk) eqn:Hlive; [|apply untouched_refl].
    apply Hnext. split; try done. simpl. rewrite Hsk. simpl. by rewrite Hlive. }
  destruct (Py.contains "PRIVMSG" line); [apply Hnext, parse_privmsg_untouched|].
  destruct (Py.contains "NOTICE" line); [apply Hnext, parse_notice_untouched|].
  destruct (_ || _); [apply Hnext, parse_presence_untouched|].
  apply Hnext, untouched_refl.
Qed.


(** Receiving never touches the send queue. *)
Lemma receive_send_queue (st : State) (r : RecvResult) :
  RuntimeContext.send_queue (context (receive st r).2)
  = RuntimeContext.send_queue (context st).
Proof.
  destruct r as [|e|data]; [done | done |]. unfold receive.
  destruct (String.eqb data ""); [done|].
  set (lines := Py.split Py.crlf _).
  set (st1 := set_self st _).
  pose proof (handle_lines_untouched (removelast lines) st1) as Hu.
  destruct (handle_lines st1 (removelast lines)) as [[e|] st2]; simpl in *;
    by rewrite (same_send_queue _ _ Hu).
Qed.









End session_lines.

Section session_backoff.

Import IRCShard.

(** * The session: reconnect backoff *)

(** The delay after [k] consecutive failures, starting from 1. *)
Lemma backoff_delay_closed (k : nat) :
  Nat.iter k (fun d => Z.min (d * 2) 60) 1%Z = Z.min (2 ^ Z.of_nat k) 60.
Proof.
  induction k as [|k IH]; [done|].
  rewrite Nat.iter_succ, IH, Nat2Z.inj_succ, Z.pow_succ_r by lia.
  assert (0 < 2 ^ Z.of_nat k)%Z by (apply Z.pow_pos_nonneg; lia). lia.
Qed.

(** Tracking new channels only touches the GUI queue. *)
Lemma start_tracking_frame (chans : list string) :
  forall users c,
    RuntimeContext.control_queue (start_tracking users c chans).2
      = RuntimeContext.control_queue c /\
    RuntimeContext.send_queue (start_tracking users c chans).2
      = RuntimeContext.send_queue c /\
    RuntimeContext.bot_state (start_tracking users c chans).2
      = RuntimeContext.bot_state c /\
    RuntimeContext.data_logger (start_tracking users c chans).2
      = RuntimeContext.data_logger c.
Proof.
  unfold start_tracking.
  induction chans as [|x l IH]; intros users c; [done|].
  simpl. by destruct (IH (<[Py.lower x := ∅]> users)
    (RuntimeContext.gui_put c (msg3 (Py.lower x) "SYSTEM"
       "Collecting chatters in real-time from joins, parts & messages...")))
    as (-> & -> & -> & ->).
Qed.

Lemma backoff_effect (st : State) (e : Exn) :
  slept (backoff st e) = slept st ++ [inject_Z (reconnect_delay (self st))] /\
  reconnect_delay (self (backoff st e)) = Z.min (reconnect_delay (self st) * 2) 60 /\
  (idle st -> idle (backoff st e)).
Proof. done. Qed.

Lemma connect_refused (st : State) :
  exists e, (connect st false).1 = Some e /\
    slept (connect st false).2 = slept st /\
    reconnect_delay (self (connect st false).2) = reconnect_delay (self st) /\
    (idle st -> idle (connect st false).2).
Proof. by eexists. Qed.

Lemma connect_reached (st : State) :
  (connect st true).1 = None /\
  slept (connect st true).2 = slept st /\
  (idle st -> idle (connect st true).2).
Proof.
  unfold idle, connect. cbn [negb].
  destruct (channels (self st)) as [|c cs]; [done|].
  pose proof (start_tracking_frame (c :: cs) (channel_users (self st)) (context st))
    as (Hc & Hs & _).
  destruct (start_tracking _ _ _) as [users c']. simpl in *.
  by rewrite Hc, Hs.
Qed.

(** One refused attempt: sleep for the current delay, then double it up
    to the cap, and try again. *)
Lemma run_refused (fuel : nat) (st : State) (rest : list Attempt) :
  running (self st) = true ->
  exists st',
    run fuel st (refused :: rest) = run fuel st' rest /\
    slept st' = slept st ++ [inject_Z (reconnect_delay (self st))] /\
    reconnect_delay (self st') = Z.min (reconnect_delay (self st) * 2) 60 /\
    (idle st -> idle st').
Proof.
  intros Hr. unfold refused. cbn [run]. rewrite Hr. cbn [negb].
  eexists. split; [reflexivity|]. done.
Qed.

Lemma run_refused_many (k : nat) : forall (fuel : nat) (st : State) (rest : list Attempt),
  idle st ->
  exists st',
    run fuel st (replicate k refused ++ rest) = run fuel st' rest /\
    slept st' = slept st ++
      map (fun i => inject_Z (Nat.iter i (fun d => Z.min (d * 2) 60)
                                       (reconnect_delay (self st))))
          (seq 0 k) /\
    reconnect_delay (self st') =
      Nat.iter k (fun d => Z.min (d * 2) 60) (reconnect_delay (self st)) /\
    idle st'.
Proof.
  induction k as [|k IH]; intros fuel st rest Hidle.
  { exists st. by rewrite app_nil_r. }
  destruct (run_refused fuel st (replicate k refused ++ rest) (proj1 Hidle))
    as (st1 & Hrun & Hslept & Hdelay & Hidle1).
  destruct (IH fuel st1 rest (Hidle1 Hidle)) as (st' & Hrun' & Hslept' & Hdelay' & Hidle').
  exists st'. split; [|split; [|split]].
  - change (replicate (S k) refused ++ rest)
      with (refused :: replicate k refused ++ rest). by rewrite Hrun.
  - rewrite Hslept', Hslept, Hdelay, <- app_assoc. f_equal. simpl. f_equal.
    rewrite <- seq_shift, map_map. apply map_ext. intros i.
    by rewrite Nat.iter_succ_r.
  - by rewrite Hdelay', Hdelay, Nat.iter_succ_r.
  - done.
Qed.

(** With nothing to send and no shutdown pending, a pass through the
    connected loop is just the receive. *)
Lemma idle_iteration (fuel : nat) (st : State) (r : RecvResult) :
  idle st -> connected_iteration fuel st r = Some (receive st r).
Proof.
  intros (_ & Hc & Hs). unfold connected_iteration, check_control.
  rewrite Hc. unfold send_outgoing. by rewrite Hs.
Qed.

(** An attempt that connects resets the delay; if the peer then closes
    the connection, the session goes round the outer loop at once. *)
Lemma run_accepted_then_closed (fuel : nat) (st : State) (rest : list Attempt) :
  idle st ->
  exists st',
    run fuel st (accepted_then_closed :: rest) = run fuel st' rest /\
    slept st' = slept st /\
    reconnect_delay (self st') = 1%Z /\
    idle st'.
Proof.
  intros Hidle. unfold accepted_then_closed. cbn [run].
  rewrite (proj1 Hidle). cbn [negb].
  destruct (connect_reached st) as (Hok & Hslept & Hidle1).
  destruct (connect st true) as [r st1]. simpl in Hok, Hslept, Hidle1. subst r.
  specialize (Hidle1 Hidle).
  set (st2 := set_self st1 (set_reconnect_delay (self st1) 1)).
  assert (Hidle2 : idle st2) by exact Hidle1.
  cbn [connected_loop]. rewrite (proj1 Hidle2). cbn [negb].
  rewrite (idle_iteration fuel st2 _ Hidle2). cbn [receive String.eqb].
  exists st2. done.
Qed.

(** Nothing in the connected loop writes the reconnect delay. *)
Lemma wait_for_limiter_delay (fuel : nat) : forall (st st' : State),
  wait_for_limiter fuel st = Some st' ->
  reconnect_delay (self st') = reconnect_delay (self st) /\
  running (self st') = running (self st).
Proof.
  induction fuel as [|fuel IH]; intros st st'; [done|].
  cbn [wait_for_limiter].
  destruct (TwitchLimiter.allow _ _) as [[|] lim'].
  - by intros [= <-].
  - intros Hw. by destruct (IH _ _ Hw) as [-> ->].
Qed.

Lemma connected_iteration_delay
    (fuel : nat) (st st' : State) (r : RecvResult) (flow : Flow) :
  connected_iteration fuel st r = Some (flow, st') ->
  reconnect_delay (self st') = reconnect_delay (self st).
Proof.
  unfold connected_iteration, check_control.
  set (st1 := match RuntimeContext.control_queue (context st) with
              | [] => (Continue, st)
              | item :: rest => _
              end).
  assert (H1 : reconnect_delay (self st1.2) = reconnect_delay (self st)).
  { subst st1. destruct (RuntimeContext.control_queue (context st)); [done|].
    by destruct (String.eqb _ _). }
  destruct st1 as [fl st1]. simpl in H1. rewrite <- H1.
  assert (Hrest : match send_outgoing fuel st1 with
          | Some (Raise e, st2) => Some (Raise e, st2)
          | Some (_, st2) => Some (receive st2 r)
          | None => None
          end = Some (flow, st') ->
          reconnect_delay (self st') = reconnect_delay (self st1)).
  { assert (Hout : forall fl2 st2, send_outgoing fuel st1 = Some (fl2, st2) ->
              reconnect_delay (self st2) = reconnect_delay (self st1)).
    { intros fl2 st2. unfold send_outgoing.
      destruct (RuntimeContext.send_queue (context st1)) as [|[chan msg] q];
        [by intros [= _ <-]|].
      destruct (wait_for_limiter fuel _) as [st1'|] eqn:Hw; [|done].
      apply wait_for_limiter_delay in Hw as [Hw _].
      destruct (sock (self st1')) as [sk|]; [|by intros [= _ <-]].
      destruct (sock_send sk _); by intros [= _ <-]. }
    assert (Hrecv : forall st2, reconnect_delay (self (receive st2 r).2)
                                = reconnect_delay (self st2)).
    { intros st2. destruct r as [|e|data]; [done|done|]. unfold receive.
      destruct (String.eqb data ""); [done|].
      set (lines := Py.split Py.crlf _). set (st3 := set_self st2 _).
      pose proof (handle_lines_untouched (removelast lines) st3) as Hu.
      destruct (handle_lines st3 (removelast lines)) as [[e|] st4]; simpl in *;
        by rewrite (same_reconnect_delay _ _ Hu). }
    destruct (send_outgoing fuel st1) as [[fl2 st2]|] eqn:Hso; [|done].
    specialize (Hout _ _ eq_refl).
    destruct fl2 as [| |e].
    - intros [= Hr]. rewrite <- Hout. pose proof (Hrecv st2) as Hd.
      by rewrite Hr in Hd.
    - intros [= Hr]. rewrite <- Hout. pose proof (Hrecv st2) as Hd.
      by rewrite Hr in Hd.
    - by intros [= _ <-]. }
  destruct fl; try exact Hrest. by intros [= _ <-].
Qed.

Lemma connected_loop_delay (fuel : nat) (recvs : list RecvResult) :
  forall (st st' : State) (flow : Flow),
    connected_loop fuel st recvs = Some (flow, st') ->
    reconnect_delay (self st') = reconnect_delay (self st).
Proof.
  induction recvs as [|r rest IH]; intros st st' flow; cbn [connected_loop].
  { by intros [= _ <-]. }
  destruct (negb (running (self st))); [by intros [= _ <-]|].
  destruct (connected_iteration fuel st r) as [[fl st1]|] eqn:Hit; [|done].
  apply connected_iteration_delay in Hit.
  destruct fl; [|by intros [= _ <-]..].
  intros Hl. rewrite <- Hit. by eapply IH.
Qed.

(** The first wait after a successful connection is one second: when the
    connected loop ends by an exception that wait follows at once, and
    when it ends by a break it follows the next refused attempt. *)
Lemma run_first_wait_after_session
    (fuel : nat) (st st2 : State) (recvs : list RecvResult)
    (rest : list Attempt) (flow : Flow) :
  running (self st) = true ->
  connected_loop fuel
    (set_self (connect st true).2
       (set_reconnect_delay (self (connect st true).2) 1)) recvs
    = Some (flow, st2) ->
  running (self st2) = true ->
  match flow with
  | Continue => True
  | Break =>
      exists st3,
        run fuel st (mkAttempt true recvs :: refused :: rest) = run fuel st3 rest /\
        slept st3 = slept st2 ++ [1]
  | Raise e =>
      exists st3,
        run fuel st (mkAttempt true recvs :: rest) = run fuel st3 rest /\
        slept st3 = slept st2 ++ [1]
  end.
Proof.
  intros Hr Hloop Hr2.
  pose proof (connected_loop_delay _ _ _ _ _ Hloop) as Hd.
  change (reconnect_delay (self st2) = 1%Z) in Hd.
  destruct (connect_reached st) as (Hok & _ & _).
  destruct flow as [| |e]; [done| |].
  - destruct (run_refused fuel st2 rest Hr2) as (st3 & Hrun & Hs & _).
    exists st3. split; [|by rewrite Hs, Hd].
    cbn [run]. rewrite Hr. cbn [negb].
    destruct (connect st true) as [res st1]. simpl in Hok. subst res.
    cbn [snd] in Hloop. by rewrite Hloop.
  - exists (backoff st2 e). split; [|by cbn; rewrite Hd].
    cbn [run]. rewrite Hr. cbn [negb].
    destruct (connect st true) as [res st1]. simpl in Hok. subst res.
    cbn [snd] in Hloop. by rewrite Hloop.
Qed.

(** C5.  The reconnect delay starts at 1, each failed attempt sleeps for
    the current delay and doubles it up to 60, so consecutive failures
    wait 1, 2, 4, ...; a successful connection resets the delay, so
    however the session then ends, the next wait is 1 again. *)
Theorem reconnect_backoff :
  (forall channels shard_id context now,
      reconnect_delay (init channels shard_id context now) = 1%Z) /\
  (forall fuel st rest,
      running (self st) = true ->
      exists st',
        run fuel st (refused :: rest) = run fuel st' rest /\
        slept st' = slept st ++ [inject_Z (reconnect_delay (self st))] /\
        reconnect_delay (self st') = Z.min (reconnect_delay (self st) * 2) 60) /\
  (forall fuel st k,
      idle st -> reconnect_delay (self st) = 1%Z ->
      exists st',
        run fuel st (replicate k refused) = Some (st', false) /\
        slept st' = slept st ++ backoff_delays k) /\
  (forall fuel st,
      idle st -> reconnect_delay (self st) = 1%Z ->
      exists st',
        run fuel st [refused; refused; refused] = Some (st', false) /\
        slept st' = slept st ++ [1; 2; 4]) /\
  (forall fuel st k,
      idle st -> reconnect_delay (self st) = 1%Z ->
      exists st',
        run fuel st (replicate k refused ++ [accepted_then_closed; refused])
          = Some (st', false) /\
        slept st' = slept st ++ backoff_delays k ++ [1]) /\
  (forall fuel st st2 recvs rest flow,
      running (self st) = true ->
      connected_loop fuel
        (set_self (connect st true).2
           (set_reconnect_delay (self (connect st true).2) 1)) recvs
        = Some (flow, st2) ->
      running (self st2) = true ->
      match flow with
      | Continue => True
      | Break =>
          exists st3,
            run fuel st (mkAttempt true recvs :: refused :: rest)
              = run fuel st3 rest /\
            slept st3 = slept st2 ++ [1]
      | Raise e =>
          exists st3,
            run fuel st (mkAttempt true recvs :: rest) = run fuel st3 rest /\
            slept st3 = slept st2 ++ [1]
      end).
Proof.
  assert (Hmany : forall fuel st k,
             idle st -> reconnect_delay (self st) = 1%Z ->
             exists st',
               run fuel st (replicate k refused) = Some (st', false) /\
               slept st' = slept st ++ backoff_delays k).
  { intros fuel st k Hidle Hd.
    destruct (run_refused_many k fuel st [] Hidle) as (st' & Hrun & Hslept & _ & Hidle').
    exists st'. rewrite app_nil_r in Hrun. split.
    - rewrite Hrun. cbn [run]. by rewrite (proj1 Hidle').
    - rewrite Hslept, Hd. f_equal. apply map_ext. intros i.
      by rewrite backoff_delay_closed. }
  split; [done|]. split.
  { intros fuel st rest Hr.
    destruct (run_refused fuel st rest Hr) as (st' & ? & ? & ? & _). eauto. }
  split; [exact Hmany|]. split.
  { intros fuel st Hidle Hd. apply (Hmany fuel st 3%nat Hidle Hd). }
  split; [|exact run_first_wait_after_session].
  intros fuel st k Hidle Hd.
  destruct (run_refused_many k fuel st [accepted_then_closed; refused] Hidle)
    as (st1 & Hrun1 & Hslept1 & _ & Hidle1).
  destruct (run_accepted_then_closed fuel st1 [refused] Hidle1)
    as (st2 & Hrun2 & Hslept2 & Hd2 & Hidle2).
  destruct (run_refused fuel st2 [] (proj1 Hidle2))
    as (st3 & Hrun3 & Hslept3 & _ & Hidle3).
  exists st3. split.
  - rewrite Hrun1, Hrun2, Hrun3. cbn [run]. by rewrite (proj1 (Hidle3 Hidle2)).
  - rewrite Hslept3, Hslept2, Hslept1, Hd, Hd2, <- app_assoc. do 2 f_equal.
    apply map_ext. intros i. by rewrite backoff_delay_closed.
Qed.

Lemma reconnect_backoff_witness :
  idle (Sample.fresh ["foo"]) /\
  reconnect_delay (self (Sample.fresh ["foo"])) = 1%Z /\
  exists st',
    run 0 (Sample.fresh ["foo"])
        (replicate 3 refused ++ [accepted_then_closed; refused])
      = Some (st', false) /\
    slept st' = slept (Sample.fresh ["foo"]) ++ backoff_delays 3 ++ [1].
Proof.
  assert (Hidle : idle (Sample.fresh ["foo"])) by (by repeat split).
  split; [exact Hidle|]. split; [reflexivity|].
  exact (proj1 (proj2 (proj2 (proj2 (proj2 reconnect_backoff)))) 0%nat
               (Sample.fresh ["foo"]) 3%nat Hidle eq_refl).
Defined.

Example backoff_up_to_the_cap :
  backoff_delays 8 = [1; 2; 4; 8; 16; 32; 60; 60].
Proof. reflexivity. Qed.

End session_backoff.

Section session_outgoing.

Import IRCShard.

(** * The session: the outgoing block of the connected loop *)

Lemma popleft_expired_Forall (P : Q -> Prop) (w now : Q) (events : list Q) :
  Forall P events -> Forall P (TwitchLimiter.popleft_expired w now events).
Proof.
  intros Hall.
  destruct (popleft_expired_split w now events) as (gone & Heq & _).
  rewrite Heq in Hall. by apply Forall_app in Hall as [_ ?].
Qed.

(** A call made when the limiter is ready is accepted. *)
Lemma allow_ready (lim : TwitchLimiter.t) (t : Q) :
  (0 < TwitchLimiter.limit lim)%Z -> ready lim t ->
  (TwitchLimiter.allow lim t).1 = true.
Proof.
  intros Hl [Hgate Hexp]. unfold TwitchLimiter.allow.
  apply Qltb_ge in Hgate. rewrite Hgate.
  rewrite (popleft_expired_all _ _ _ Hexp).
  change (Z.of_nat (length [])) with 0%Z.
  apply Z.ltb_lt in Hl. by rewrite Hl.
Qed.

(** An accepted call records its own reading as the last send. *)
Lemma allow_accepted (lim : TwitchLimiter.t) (t : Q) :
  (TwitchLimiter.allow lim t).1 = true ->
  TwitchLimiter.last_message (TwitchLimiter.allow lim t).2 = t /\
  last (TwitchLimiter.events (TwitchLimiter.allow lim t).2) = Some t.
Proof.
  unfold TwitchLimiter.allow.
  destruct (Qltb _ _); [done|]. destruct (_ <? _)%Z; [|done].
  simpl. intros _. split; [done | apply last_snoc].
Qed.

(** A rejected call leaves the limiter no further from being ready. *)
Lemma allow_rejected (lim : TwitchLimiter.t) (t t' : Q) :
  (TwitchLimiter.allow lim t).1 = false ->
  TwitchLimiter.limit (TwitchLimiter.allow lim t).2 = TwitchLimiter.limit lim /\
  (ready lim t' -> ready (TwitchLimiter.allow lim t).2 t').
Proof.
  unfold TwitchLimiter.allow, ready.
  destruct (Qltb _ _); [done|]. destruct (_ <? _)%Z; [done|].
  simpl. intros _. split; [done|]. intros [? ?]. split; [done|].
  by apply popleft_expired_Forall.
Qed.

Lemma ready_mono (lim : TwitchLimiter.t) (t t' : Q) :
  t <= t' -> ready lim t -> ready lim t'.
Proof.
  intros Ht [Hgate Hexp]. split; [lra|].
  eapply Forall_impl; [exact Hexp|]. simpl. intros e He. lra.
Qed.

(** Sleeping in steps of a twentieth of a second gets past any bound. *)
Lemma steps_pass (b t : Q) :
  exists n : nat, b < t + inject_Z (Z.of_nat n) * (1 # 20).
Proof.
  exists (Z.to_nat (Qceiling ((b - t) * 20)) + 1)%nat.
  pose proof (Qle_ceiling ((b - t) * 20)) as Hc.
  assert (Hz : (Qceiling ((b - t) * 20) + 1 <=
                Z.of_nat (Z.to_nat (Qceiling ((b - t) * 20)) + 1))%Z) by lia.
  rewrite Zle_Qle in Hz. rewrite inject_Z_plus in Hz.
  change (inject_Z 1) with 1 in Hz. lra.
Qed.

Lemma steps_grow (t : Q) (n m : nat) :
  (n <= m)%nat ->
  t + inject_Z (Z.of_nat n) * (1 # 20) <= t + inject_Z (Z.of_nat m) * (1 # 20).
Proof.
  intros Hnm. assert (Hz : (Z.of_nat n <= Z.of_nat m)%Z) by lia.
  rewrite Zle_Qle in Hz. lra.
Qed.

(** So the limiter becomes ready after finitely many sleeps. *)
Lemma ready_eventually (lim : TwitchLimiter.t) (t : Q) :
  exists n : nat, ready lim (t + inject_Z (Z.of_nat n) * (1 # 20)).
Proof.
  unfold ready.
  destruct (steps_pass (TwitchLimiter.last_message lim + TwitchLimiter.min_delay lim) t)
    as [n0 Hn0].
  assert (Hev : exists n, forall m, (n <= m)%nat ->
            Forall (fun e => TwitchLimiter.window lim
                             < t + inject_Z (Z.of_nat m) * (1 # 20) - e)
                   (TwitchLimiter.events lim)).
  { induction (TwitchLimiter.events lim) as [|e es [n IH]].
    - exists 0%nat. constructor.
    - destruct (steps_pass (e + TwitchLimiter.window lim) t) as [n1 Hn1].
      exists (n `max` n1)%nat. intros m Hm. constructor.
      + pose proof (steps_grow t n1 m ltac:(lia)). lra.
      + apply IH. lia. }
  destruct Hev as [n1 Hn1]. exists (n0 `max` n1)%nat. split.
  - pose proof (steps_grow t n0 (n0 `max` n1) ltac:(lia)). lra.
  - apply Hn1. lia.
Qed.

(** The wait loop returns: if the limiter is ready after [n] more naps,
    any fuel above [n] gives the same final state. *)
Lemma wait_for_limiter_returns (n : nat) : forall (st : State),
  (0 < TwitchLimiter.limit (limiter (self st)))%Z ->
  ready (limiter (self st)) (clock st + inject_Z (Z.of_nat n) * (1 # 20)) ->
  exists st',
    (forall fuel, (n < fuel)%nat -> wait_for_limiter fuel st = Some st') /\
    waited st st'.
Proof.
  induction n as [|n IH]; intros st Hlimit Hready.
  - assert (Hnow : ready (limiter (self st)) (clock st)).
    { eapply ready_mono; [|exact Hready].
      change (inject_Z (Z.of_nat 0)) with 0. lra. }
    pose proof (allow_ready _ _ Hlimit Hnow) as Hok.
    destruct (allow_accepted _ _ Hok) as [Hlast Hrec].
    exists (set_self st (set_limiter (self st)
              (TwitchLimiter.allow (limiter (self st)) (clock st)).2)).
    split.
    + intros [|fuel] Hf; [lia|]. cbn [wait_for_limiter].
      destruct (TwitchLimiter.allow _ _) as [ok lim']. simpl in *. by subst ok.
    + split; [done | done | done | apply Qle_refl | exact Hlast | exact Hrec].
  - destruct (TwitchLimiter.allow (limiter (self st)) (clock st)) as [ok lim'] eqn:Hcall.
    destruct ok.
    + assert (Hok : (TwitchLimiter.allow (limiter (self st)) (clock st)).1 = true)
        by (by rewrite Hcall).
      destruct (allow_accepted _ _ Hok) as [Hlast Hrec]. rewrite Hcall in Hlast, Hrec.
      exists (set_self st (set_limiter (self st) lim')). split.
      * intros [|fuel] Hf; [lia|]. cbn [wait_for_limiter]. by rewrite Hcall.
      * split; [done | done | done | apply Qle_refl | exact Hlast | exact Hrec].
    + assert (Hno : (TwitchLimiter.allow (limiter (self st)) (clock st)).1 = false)
        by (by rewrite Hcall).
      destruct (allow_rejected _ _
                  (clock st + inject_Z (Z.of_nat (S n)) * (1 # 20)) Hno)
        as [Hlim Hkeep].
      rewrite Hcall in Hlim, Hkeep. simpl in Hlim, Hkeep.
      set (st1 := sleep (set_self st (set_limiter (self st) lim')) (1 # 20)).
      destruct (IH st1) as (st' & Hfuel & Hw).
      * simpl. by rewrite Hlim.
      * eapply ready_mono; [|exact (Hkeep Hready)].
        change (clock st1) with (clock st + (1 # 20)).
        rewrite Nat2Z.inj_succ. unfold Z.succ. rewrite inject_Z_plus.
        change (inject_Z 1) with 1. lra.
      * exists st'. split.
        -- intros [|fuel] Hf; [lia|]. cbn [wait_for_limiter]. rewrite Hcall.
           apply Hfuel. lia.
        -- destruct Hw as [Hs Hc Hfl Hck Hl Hr]. split; try done.
           change (clock st1) with (clock st + (1 # 20)) in Hck. lra.
Qed.

(** With a positive limit the wait for the limiter always returns. *)
Lemma wait_for_limiter_total (st : State) :
  (0 < TwitchLimiter.limit (limiter (self st)))%Z ->
  exists n st',
    (forall fuel, (n < fuel)%nat -> wait_for_limiter fuel st = Some st') /\
    waited st st'.
Proof.
  intros Hlimit.
  destruct (ready_eventually (limiter (self st)) (clock st)) as [n Hn].
  destruct (wait_for_limiter_returns n st Hlimit Hn) as (st' & ? & ?).
  by exists n, st'.
Qed.

(** However much fuel it is given, the wait only changes the limiter, the
    clock and the naps. *)
Lemma wait_for_limiter_context (fuel : nat) : forall (st st' : State),
  wait_for_limiter fuel st = Some st' -> context st' = context st.
Proof.
  induction fuel as [|fuel IH]; intros st st'; [done|].
  cbn [wait_for_limiter].
  destruct (TwitchLimiter.allow _ _) as [[|] lim'].
  - by intros [= <-].
  - intros Hw. by rewrite (IH _ _ Hw).
Qed.

(** The outgoing block takes nothing or the head off the send queue. *)
Lemma send_outgoing_pops_at_most_one (fuel : nat) (st st' : State) (flow : Flow) :
  send_outgoing fuel st = Some (flow, st') ->
  RuntimeContext.send_queue (context st') = RuntimeContext.send_queue (context st) \/
  RuntimeContext.send_queue (context st') = tail (RuntimeContext.send_queue (context st)).
Proof.
  unfold send_outgoing.
  destruct (RuntimeContext.send_queue (context st)) as [|[target_chan msg] rest] eqn:Hq.
  { intros [= _ <-]. by left. }
  destruct (wait_for_limiter fuel _) as [st1|] eqn:Hw; [|done].
  apply wait_for_limiter_context in Hw.
  destruct (sock (self st1)) as [sk|].
  - destruct (sock_send sk _); intros [= _ <-]; right; simpl; by rewrite ?Hw.
  - intros [= _ <-]. right. by rewrite Hw.
Qed.

(** The item at the head of the send queue is sent, whatever channel it
    is addressed to. *)
Lemma send_outgoing_sends_head (st : State) (target_chan msg : string)
    (rest : list (string * string)) (sk : Socket) :
  RuntimeContext.send_queue (context st) = (target_chan, msg) :: rest ->
  sock (self st) = Some sk -> sock_alive sk = true ->
  (0 < TwitchLimiter.limit (limiter (self st)))%Z ->
  exists n st',
    (forall fuel, (n < fuel)%nat -> send_outgoing fuel st = Some (Continue, st')) /\
    RuntimeContext.send_queue (context st') = rest /\
    sock (self st') =
      Some (mkSocket Connected
              (sock_sent sk ++
                 ["PRIVMSG #" +:+ target_chan +:+ " :" +:+ msg +:+ Py.crlf])) /\
    TwitchLimiter.last_message (limiter (self st')) = clock st' /\
    last (TwitchLimiter.events (limiter (self st'))) = Some (clock st') /\
    RuntimeContext.gui_queue (context st') =
      RuntimeContext.gui_queue (context st) ++
        [msg3 target_chan "SELF" ("You: " +:+ msg)] /\
    RuntimeContext.bot_state (context st') !! target_chan =
      Some (VDict [("last_msg", VStr msg); ("last_time", VFloat (clock st'))]) /\
    DataLogger.chat_rows (RuntimeContext.data_logger (context st')) =
      DataLogger.chat_rows (RuntimeContext.data_logger (context st)) ++
        [DataLogger.mkChatRow (clock st') target_chan
           (Py.lower (username (self st))) "SELF" msg
           (DataLogger.experiment_id (RuntimeContext.data_logger (context st)))
           (py_int_of_Q ((clock st' - clock st) * 1000))
           (Z.of_nat (String.length msg))].
Proof.
  intros Hq Hsk Hlive Hlimit.
  set (st0 := set_context st (RuntimeContext.set_send_queue (context st) rest)).
  destruct (wait_for_limiter_total st0 Hlimit) as (n & st1 & Hfuel & Hw).
  destruct Hw as [Hself Hctx Hfiles Hclock Hlast Hrec].
  eexists n, _. split.
  { intros fuel Hf. unfold send_outgoing. rewrite Hq. fold st0.
    rewrite (Hfuel fuel Hf), Hself. cbn [sock set_limiter self set_context st0].
    rewrite Hsk. unfold sock_send. rewrite Hlive. reflexivity. }
  cbn [context set_context self set_self sock set_sock limiter username
       RuntimeContext.send_queue RuntimeContext.gui_put RuntimeContext.log_chat
       RuntimeContext.set_data_logger RuntimeContext.set_bot_state
       RuntimeContext.set_gui_queue RuntimeContext.gui_queue
       RuntimeContext.bot_state RuntimeContext.data_logger clock
       DataLogger.log_chat DataLogger.chat_rows].
  rewrite Hctx, Hself. cbn [username set_limiter].
  repeat split; try done.
  apply lookup_insert_eq.
Qed.

Lemma check_control_send_queue (st : State) :
  RuntimeContext.send_queue (context (check_control st).2)
  = RuntimeContext.send_queue (context st).
Proof.
  unfold check_control.
  destruct (RuntimeContext.control_queue (context st)); [done|].
  by destruct (String.eqb _ _).
Qed.

(** One pass through the connected loop takes at most one item off the
    send queue. *)
Lemma connected_iteration_pops_at_most_one
    (fuel : nat) (st st' : State) (r : RecvResult) (flow : Flow) :
  connected_iteration fuel st r = Some (flow, st') ->
  RuntimeContext.send_queue (context st') = RuntimeContext.send_queue (context st) \/
  RuntimeContext.send_queue (context st') = tail (RuntimeContext.send_queue (context st)).
Proof.
  unfold connected_iteration.
  pose proof (check_control_send_queue st) as Hc.
  destruct (check_control st) as [fl st1]. simpl in Hc. rewrite <- Hc.
  assert (Hrest : match send_outgoing fuel st1 with
          | Some (Raise e, st2) => Some (Raise e, st2)
          | Some (_, st2) => Some (receive st2 r)
          | None => None
          end = Some (flow, st') ->
          RuntimeContext.send_queue (context st') = RuntimeContext.send_queue (context st1) \/
          RuntimeContext.send_queue (context st') = tail (RuntimeContext.send_queue (context st1))).
  { destruct (send_outgoing fuel st1) as [[fl2 st2]|] eqn:Hout; [|done].
    apply send_outgoing_pops_at_most_one in Hout.
    assert (Hrecv : receive st2 r = (flow, st') ->
              RuntimeContext.send_queue (context st')
              = RuntimeContext.send_queue (context st2)).
    { intros Hr. pose proof (receive_send_queue st2 r) as Hq.
      by rewrite Hr in Hq. }
    destruct fl2 as [| |e].
    - intros [= Hr]. by rewrite (Hrecv Hr).
    - intros [= Hr]. by rewrite (Hrecv Hr).
    - by intros [= <- <-]. }
  destruct fl; try exact Hrest. intros [= _ <-]. by left.
Qed.

(** C2 as stated fails: a connected session that owns [foo] and [bar]
    takes an item addressed to [baz] off the send queue and sends it. *)
Lemma session_sends_for_foreign_channel : ~ sends_only_own_channels.
Proof.
  intros Hclaim.
  assert (Hrun : exists st',
             send_outgoing 1 Sample.connected_with_foreign_item = Some (Continue, st') /\
             RuntimeContext.send_queue (context st') = [] /\
             (exists sk, sock (self st') = Some sk /\
                         last (sock_sent sk) = Some ("PRIVMSG #baz :hi" +:+ Py.crlf))).
  { eexists. split; [vm_compute; reflexivity|]. split; [reflexivity|].
    eexists. split; reflexivity. }
  destruct Hrun as (st' & Hout & Hq & _).
  specialize (Hclaim 1%nat Sample.connected_with_foreign_item st' "baz" "hi" []
                     eq_refl Hout Hq).
  change (channels (self Sample.connected_with_foreign_item))
    with ["foo"; "bar"] in Hclaim.
  apply list_elem_of_In in Hclaim. simpl in Hclaim. intuition discriminate.
Qed.

(** C2, amended.  Each pass through the connected loop takes at most one
    item off the send queue; the item taken is the head of the queue,
    whatever channel it is addressed to, and on a live socket it is sent
    once the limiter has accepted a call, recorded as a SELF chat row and
    a SELF event on the GUI queue, and the per-channel last message and
    time are updated. *)
Theorem outgoing_sends_queue_head :
  (forall (fuel : nat) (st st' : State) (r : RecvResult) (flow : Flow),
      connected_iteration fuel st r = Some (flow, st') ->
      RuntimeContext.send_queue (context st') = RuntimeContext.send_queue (context st) \/
      RuntimeContext.send_queue (context st')
        = tail (RuntimeContext.send_queue (context st))) /\
  (forall (st : State) (target_chan msg : string)
          (rest : list (string * string)) (sk : Socket),
      RuntimeContext.send_queue (context st) = (target_chan, msg) :: rest ->
      sock (self st) = Some sk -> sock_alive sk = true ->
      (0 < TwitchLimiter.limit (limiter (self st)))%Z ->
      exists n st',
        (forall fuel, (n < fuel)%nat ->
                      send_outgoing fuel st = Some (Continue, st')) /\
        RuntimeContext.send_queue (context st') = rest /\
        sock (self st') =
          Some (mkSocket Connected
                  (sock_sent sk ++
                     ["PRIVMSG #" +:+ target_chan +:+ " :" +:+ msg +:+ Py.crlf])) /\
        TwitchLimiter.last_message (limiter (self st')) = clock st' /\
        last (TwitchLimiter.events (limiter (self st'))) = Some (clock st') /\
        RuntimeContext.gui_queue (context st') =
          RuntimeContext.gui_queue (context st) ++
            [msg3 target_chan "SELF" ("You: " +:+ msg)] /\
        RuntimeContext.bot_state (context st') !! target_chan =
          Some (VDict [("last_msg", VStr msg); ("last_time", VFloat (clock st'))]) /\
        DataLogger.chat_rows (RuntimeContext.data_logger (context st')) =
          DataLogger.chat_rows (RuntimeContext.data_logger (context st)) ++
            [DataLogger.mkChatRow (clock st') target_chan
               (Py.lower (username (self st))) "SELF" msg
               (DataLogger.experiment_id (RuntimeContext.data_logger (context st)))
               (py_int_of_Q ((clock st' - clock st) * 1000))
               (Z.of_nat (String.length msg))]).
Proof.
  split.
  - intros fuel st st' r flow. apply connected_iteration_pops_at_most_one.
  - exact send_outgoing_sends_head.
Qed.

Lemma outgoing_sends_queue_head_witness :
  exists sk,
    RuntimeContext.send_queue (context Sample.connected_with_foreign_item)
      = [("baz", "hi")] /\
    sock (self Sample.connected_with_foreign_item) = Some sk /\
    sock_alive sk = true /\
    (0 < TwitchLimiter.limit (limiter (self Sample.connected_with_foreign_item)))%Z /\
    exists n st',
      (forall fuel, (n < fuel)%nat ->
         send_outgoing fuel Sample.connected_with_foreign_item = Some (Continue, st')) /\
      RuntimeContext.send_queue (context st') = [] /\
      sock (self st') =
        Some (mkSocket Connected (sock_sent sk ++ ["PRIVMSG #baz :hi" +:+ Py.crlf])).
Proof.
  eexists. split; [reflexivity|]. split; [reflexivity|]. split; [reflexivity|].
  split; [reflexivity|].
  destruct (proj2 outgoing_sends_queue_head Sample.connected_with_foreign_item
              "baz" "hi" [] _ eq_refl eq_refl eq_refl eq_refl)
    as (n & st' & Hrun & Hq & Hs & _).
  exists n, st'. split; [exact Hrun|]. split; [exact Hq | exact Hs].
Defined.

End session_outgoing.

Section audio_capture.

(** * Audio capture: backpressure *)

(** C7.  With no shutdown requested and a non-empty read: when the audio
    queue holds more than 50 items the chunk is dropped, the queue and the
    chunk counter stay as they are and the loop goes on; otherwise a
    chunk that is a whole number of samples is put on the queue with the
    channel, the samples and the bounds [idx * CHUNK_DURATION] and
    [(idx + 1) * CHUNK_DURATION]. *)
Theorem capture_backpressure
    (chan : string) (st : Audio.State) (raw : list Byte.byte) :
  hd_error (Audio.control_queue st) <> Some "SHUTDOWN" ->
  raw <> [] ->
  ((50 < length (Audio.audio_queue st))%nat ->
   Audio.capture_iteration chan st raw =
     (Audio.Continue,
      Audio.mkState (Audio.idx st) (Audio.audio_queue st)
                    (tail (Audio.control_queue st)) (Audio.terminated st))) /\
  ((length (Audio.audio_queue st) <= 50)%nat ->
   forall samples : list Z,
   Audio.frombuffer_float32 raw = Some samples ->
   Audio.capture_iteration chan st raw =
     (Audio.Continue,
      Audio.mkState (Audio.idx st + 1)
        (Audio.audio_queue st ++
           [Audio.mkChunk chan samples
              (Audio.idx st * CHUNK_DURATION)
              ((Audio.idx st + 1) * CHUNK_DURATION)])
        (tail (Audio.control_queue st)) (Audio.terminated st))).
Proof.
  intros Hctl Hraw. unfold Audio.capture_iteration.
  set (checked := match Audio.control_queue st with
                  | [] => (false, st)
                  | item :: rest =>
                      (String.eqb item "SHUTDOWN",
                       Audio.mkState (Audio.idx st) (Audio.audio_queue st) rest
                                     (Audio.terminated st))
                  end).
  assert (Hchecked : checked =
            (false, Audio.mkState (Audio.idx st) (Audio.audio_queue st)
                      (tail (Audio.control_queue st)) (Audio.terminated st))).
  { subst checked. destruct st as [i q [|item rest] t]; [done|]. simpl in *.
    destruct (String.eqb_spec item "SHUTDOWN") as [->|]; [done|done]. }
  rewrite Hchecked. cbn [Audio.audio_queue Audio.idx Audio.control_queue Audio.terminated].
  destruct raw as [|b raw']; [done|].
  split.
  - intros Hdepth.
    assert ((50 <? Z.of_nat (length (Audio.audio_queue st)))%Z = true) as ->
      by (apply Z.ltb_lt; lia). done.
  - intros Hdepth samples Hsamples.
    assert ((50 <? Z.of_nat (length (Audio.audio_queue st)))%Z = false) as ->
      by (apply Z.ltb_ge; lia). by rewrite Hsamples.
Qed.

Lemma capture_backpressure_witness :
  hd_error (Audio.control_queue (Sample.capture 50)) <> Some "SHUTDOWN" /\
  Sample.two_samples <> [] /\
  (length (Audio.audio_queue (Sample.capture 50)) <= 50)%nat /\
  Audio.frombuffer_float32 Sample.two_samples = Some [1065353216; 1073741824]%Z /\
  Audio.capture_iteration "foo" (Sample.capture 50) Sample.two_samples =
    (Audio.Continue,
     Audio.mkState 4
       (Audio.audio_queue (Sample.capture 50) ++
          [Audio.mkChunk "foo" [1065353216; 1073741824]%Z 15 20])
       [] false).
Proof.
  assert (Hctl : hd_error (Audio.control_queue (Sample.capture 50)) <> Some "SHUTDOWN")
    by discriminate.
  assert (Hraw : Sample.two_samples <> []) by discriminate.
  assert (Hdepth : (length (Audio.audio_queue (Sample.capture 50)) <= 50)%nat)
    by (vm_compute; lia).
  split; [exact Hctl|]. split; [exact Hraw|]. split; [exact Hdepth|].
  split; [reflexivity|].
  exact (proj2 (capture_backpressure "foo" (Sample.capture 50) Sample.two_samples
                  Hctl Hraw) Hdepth _ eq_refl).
Defined.

(** The same read with 51 items already queued is dropped. *)
Example capture_drops_when_full :
  Audio.capture_iteration "foo" (Sample.capture 51) Sample.two_samples =
    (Audio.Continue, Sample.capture 51).
Proof. reflexivity. Qed.

(** A capture loop that is the only producer never takes the queue past
    51 items, or past the depth it found. *)
Lemma capture_loop_depth (chan : string) (reads : list (list Byte.byte)) :
  forall (st : Audio.State),
    (length (Audio.audio_queue (Audio.capture_loop chan st reads).2)
     <= length (Audio.audio_queue st) `max` 51)%nat.
Proof.
  induction reads as [|raw rest IH]; intros st; [simpl; lia|].
  cbn [Audio.capture_loop].
  assert (Hstep : (length (Audio.audio_queue (Audio.capture_iteration chan st raw).2)
                   <= length (Audio.audio_queue st) `max` 51)%nat).
  { unfold Audio.capture_iteration.
    destruct (Audio.control_queue st) as [|item q]; [|destruct (String.eqb _ _)];
      simpl; try lia;
      (destruct raw; [simpl; lia|]);
      (destruct (50 <? _)%Z eqn:Hd; [simpl; lia|]);
      apply Z.ltb_ge in Hd;
      (destruct (Audio.frombuffer_float32 _); simpl; [rewrite length_app; simpl|]; lia). }
  destruct (Audio.capture_iteration chan st raw) as [[| | |e] st1]; simpl in *; try lia.
  specialize (IH st1). lia.
Qed.

End audio_capture.

Section queue_bridge.

Import QueueBridge.

(** * The queue bridge: generic events *)

Lemma py_eq_str_VStr (a b : string) :
  py_eq_str (VStr a) b = bool_decide (a = b).
Proof.
  simpl. destruct (String.eqb_spec a b).
  - by rewrite bool_decide_eq_true_2.
  - by rewrite bool_decide_eq_false_2.
Qed.

(** C8.  A three-element tuple of strings whose first element is not a
    command tag: when the channel is SYSTEM or EXPERIMENT_DATA nothing is
    emitted; otherwise one [chat_message] event with the channel, the tag,
    the text and the time of receipt is broadcast.  Either way nothing is
    raised, and the bridge takes exactly that item off the queue. *)
Theorem bridge_dispatches_generic_event
    (out : Emitted) (queue : list PyVal) (channel tag text : string)
    (now : TimeOfDay) :
  channel ∉ command_tags ->
  _dispatch out (msg3 channel tag text) now =
    (None,
     if bool_decide (channel ∈ reserved_channels) then out
     else out ++ [chat_message channel tag text now]) /\
  _poll_step (msg3 channel tag text :: queue) out now =
    (queue,
     if bool_decide (channel ∈ reserved_channels) then out
     else out ++ [chat_message channel tag text now]).
Proof.
  intros Hgeneric.
  assert (Hd : _dispatch out (msg3 channel tag text) now =
    (None,
     if bool_decide (channel ∈ reserved_channels) then out
     else out ++ [chat_message channel tag text now])).
  { unfold _dispatch, msg3, tuple_get, command_tags, reserved_channels in *.
    cbn [lookup list_lookup]. rewrite !py_eq_str_VStr.
    rewrite !bool_decide_eq_false_2
      by (intros ->; apply Hgeneric, list_elem_of_In; simpl; tauto).
    cbn [py_sliceable].
    destruct (decide (channel = "SYSTEM")) as [->|Hs]; [done|].
    destruct (decide (channel = "EXPERIMENT_DATA")) as [->|He]; [done|].
    rewrite !bool_decide_eq_false_2; [done| |done|done].
    intros Hin. apply list_elem_of_In in Hin. simpl in Hin. intuition congruence. }
  split; [exact Hd|]. unfold _poll_step. by rewrite Hd.
Qed.

Lemma bridge_dispatches_generic_event_witness :
  ("foo" ∉ command_tags) /\
  _dispatch [] (msg3 "foo" "CHAT" "alice: hello") Sample.noon =
    (None,
     [("chat_message",
       VDict [("channel", VStr "foo"); ("tag", VStr "CHAT");
              ("text", VStr "alice: hello"); ("timestamp", VStr "12:00:07")])]).
Proof.
  assert (H : "foo" ∉ command_tags).
  { intros Hin. apply list_elem_of_In in Hin. simpl in Hin. intuition discriminate. }
  split; [exact H|].
  exact (proj1 (bridge_dispatches_generic_event [] [] "foo" "CHAT" "alice: hello"
                  Sample.noon H)).
Defined.

Example bridge_swallows_system_event :
  _dispatch [] (msg3 "SYSTEM" "SYSTEM" "Shard shard_0 connected to 2 channels")
            Sample.noon = (None, []).
Proof. reflexivity. Qed.

End queue_bridge.

Section socket_registration.

Import SocketEvents.

(** * WebSocket events: handler registration *)

Lemma register_handlers (st : State) :
  exited st = None ->
  handlers (register st) =
    <["disconnect" := handle_disconnect]> (<["connect" := handle_connect]> (handlers st)) /\
  context (register st) = context st /\
  exited (register st) = None.
Proof. intros He. unfold register. simpl. by rewrite He. Qed.

Lemma trigger_shutdown_exits (st : State) :
  exited st = None ->
  _trigger_shutdown st = set_exited st 0.
Proof. intros He. unfold _trigger_shutdown. simpl. by rewrite He. Qed.

(** Only the two lifecycle events find a handler. *)
Lemma lifecycle_handlers_lookup (event : string) :
  lifecycle_handlers !! event =
    if decide (event = "disconnect") then Some handle_disconnect
    else if decide (event = "connect") then Some handle_connect
    else None.
Proof.
  unfold lifecycle_handlers.
  destruct (decide (event = "disconnect")) as [->|Hd]; [by rewrite lookup_insert_eq|].
  rewrite lookup_insert_ne by done.
  destruct (decide (event = "connect")) as [->|Hc]; [by rewrite lookup_insert_eq|].
  by rewrite lookup_insert_ne.
Qed.

Lemma handle_connect_frame (sid : string) (data : PyVal) (st : State) :
  handlers (run_handler handle_connect sid data st) = handlers st /\
  context (run_handler handle_connect sid data st) = context st /\
  exited (run_handler handle_connect sid data st) = exited st.
Proof.
  unfold run_handler. destruct (_shutdown_timer st); simpl;
    destruct (context st); done.
Qed.

Lemma handle_disconnect_frame (sid : string) (data : PyVal) (st : State) :
  handlers (run_handler handle_disconnect sid data st) = handlers st /\
  context (run_handler handle_disconnect sid data st) = context st /\
  exited (run_handler handle_disconnect sid data st) = exited st.
Proof. unfold run_handler. by destruct (Nat.eqb _ _). Qed.

(** With only the lifecycle handlers registered, no event changes the
    registry or the context. *)
Lemma step_frame (st : State) (e : Event) :
  handlers st = lifecycle_handlers ->
  handlers (step st e) = handlers st /\ context (step st e) = context st.
Proof.
  intros Hh. unfold step. destruct (exited st) eqn:He; [done|].
  destruct e as [event sid data|d].
  - pose proof (lifecycle_handlers_lookup event) as Hl.
    rewrite <- Hh in Hl. rewrite Hl.
    destruct (decide _).
    { destruct (handle_disconnect_frame sid data st) as (H1 & H2 & _).
      split; [exact H1 | exact H2]. }
    destruct (decide _); [|done].
    destruct (handle_connect_frame sid data st) as (H1 & H2 & _).
    split; [exact H1 | exact H2].
  - destruct (existsb _ _); [|done].
    by rewrite trigger_shutdown_exits.
Qed.

Lemma steps_frame (es : list Event) : forall (st : State),
  handlers st = lifecycle_handlers ->
  handlers (steps st es) = handlers st /\ context (steps st es) = context st.
Proof.
  induction es as [|e es IH]; intros st Hh; [done|].
  destruct (step_frame st e Hh) as [Hh' Hc'].
  destruct (IH (step st e)) as [Hh'' Hc'']; [congruence|].
  unfold steps in *. simpl. split; congruence.
Qed.

(** C10.  [register] installs handlers for "connect" and "disconnect" and
    nothing else; [_trigger_shutdown] exits the process at its second
    statement and registers nothing; so whatever WebSocket events arrive
    and however much time passes, the registry stays the same and the
    context, with its send queue and its GUI queue, is never written. *)
Theorem register_installs_only_lifecycle_handlers :
  (forall (context : option RuntimeContext.t) (now : Q),
      handlers (register (initial context now)) = lifecycle_handlers /\
      dom (handlers (register (initial context now)))
        = ({["connect"; "disconnect"]} : gset string)) /\
  (forall (st : State),
      exited st = None ->
      handlers (_trigger_shutdown st) = handlers st /\
      exited (_trigger_shutdown st) = Some 0%Z) /\
  (forall (c : RuntimeContext.t) (now : Q) (events : list Event),
      handlers (steps (register (initial (Some c) now)) events) = lifecycle_handlers /\
      context (steps (register (initial (Some c) now)) events) = Some c).
Proof.
  split.
  { intros c t. split; [reflexivity|].
    change (handlers (register (initial c t))) with lifecycle_handlers.
    unfold lifecycle_handlers. rewrite !dom_insert_L, dom_empty_L. set_solver. }
  split.
  { intros st He. by rewrite trigger_shutdown_exits. }
  intros c t events.
  destruct (steps_frame events (register (initial (Some c) t)) eq_refl) as [-> ->].
  done.
Qed.

(** The handler that would feed the send queue does so when it runs, but
    as nothing registers it a "send_chat" request changes nothing. *)
Example send_chat_request_is_ignored :
  let data := VDict [("channel", VStr "foo"); ("message", VStr " hi ")] in
  let server := register (initial (Some Sample.context) 0) in
  (RuntimeContext.send_queue <$>
     context (run_handler handle_send_chat "sid1" data server)) = Some [("foo", "hi")] /\
  step server (Deliver "send_chat" "sid1" data) = server.
Proof. split; reflexivity. Qed.

End socket_registration.

Section socket_lifecycle.

Import SocketEvents.

(** * WebSocket events: the subscriber lifecycle *)
















(** Past the window the same detach does end the process. *)
Example detach_and_wait_exits :
  exited (steps Sample.server_with_client [Disconnect "sid-a"; Elapse 3]) = Some 0%Z.
Proof. reflexivity. Qed.

End socket_lifecycle.

Section limiter_accounting.

Import TwitchLimiter.

(** * The rate limiter: counters, the deque and the average delay *)

(** What one call does to the counters. *)
Lemma allow_counters (self : t) (now : Q) :
  total_attempts (metrics (allow self now).2)
    = (total_attempts (metrics self) + 1)%Z /\
  allowed_messages (metrics (allow self now).2)
    = (allowed_messages (metrics self) + (if (allow self now).1 then 1 else 0))%Z /\
  (rate_limited (metrics (allow self now).2)
     + min_delay_blocked (metrics (allow self now).2)
   = rate_limited (metrics self) + min_delay_blocked (metrics self)
     + (if (allow self now).1 then 0 else 1))%Z /\
  (rate_limited (metrics self) <= rate_limited (metrics (allow self now).2))%Z /\
  (min_delay_blocked (metrics self)
     <= min_delay_blocked (metrics (allow self now).2))%Z.
Proof.
  unfold allow.
  destruct (Qltb _ _); [simpl; lia|]. destruct (_ <? _)%Z; simpl; lia.
Qed.

Lemma allow_calls_counters (nows : list Q) : forall (self : t),
  total_attempts (metrics (allow_calls self nows).2)
    = (total_attempts (metrics self) + Z.of_nat (length nows))%Z /\
  allowed_messages (metrics (allow_calls self nows).2)
    = (allowed_messages (metrics self)
       + Z.of_nat (length (accepted self nows)))%Z /\
  (rate_limited (metrics (allow_calls self nows).2)
     + min_delay_blocked (metrics (allow_calls self nows).2)
   = rate_limited (metrics self) + min_delay_blocked (metrics self)
     + (Z.of_nat (length nows) - Z.of_nat (length (accepted self nows))))%Z /\
  (rate_limited (metrics self)
     <= rate_limited (metrics (allow_calls self nows).2))%Z /\
  (min_delay_blocked (metrics self)
     <= min_delay_blocked (metrics (allow_calls self nows).2))%Z.
Proof.
  induction nows as [|now rest IH]; intros self.
  - simpl. lia.
  - cbn [allow_calls accepted].
    pose proof (allow_counters self now) as Hstep.
    destruct (allow self now) as [ok self'].
    specialize (IH self'). destruct (allow_calls self' rest) as [oks self''].
    cbn [fst snd] in *.
    destruct ok; cbn [length]; lia.
Qed.

(** X1.  The counters of [TwitchLimiter.allow] account for every call:
    over any sequence of calls on any limiter, [total_attempts] grows by
    the number of calls, [allowed_messages] by the number of calls that
    returned [True], and the two rejection counters together by the number
    that returned [False], neither ever decreasing.  On a limiter fresh
    from [__init__], [total_attempts] is therefore always the sum of
    [allowed_messages], [rate_limited] and [min_delay_blocked]. *)
Theorem limiter_counters_account_for_every_call :
  (forall (self : t) (nows : list Q),
     total_attempts (metrics (allow_calls self nows).2)
       = (total_attempts (metrics self) + Z.of_nat (length nows))%Z /\
     allowed_messages (metrics (allow_calls self nows).2)
       = (allowed_messages (metrics self)
          + Z.of_nat (length (accepted self nows)))%Z /\
     (rate_limited (metrics (allow_calls self nows).2)
        + min_delay_blocked (metrics (allow_calls self nows).2)
      = rate_limited (metrics self) + min_delay_blocked (metrics self)
        + (Z.of_nat (length nows) - Z.of_nat (length (accepted self nows))))%Z /\
     (rate_limited (metrics self)
        <= rate_limited (metrics (allow_calls self nows).2))%Z /\
     (min_delay_blocked (metrics self)
        <= min_delay_blocked (metrics (allow_calls self nows).2))%Z) /\
  (forall (lim : Z) (w md start : Q) (nows : list Q),
     total_attempts (metrics (allow_calls (init lim w md start) nows).2)
     = (allowed_messages (metrics (allow_calls (init lim w md start) nows).2)
        + rate_limited (metrics (allow_calls (init lim w md start) nows).2)
        + min_delay_blocked (metrics (allow_calls (init lim w md start) nows).2))%Z /\
     total_attempts (metrics (allow_calls (init lim w md start) nows).2)
     = Z.of_nat (length nows)).
Proof.
  split.
  - intros self nows. apply allow_calls_counters.
  - intros lim w md start nows.
    pose proof (allow_calls_counters nows (init lim w md start)) as H.
    cbn [init metrics total_attempts allowed_messages rate_limited
         min_delay_blocked] in H.
    lia.
Qed.

(** ** The deque holds the sends of the trailing window *)

Lemma popleft_expired_recent (w now : Q) (events : list Q) :
  StronglySorted Qle events ->
  Forall (fun e => now - e <= w) (popleft_expired w now events).
Proof.
  induction 1 as [|e rest Hs IH Hall]; simpl; [constructor|].
  destruct (Qltb w (now - e)) eqn:He; [exact IH|].
  apply Qltb_ge in He. constructor; [exact He|].
  eapply Forall_impl; [exact Hall|]. simpl. intros x Hx. lra.
Qed.

Lemma popleft_expired_sorted (w now : Q) (events : list Q) :
  StronglySorted Qle events -> StronglySorted Qle (popleft_expired w now events).
Proof.
  induction 1 as [|e rest Hs IH Hall]; simpl; [constructor|].
  destruct (Qltb w (now - e)); [exact IH|]. by constructor.
Qed.

Lemma StronglySorted_snoc (l : list Q) (x : Q) :
  StronglySorted Qle l -> Forall (fun e => e <= x) l ->
  StronglySorted Qle (l ++ [x]).
Proof.
  induction 1 as [|e rest Hs IH Hall]; intros Hx; simpl.
  - constructor; constructor.
  - apply Forall_cons in Hx as [Hex Hx]. constructor; [by apply IH|].
    apply Forall_app. split; [exact Hall|]. by constructor.
Qed.

(** The deque is in time order, nothing in it is later than the last
    send or more than a window older than it. *)
Lemma allow_recent (self : t) (now : Q) :
  0 <= min_delay self -> 0 <= window self ->
  StronglySorted Qle (events self) ->
  Forall (fun e => e <= last_message self /\
                   last_message self - e <= window self) (events self) ->
  StronglySorted Qle (events (allow self now).2) /\
  Forall (fun e => e <= last_message (allow self now).2 /\
                   last_message (allow self now).2 - e <= window self)
         (events (allow self now).2).
Proof.
  intros Hmd Hw Hs Hall. unfold allow.
  destruct (Qltb (now - last_message self) (min_delay self)) eqn:Hgate;
    [done|].
  apply Qltb_ge in Hgate.
  pose proof (popleft_expired_sorted (window self) now _ Hs) as Hks.
  pose proof (popleft_expired_recent (window self) now _ Hs) as Hkr.
  pose proof (popleft_expired_Forall _ (window self) now _ Hall) as Hka.
  destruct (_ <? _)%Z; simpl.
  - split.
    + apply StronglySorted_snoc; [exact Hks|].
      eapply Forall_impl; [exact Hka|]. simpl. intros e [He _]. lra.
    + apply Forall_app. split.
      * rewrite Forall_forall in Hka, Hkr. apply Forall_forall.
        intros e He. specialize (Hka e He). specialize (Hkr e He).
        simpl in Hkr. split; lra.
      * constructor; [|constructor]. split; lra.
  - by split.
Qed.

Lemma allow_calls_recent (nows : list Q) : forall (self : t),
  0 <= min_delay self -> 0 <= window self ->
  StronglySorted Qle (events self) ->
  Forall (fun e => e <= last_message self /\
                   last_message self - e <= window self) (events self) ->
  StronglySorted Qle (events (allow_calls self nows).2) /\
  Forall (fun e => e <= last_message (allow_calls self nows).2 /\
                   last_message (allow_calls self nows).2 - e <= window self)
         (events (allow_calls self nows).2).
Proof.
  induction nows as [|now rest IH]; intros self Hmd Hw Hs Hall; [done|].
  cbn [allow_calls].
  pose proof (allow_recent self now Hmd Hw Hs Hall) as [Hs' Hall'].
  destruct (allow_params self now) as (_ & Hwin & Hdel & _).
  destruct (allow self now) as [ok self']. cbn [fst snd] in *.
  specialize (IH self'). rewrite Hwin, Hdel in IH.
  specialize (IH Hmd Hw Hs' Hall').
  destruct (allow_calls self' rest) as [oks self'']. exact IH.
Qed.

(** X2.  After any sequence of calls on a limiter with the default
    parameters, the deque [events] holds at most 20 timestamps; it is the
    tail of the accepted timestamps, in time order, at least the minimum
    delay apart; and each is no later than [last_message] and at most a
    window (30 s) older than it. *)
Theorem limiter_deque_is_recent_sends (start : Q) (nows : list Q) :
  (length (events (allow_calls (new start) nows).2) <= 20)%nat /\
  (exists gone,
      accepted (new start) nows = gone ++ events (allow_calls (new start) nows).2) /\
  StronglySorted Qle (events (allow_calls (new start) nows).2) /\
  separated MIN_MSG_DELAY (events (allow_calls (new start) nows).2) /\
  Forall (fun e => e <= last_message (allow_calls (new start) nows).2 /\
                   last_message (allow_calls (new start) nows).2 - e <= MSG_WINDOW)
         (events (allow_calls (new start) nows).2).
Proof.
  assert (Hmd : 0 <= min_delay (new start))
    by (change (0 <= MIN_MSG_DELAY); unfold MIN_MSG_DELAY; lra).
  assert (Hw : 0 <= window (new start))
    by (change (0 <= MSG_WINDOW); unfold MSG_WINDOW; lra).
  destruct (allow_calls_inv nows (new start) [] Hmd
              (limiter_inv_init MSG_LIMIT MSG_WINDOW MIN_MSG_DELAY start
                 ltac:(unfold MSG_LIMIT; lia)))
    as ([Hsplit _ Hlen _ Hsep] & _ & Hlim & Hdel).
  destruct (allow_calls_recent nows (new start) Hmd Hw) as [Hs Hall].
  { constructor. }
  { constructor. }
  rewrite Hlim in Hlen. rewrite Hdel in Hsep.
  change (limit (new start)) with 20%Z in Hlen.
  change (min_delay (new start)) with MIN_MSG_DELAY in Hsep.
  change (window (new start)) with MSG_WINDOW in Hall.
  destruct Hsplit as (gone & Hacc & _). simpl in Hacc.
  split; [lia|]. split; [by exists gone|]. split; [exact Hs|]. split; [|exact Hall].
  intros i j a b Hij Hi Hj. change ([] ++ ?l) with l in Hsep.
  apply (Hsep (length gone + i)%nat (length gone + j)%nat); [lia| |].
  - rewrite Hacc. rewrite lookup_app_r by lia.
    by replace (length gone + i - length gone)%nat with i by lia.
  - rewrite Hacc. rewrite lookup_app_r by lia.
    by replace (length gone + j - length gone)%nat with j by lia.
Qed.

End limiter_accounting.

Section session_wait.

Import IRCShard.

(** * The session: how long the sender waits for the limiter *)

(** The loop of the model, with every nap exactly 0.05 s long, is the
    loop on a real clock whose gaps are all 0.05 s. *)
Lemma wait_for_limiter_is_paced (n : nat) : forall (st : State),
  wait_for_limiter (S n) st = wait_for_limiter_paced (replicate n (1 # 20)) st.
Proof.
  induction n as [|n IH]; intros st.
  - cbn [wait_for_limiter replicate wait_for_limiter_paced].
    by destruct (TwitchLimiter.allow _ _) as [[|] lim'].
  - change (wait_for_limiter (S (S n)) st)
      with (let '(ok, lim) := TwitchLimiter.allow (limiter (self st)) (clock st) in
            if ok then Some (set_self st (set_limiter (self st) lim))
            else wait_for_limiter (S n)
                   (sleep (set_self st (set_limiter (self st) lim)) (1 # 20))).
    cbn [replicate wait_for_limiter_paced].
    destruct (TwitchLimiter.allow _ _) as [[|] lim']; [done|]. apply IH.
Qed.

(** Past [ready_by] a call is accepted. *)
Lemma accepted_after (lim : TwitchLimiter.t) (t : Q) :
  (0 < TwitchLimiter.limit lim)%Z ->
  Forall (fun e => e <= TwitchLimiter.last_message lim) (TwitchLimiter.events lim) ->
  ready_by lim < t ->
  (TwitchLimiter.allow lim t).1 = true.
Proof.
  intros Hlimit Hall. unfold ready_by.
  destruct (_ <? _)%Z eqn:Hroom.
  - intros Ht. unfold TwitchLimiter.allow.
    assert (Qltb (t - TwitchLimiter.last_message lim) (TwitchLimiter.min_delay lim)
            = false) as -> by (apply Qltb_ge; lra).
    pose proof (popleft_expired_length (TwitchLimiter.window lim) t
                  (TwitchLimiter.events lim)) as Hlen.
    apply Z.ltb_lt in Hroom.
    assert ((Z.of_nat (length (TwitchLimiter.popleft_expired
               (TwitchLimiter.window lim) t (TwitchLimiter.events lim)))
             <? TwitchLimiter.limit lim)%Z = true) as ->; [|done].
    apply Z.ltb_lt. lia.
  - intros Ht. apply allow_ready; [exact Hlimit|].
    assert (TwitchLimiter.min_delay lim + TwitchLimiter.last_message lim < t /\
            TwitchLimiter.window lim + TwitchLimiter.last_message lim < t) as [Hmd Hw].
    { destruct (Qle_bool _ _) eqn:Hle.
      - apply Qle_bool_iff in Hle. lra.
      - assert (~ TwitchLimiter.min_delay lim <= TwitchLimiter.window lim).
        { intros H. apply Qle_bool_iff in H. congruence. }
        lra. }
    split; [lra|].
    eapply Forall_impl; [exact Hall|]. simpl. intros e He. lra.
Qed.

(** A rejected call changes neither the last send nor the parameters,
    and only drops timestamps; the limiter stays due at the same
    moment. *)
Lemma allow_rejected_frame (lim : TwitchLimiter.t) (t : Q) :
  (TwitchLimiter.allow lim t).1 = false ->
  TwitchLimiter.limit (TwitchLimiter.allow lim t).2 = TwitchLimiter.limit lim /\
  ready_by (TwitchLimiter.allow lim t).2 = ready_by lim /\
  TwitchLimiter.last_message (TwitchLimiter.allow lim t).2
    = TwitchLimiter.last_message lim /\
  (Forall (fun e => e <= TwitchLimiter.last_message lim) (TwitchLimiter.events lim) ->
   Forall (fun e => e <= TwitchLimiter.last_message lim)
          (TwitchLimiter.events (TwitchLimiter.allow lim t).2)).
Proof.
  unfold TwitchLimiter.allow, ready_by.
  destruct (Qltb _ _); [done|]. destruct (_ <? _)%Z eqn:Hkept; [done|].
  cbn [fst snd TwitchLimiter.limit TwitchLimiter.last_message TwitchLimiter.events
       TwitchLimiter.min_delay TwitchLimiter.window].
  intros _. split; [done|]. split; [|split; [done | apply popleft_expired_Forall]].
  rewrite Hkept.
  pose proof (popleft_expired_length (TwitchLimiter.window lim) t
                (TwitchLimiter.events lim)) as Hlen.
  apply Z.ltb_ge in Hkept.
  assert ((Z.of_nat (length (TwitchLimiter.events lim)) <? TwitchLimiter.limit lim)%Z
          = false) as ->; [|done].
  apply Z.ltb_ge. lia.
Qed.

(** X4.  The sender's wait [while not self.limiter.allow():
    time.sleep(0.05)] on a real clock, where each nap lasts 0.05 s or
    longer.  With a positive limit and no recorded send later than
    [last_message], the loop returns as soon as the time that passes
    reaches beyond the moment the limiter is due (the last send plus the
    minimum delay while fewer sends than the limit are recorded, plus
    the longer of the minimum delay and the window otherwise), and it
    does not overshoot by more than its last nap: either the first call
    is accepted, or the call before the accepted one was made no later
    than the due moment.  The number of naps is at most 20 times the time
    to the due moment, plus one. *)
Theorem limiter_wait_is_bounded (st : State) (gaps : list Q) :
  (0 < TwitchLimiter.limit (limiter (self st)))%Z ->
  Forall (fun e => e <= TwitchLimiter.last_message (limiter (self st)))
         (TwitchLimiter.events (limiter (self st))) ->
  Forall (fun gap => 1 # 20 <= gap) gaps ->
  ready_by (limiter (self st)) < clock st + elapsed gaps ->
  exists (st' : State) (k : nat),
    wait_for_limiter_paced gaps st = Some st' /\
    waited st st' /\
    (k <= length gaps)%nat /\
    slept st' = slept st ++ replicate k (1 # 20) /\
    clock st' == clock st + elapsed (take k gaps) /\
    (k = 0%nat \/
     (clock st + elapsed (take (k - 1) gaps) <= ready_by (limiter (self st)) /\
      (inject_Z (Z.of_nat k) - 1) * (1 # 20)
        <= ready_by (limiter (self st)) - clock st)).
Proof.
  revert st. induction gaps as [|gap rest IH]; intros st Hlimit Hall Hgaps Hreach.
  - (* no time passes: the limiter is due already *)
    assert (Hok : (TwitchLimiter.allow (limiter (self st)) (clock st)).1 = true).
    { apply accepted_after; [exact Hlimit | exact Hall|].
      unfold elapsed in Hreach. simpl in Hreach. lra. }
    destruct (allow_accepted _ _ Hok) as [Hlast Hrec].
    exists (set_self st (set_limiter (self st)
              (TwitchLimiter.allow (limiter (self st)) (clock st)).2)), 0%nat.
    split.
    { cbn [wait_for_limiter_paced].
      destruct (TwitchLimiter.allow _ _) as [ok lim']. simpl in *. by subst ok. }
    split; [split; [done | done | done | apply Qle_refl | exact Hlast | exact Hrec]|].
    split; [done|]. split; [by rewrite app_nil_r|].
    split; [cbn; lra | by left].
  - destruct (TwitchLimiter.allow (limiter (self st)) (clock st)) as [ok lim'] eqn:Hcall.
    destruct ok.
    + assert (Hok : (TwitchLimiter.allow (limiter (self st)) (clock st)).1 = true)
        by (by rewrite Hcall).
      destruct (allow_accepted _ _ Hok) as [Hlast Hrec]. rewrite Hcall in Hlast, Hrec.
      exists (set_self st (set_limiter (self st) lim')), 0%nat.
      split; [cbn [wait_for_limiter_paced]; by rewrite Hcall|].
      split; [split; [done | done | done | apply Qle_refl | exact Hlast | exact Hrec]|].
      split; [cbn; lia|]. split; [by rewrite app_nil_r|].
      split; [cbn; lra | by left].
    + assert (Hno : (TwitchLimiter.allow (limiter (self st)) (clock st)).1 = false)
        by (by rewrite Hcall).
      destruct (allow_rejected_frame _ _ Hno) as (Hlim & Hdue & Hlm & Hev).
      rewrite Hcall in Hlim, Hdue, Hlm, Hev. cbn [snd] in Hlim, Hdue, Hlm, Hev.
      (* a rejected call was made no later than the due moment *)
      assert (Hearly : clock st <= ready_by (limiter (self st))).
      { destruct (Qlt_le_dec (ready_by (limiter (self st))) (clock st)) as [Hpast|]; [|done].
        pose proof (accepted_after _ _ Hlimit Hall Hpast) as Hok.
        congruence. }
      apply Forall_cons in Hgaps as [Hgap Hgaps].
      set (st1 := nap (set_self st (set_limiter (self st) lim')) gap).
      destruct (IH st1) as (st' & k & Hwait & Hw & Hk & Hslept & Hclock & Hbound).
      * simpl. by rewrite Hlim.
      * simpl. rewrite Hlm. by apply Hev.
      * exact Hgaps.
      * change (limiter (self st1)) with lim'. rewrite Hdue.
        change (clock st1) with (clock st + gap).
        change (elapsed (gap :: rest)) with (gap + elapsed rest) in Hreach. lra.
      * exists st', (S k). split.
        { cbn [wait_for_limiter_paced]. by rewrite Hcall. }
        split.
        { destruct Hw as [Hs Hc Hfl Hck Hl Hr]. split; try done.
          change (clock st1) with (clock st + gap) in Hck. lra. }
        split; [cbn [length]; lia|].
        split.
        { rewrite Hslept. change (slept st1) with (slept st ++ [1 # 20]).
          by rewrite <- app_assoc. }
        split.
        { rewrite Hclock. change (clock st1) with (clock st + gap).
          change (elapsed (take (S k) (gap :: rest))) with (gap + elapsed (take k rest)).
          lra. }
        right. change (limiter (self st1)) with lim' in Hbound. rewrite Hdue in Hbound.
        change (clock st1) with (clock st + gap) in Hbound.
        replace (S k - 1)%nat with k by lia.
        rewrite Nat2Z.inj_succ. unfold Z.succ. rewrite inject_Z_plus.
        change (inject_Z 1) with 1.
        destruct Hbound as [-> | [Hprev Hnaps]].
        { change (elapsed (take 0 (gap :: rest))) with 0.
          change (inject_Z (Z.of_nat 0)) with 0. split; lra. }
        destruct k as [|k]; [change (elapsed (take 0 (gap :: rest))) with 0;
                             change (inject_Z (Z.of_nat 0)) with 0; split; lra|].
        replace (S k - 1)%nat with k in Hprev by lia.
        change (elapsed (take (S k) (gap :: rest))) with (gap + elapsed (take k rest)).
        split; lra.
Qed.

Lemma limiter_wait_is_bounded_witness :
  (0 < TwitchLimiter.limit (limiter (self Case.just_sent)))%Z /\
  Forall (fun e => e <= TwitchLimiter.last_message (limiter (self Case.just_sent)))
         (TwitchLimiter.events (limiter (self Case.just_sent))) /\
  Forall (fun gap => 1 # 20 <= gap) [1; 1] /\
  ready_by (limiter (self Case.just_sent)) < clock Case.just_sent + elapsed [1; 1] /\
  exists (st' : State) (k : nat),
    wait_for_limiter_paced [1; 1] Case.just_sent = Some st' /\
    slept st' = slept Case.just_sent ++ replicate k (1 # 20) /\
    clock st' == clock Case.just_sent + elapsed (take k [1; 1]).
Proof.
  assert (H1 : (0 < TwitchLimiter.limit (limiter (self Case.just_sent)))%Z)
    by reflexivity.
  assert (H2 : Forall
            (fun e => e <= TwitchLimiter.last_message (limiter (self Case.just_sent)))
            (TwitchLimiter.events (limiter (self Case.just_sent)))).
  { vm_compute. repeat constructor. discriminate. }
  assert (H3 : Forall (fun gap => 1 # 20 <= gap) [1; 1]).
  { repeat constructor; discriminate. }
  assert (H4 : ready_by (limiter (self Case.just_sent))
               < clock Case.just_sent + elapsed [1; 1]) by reflexivity.
  split; [exact H1|]. split; [exact H2|]. split; [exact H3|]. split; [exact H4|].
  destruct (limiter_wait_is_bounded Case.just_sent [1; 1] H1 H2 H3 H4)
    as (st' & k & Hwait & _ & _ & Hslept & Hclock & _).
  by exists st', k.
Defined.

(** A limiter whose limit is not positive refuses every call. *)
Lemma allow_without_budget (lim : TwitchLimiter.t) (t : Q) :
  (TwitchLimiter.limit lim <= 0)%Z ->
  (TwitchLimiter.allow lim t).1 = false /\
  TwitchLimiter.limit (TwitchLimiter.allow lim t).2 = TwitchLimiter.limit lim.
Proof.
  intros Hl. unfold TwitchLimiter.allow.
  destruct (Qltb _ _); [done|].
  assert ((Z.of_nat (length (TwitchLimiter.popleft_expired
             (TwitchLimiter.window lim) t (TwitchLimiter.events lim)))
           <? TwitchLimiter.limit lim)%Z = false) as ->; [|done].
  apply Z.ltb_ge. lia.
Qed.

(** X5.  With a limit of zero (or less) the limiter never accepts a call,
    so the sender's wait never ends: a session that has taken an item off
    the send queue stays in the wait loop, however long it runs, and the
    item is never sent. *)
Theorem limiter_without_budget_blocks_sender (st : State) :
  (TwitchLimiter.limit (limiter (self st)) <= 0)%Z ->
  (forall fuel, wait_for_limiter fuel st = None) /\
  (forall fuel target_chan msg rest,
     RuntimeContext.send_queue (context st) = (target_chan, msg) :: rest ->
     send_outgoing fuel st = None).
Proof.
  intros Hl.
  assert (Hwait : forall fuel st0,
            (TwitchLimiter.limit (limiter (self st0)) <= 0)%Z ->
            wait_for_limiter fuel st0 = None).
  { induction fuel as [|fuel IH]; intros st0 Hl0; [done|].
    cbn [wait_for_limiter].
    destruct (allow_without_budget (limiter (self st0)) (clock st0) Hl0) as [Hno Hlim].
    destruct (TwitchLimiter.allow _ _) as [ok lim']. simpl in Hno, Hlim. subst ok.
    apply IH. simpl. by rewrite Hlim. }
  split; [intros fuel; by apply Hwait|].
  intros fuel target_chan msg rest Hq. unfold send_outgoing. rewrite Hq.
  by rewrite Hwait.
Qed.

Lemma limiter_without_budget_blocks_sender_witness :
  (TwitchLimiter.limit (limiter (self Case.no_budget)) <= 0)%Z /\
  RuntimeContext.send_queue (context Case.no_budget) = [("baz", "hi")] /\
  send_outgoing 1000 Case.no_budget = None.
Proof.
  assert (H : (TwitchLimiter.limit (limiter (self Case.no_budget)) <= 0)%Z)
    by (vm_compute; discriminate).
  split; [exact H|]. split; [reflexivity|].
  exact (proj2 (limiter_without_budget_blocks_sender Case.no_budget H)
               1000%nat "baz" "hi" [] eq_refl).
Defined.

End session_wait.

Section session_channels.

Import IRCShard.

(** * The session: joining and parting channels, shutting down *)

Lemma start_tracking_users (chans : list string) : forall users c,
  (start_tracking users c chans).1
  = foldl (fun u chan => <[Py.lower chan := (∅ : gset string)]> u) users chans.
Proof.
  unfold start_tracking.
  induction chans as [|x l IH]; intros users c; [done|]. simpl. apply IH.
Qed.

Lemma start_tracking_gui (chans : list string) : forall users c,
  RuntimeContext.gui_queue (start_tracking users c chans).2
  = RuntimeContext.gui_queue c ++
    map (fun chan =>
           msg3 (Py.lower chan) "SYSTEM"
             "Collecting chatters in real-time from joins, parts & messages...")
        chans.
Proof.
  unfold start_tracking.
  induction chans as [|x l IH]; intros users c; simpl.
  - by rewrite app_nil_r.
  - rewrite IH. simpl. by rewrite <- app_assoc.
Qed.

Lemma tracked_lookup (chans : list string) :
  forall (users : gmap string (gset string)) (k : string),
  foldl (fun u chan => <[Py.lower chan := (∅ : gset string)]> u) users chans !! k
  = if bool_decide (k ∈ map Py.lower chans) then Some ∅ else users !! k.
Proof.
  induction chans as [|x l IH]; intros users k; [done|].
  cbn [foldl map]. rewrite IH.
  destruct (decide (k ∈ map Py.lower l)) as [Hin|Hout].
  - rewrite !bool_decide_eq_true_2; [done | by right | done].
  - rewrite (bool_decide_eq_false_2 _ Hout).
    destruct (decide (k = Py.lower x)) as [->|Hne].
    + rewrite lookup_insert_eq. rewrite bool_decide_eq_true_2; [done | by left].
    + rewrite lookup_insert_ne by done.
      rewrite bool_decide_eq_false_2; [done|].
      intros Hk. apply elem_of_cons in Hk as [?|?]; done.
Qed.

Lemma untracked_lookup (chans : list string) :
  forall (users : gmap string (gset string)) (k : string),
  foldl (fun u chan => delete (Py.lower chan) u) users chans !! k
  = if bool_decide (k ∈ map Py.lower chans) then None else users !! k.
Proof.
  induction chans as [|x l IH]; intros users k; [done|].
  cbn [foldl map]. rewrite IH.
  destruct (decide (k ∈ map Py.lower l)) as [Hin|Hout].
  - rewrite !bool_decide_eq_true_2; [done | by right | done].
  - rewrite (bool_decide_eq_false_2 _ Hout).
    destruct (decide (k = Py.lower x)) as [->|Hne].
    + rewrite lookup_delete_eq. rewrite bool_decide_eq_true_2; [done | by left].
    + rewrite lookup_delete_ne by done.
      rewrite bool_decide_eq_false_2; [done|].
      intros Hk. apply elem_of_cons in Hk as [?|?]; done.
Qed.

Lemma live_socket (sk : Socket) :
  sock_alive sk = true -> sk = mkSocket Connected (sock_sent sk).
Proof. destruct sk as [[] ?]; by try discriminate. Qed.

(** X6.  [join_channels] on a live socket: the requested channels the
    session does not own yet are appended to its channel list, in the
    order given, and nothing is removed, so afterwards the session owns
    a channel exactly when it owned it before or it was requested; at
    most one line goes out, a single JOIN naming all the new channels;
    each new channel starts with an empty speaker set and the speaker sets
    of the other channels are left alone. *)
Theorem join_channels_adds_requested_channels
    (st : State) (new_channels : list string) (sk : Socket) :
  sock (self st) = Some sk -> sock_alive sk = true ->
  channels (self (join_channels st new_channels))
    = channels (self st)
      ++ filter (fun c => c ∉ channels (self st)) new_channels /\
  (forall c, c ∈ channels (self (join_channels st new_channels)) <->
             c ∈ channels (self st) \/ c ∈ new_channels) /\
  sock (self (join_channels st new_channels))
    = Some (mkSocket Connected
        (sock_sent sk ++
           match filter (fun c => c ∉ channels (self st)) new_channels with
           | [] => []
           | fresh =>
               ["JOIN " +:+ Py.join "," (map (fun c => "#" +:+ c) fresh) +:+ Py.crlf]
           end)) /\
  (forall k,
     channel_users (self (join_channels st new_channels)) !! k
     = if bool_decide
            (k ∈ map Py.lower
                   (filter (fun c => c ∉ channels (self st)) new_channels))
       then Some ∅ else channel_users (self st) !! k).
Proof.
  intros Hs Hlive.
  assert (Hmem : forall c,
            c ∈ channels (self st)
                ++ filter (fun c => c ∉ channels (self st)) new_channels <->
            c ∈ channels (self st) \/ c ∈ new_channels).
  { intros c. rewrite elem_of_app, list_elem_of_filter.
    destruct (decide (c ∈ channels (self st))); tauto. }
  unfold join_channels. rewrite Hs.
  destruct new_channels as [|n0 ns].
  { rewrite filter_nil, !app_nil_r. split; [done|]. split.
    - intros c. specialize (Hmem c). by rewrite filter_nil, app_nil_r in Hmem.
    - split; [by rewrite Hs, <- live_socket | done]. }
  remember (n0 :: ns) as new_channels eqn:Hnew. clear Hnew.
  destruct (filter (fun c => c ∉ channels (self st)) new_channels)
    as [|f fs] eqn:Hfresh.
  { rewrite !app_nil_r. split; [done|]. split.
    - intros c. specialize (Hmem c). by rewrite app_nil_r in Hmem.
    - split; [by rewrite Hs, <- live_socket | done]. }
  unfold sock_send. rewrite Hlive.
  pose proof (start_tracking_users (f :: fs)) as Hu.
  match goal with
  | |- context [start_tracking ?u ?c (f :: fs)] =>
      specialize (Hu u c); destruct (start_tracking u c (f :: fs)) as [users c2]
  end.
  cbn [fst] in Hu. subst users.
  cbn [self set_self set_context channels set_channel_users set_channels sock
       set_sock channel_users].
  split; [done|]. split; [exact Hmem|]. split; [done|].
  intros k. apply tracked_lookup.
Qed.

Lemma join_channels_adds_requested_channels_witness :
  exists sk,
    sock (self Sample.connected) = Some sk /\ sock_alive sk = true /\
    channels (self (join_channels Sample.connected ["bar"; "Baz"]))
      = ["foo"; "bar"; "Baz"] /\
    channel_users (self (join_channels Sample.connected ["bar"; "Baz"])) !! "baz"
      = Some ∅.
Proof.
  eexists. split; [reflexivity|]. split; [reflexivity|].
  destruct (join_channels_adds_requested_channels Sample.connected ["bar"; "Baz"]
              _ eq_refl eq_refl) as (Hc & _ & _ & Hu).
  split; [exact Hc | exact (Hu "baz")].
Defined.

(** On a socket that cannot send, every PART fails and is swallowed. *)
Lemma send_parts_dead (chans : list string) :
  forall (sk : Socket) (c : RuntimeContext.t),
  sock_alive sk = false -> send_parts sk c chans = (sk, c).
Proof.
  induction chans as [|chan rest IH]; intros sk c Hdead; cbn [send_parts]; [done|].
  unfold sock_send. rewrite Hdead. by apply IH.
Qed.

(** X7.  [join_channels] when the JOIN cannot be sent (the socket is
    closed or was never connected): the channel list, the speaker sets,
    the socket and the GUI queue are left as they were and, if there was
    a new channel to join, exactly one JOIN_FAILED warning is logged; it
    names the session, the new channels as Python prints the list, and
    the error of the send, bad file descriptor on a closed socket and
    broken pipe on one that never connected.  Without a socket at all
    the call does nothing. *)
Theorem join_channels_failure_only_logs
    (st : State) (new_channels : list string) :
  (forall sk, sock (self st) = Some sk -> sock_alive sk = false) ->
  self (join_channels st new_channels) = self st /\
  RuntimeContext.gui_queue (context (join_channels st new_channels))
    = RuntimeContext.gui_queue (context st) /\
  (sock (self st) = None -> join_channels st new_channels = st) /\
  (forall sk, sock (self st) = Some sk ->
     DataLogger.system_rows
       (RuntimeContext.data_logger (context (join_channels st new_channels)))
     = DataLogger.system_rows (RuntimeContext.data_logger (context st)) ++
       match filter (fun c => c ∉ channels (self st)) new_channels with
       | [] => []
       | fresh =>
           [DataLogger.mkSystemRow (clock st) "JOIN_FAILED" "ALL"
              ("Shard " +:+ shard_id (self st) +:+ " failed to join "
                 +:+ py_repr (VList (map VStr fresh)) +:+ ": "
                 +:+ match sock_status sk with
                     | Closed => "[Errno 9] Bad file descriptor"
                     | _ => "[Errno 32] Broken pipe"
                     end)
              "WARNING"]
       end).
Proof.
  intros Hdead. unfold join_channels.
  destruct (sock (self st)) as [sk|] eqn:Hs; [|by destruct new_channels].
  specialize (Hdead sk eq_refl).
  destruct new_channels as [|n0 ns].
  { rewrite filter_nil. repeat split; try done. intros _ _. by rewrite app_nil_r. }
  remember (n0 :: ns) as new_channels eqn:Hnew. clear Hnew.
  destruct (filter (fun c => c ∉ channels (self st)) new_channels)
    as [|f fs] eqn:Hfresh.
  { repeat split; try done. intros _ _. by rewrite app_nil_r. }
  unfold sock_send. rewrite Hdead. repeat split; try done.
  intros sk' [= <-]. cbn [context set_context RuntimeContext.log_system
    RuntimeContext.data_logger RuntimeContext.set_data_logger
    DataLogger.log_system DataLogger.system_rows].
  unfold send_error. by destruct (sock_status sk).
Qed.

Lemma join_channels_failure_only_logs_witness :
  (forall sk, sock (self (set_self Sample.connected (stop (self Sample.connected))))
              = Some sk -> sock_alive sk = false) /\
  self (join_channels (set_self Sample.connected (stop (self Sample.connected)))
          ["baz"])
  = stop (self Sample.connected) /\
  List.last
    (DataLogger.sys_details <$>
       DataLogger.system_rows
         (RuntimeContext.data_logger
            (context
               (join_channels
                  (set_self Sample.connected (stop (self Sample.connected)))
                  ["baz"]))))
    EmptyString
  = "Shard shard_0 failed to join ['baz']: [Errno 9] Bad file descriptor".
Proof.
  assert (H : forall sk,
            sock (self (set_self Sample.connected (stop (self Sample.connected))))
            = Some sk -> sock_alive sk = false).
  { intros sk [= <-]. reflexivity. }
  split; [exact H|].
  destruct (join_channels_failure_only_logs _ ["baz"] H) as (Hself & _ & _ & Hrows).
  split; [exact Hself|].
  rewrite (Hrows _ eq_refl). reflexivity.
Defined.

(** X8.  [part_channels] with a socket: afterwards the session owns a
    channel exactly when it owned it before and it was not parted, the
    remaining channels keep their order, and the speaker set of every
    parted channel is dropped.  On a live socket one PART per listed
    channel goes out, each followed by a notice on the GUI queue; on a
    closed socket nothing goes out and no notice is queued, yet the
    channels are forgotten all the same. *)
Theorem part_channels_forgets_the_parted
    (st : State) (channels_to_part : list string) (sk : Socket) :
  sock (self st) = Some sk ->
  (forall c, c ∈ channels (self (part_channels st channels_to_part)) <->
             c ∈ channels (self st) /\ c ∉ channels_to_part) /\
  sublist (channels (self (part_channels st channels_to_part)))
          (channels (self st)) /\
  (forall k,
     channel_users (self (part_channels st channels_to_part)) !! k
     = if bool_decide (k ∈ map Py.lower channels_to_part)
       then None else channel_users (self st) !! k) /\
  (sock_alive sk = true ->
     sock (self (part_channels st channels_to_part))
       = Some (mkSocket Connected
           (sock_sent sk ++
              map (fun chan => "PART #" +:+ chan +:+ Py.crlf) channels_to_part)) /\
     RuntimeContext.gui_queue (context (part_channels st channels_to_part))
       = RuntimeContext.gui_queue (context st) ++
         map (fun chan => msg3 chan "SYSTEM" ("Bot parted #" +:+ chan))
             channels_to_part) /\
  (sock_alive sk = false ->
     sock (self (part_channels st channels_to_part)) = Some sk /\
     context (part_channels st channels_to_part) = context st).
Proof.
  intros Hs. unfold part_channels. rewrite Hs.
  destruct (send_parts sk (context st) channels_to_part) as [sk' c'] eqn:Hsend.
  cbn [self set_self set_context channels set_channel_users set_channels sock
       set_sock channel_users context].
  split; [|split; [|split; [|split]]].
  - intros c. rewrite list_elem_of_filter. tauto.
  - apply sublist_filter.
  - intros k. apply untracked_lookup.
  - intros Hlive. rewrite (send_parts_alive _ _ _ Hlive) in Hsend.
    injection Hsend as <- <-. split; [done|].
    generalize (context st). clear.
    induction channels_to_part as [|x l IH]; intros c; simpl.
    + by rewrite app_nil_r.
    + rewrite IH. simpl. by rewrite <- app_assoc.
  - intros Hdead. rewrite (send_parts_dead _ _ _ Hdead) in Hsend.
    by injection Hsend as <- <-.
Qed.

Lemma part_channels_forgets_the_parted_witness :
  exists sk,
    sock (self Sample.connected) = Some sk /\
    sublist (channels (self (part_channels Sample.connected ["foo"])))
            ["foo"; "bar"] /\
    channel_users (self (part_channels Sample.connected ["foo"])) !! "foo" = None.
Proof.
  eexists. split; [reflexivity|].
  destruct (part_channels_forgets_the_parted Sample.connected ["foo"] _ eq_refl)
    as (_ & Hsub & Hu & _).
  split; [exact Hsub | exact (Hu "foo")].
Defined.

(** X9.  Joining channels the session does not own and parting them again
    restores its channel list; on the wire this is one JOIN followed by
    one PART per channel, and no speaker set is left behind for the
    channels that were joined. *)
Theorem join_then_part_restores_channels
    (st : State) (new_channels : list string) (sk : Socket) :
  sock (self st) = Some sk -> sock_alive sk = true ->
  new_channels <> [] ->
  (forall c, c ∈ new_channels -> c ∉ channels (self st)) ->
  channels (self (part_channels (join_channels st new_channels) new_channels))
    = channels (self st) /\
  sock (self (part_channels (join_channels st new_channels) new_channels))
    = Some (mkSocket Connected
        (sock_sent sk ++
           ["JOIN " +:+ Py.join "," (map (fun c => "#" +:+ c) new_channels)
              +:+ Py.crlf] ++
           map (fun chan => "PART #" +:+ chan +:+ Py.crlf) new_channels)) /\
  (forall c, c ∈ new_channels ->
     channel_users
       (self (part_channels (join_channels st new_channels) new_channels))
       !! Py.lower c = None).
Proof.
  intros Hs Hlive Hne Hnew.
  assert (Hfresh : filter (fun c => c ∉ channels (self st)) new_channels
                   = new_channels).
  { clear Hne. induction new_channels as [|x l IH]; [done|].
    rewrite filter_cons_True by (apply Hnew; left).
    f_equal. apply IH. intros c Hc. apply Hnew. by right. }
  assert (Hjoin : exists users c2,
            join_channels st new_channels
            = set_context
                (set_self st
                   (set_channel_users
                      (set_channels
                         (set_sock (self st)
                            (Some (mkSocket Connected
                               (sock_sent sk ++
                                  ["JOIN " +:+ Py.join ","
                                      (map (fun c => "#" +:+ c) new_channels)
                                      +:+ Py.crlf]))))
                         (channels (self st) ++ new_channels))
                      users))
                c2).
  { unfold join_channels. rewrite Hs, Hfresh.
    destruct new_channels as [|n0 ns]; [done|].
    unfold sock_send. rewrite Hlive.
    destruct (start_tracking _ _ _) as [users c2]. by exists users, c2. }
  destruct Hjoin as (users & c2 & ->).
  unfold part_channels.
  cbn [self set_self set_context channels set_channel_users set_channels sock
       set_sock channel_users context].
  rewrite send_parts_alive by done.
  cbn [self set_self set_context channels set_channel_users set_channels sock
       set_sock channel_users context sock_sent].
  split; [|split].
  - rewrite filter_app, filter_not_in_self, app_nil_r.
    clear -Hnew. induction (channels (self st)) as [|x l IH]; [done|].
    rewrite filter_cons_True.
    + f_equal. apply IH. intros c Hc Hin. apply (Hnew c Hc). by right.
    + intros Hx. apply (Hnew x Hx). by left.
  - by rewrite <- app_assoc.
  - intros c Hc. rewrite untracked_lookup.
    rewrite bool_decide_eq_true_2; [done|]. by apply list_elem_of_fmap_2.
Qed.

Lemma join_then_part_restores_channels_witness :
  exists sk,
    sock (self Sample.connected) = Some sk /\ sock_alive sk = true /\
    ["baz"; "qux"] <> [] /\
    (forall c, c ∈ ["baz"; "qux"] -> c ∉ channels (self Sample.connected)) /\
    channels (self (part_channels (join_channels Sample.connected ["baz"; "qux"])
                      ["baz"; "qux"]))
      = ["foo"; "bar"].
Proof.
  assert (H : forall c : string,
            c ∈ ["baz"; "qux"] -> c ∉ channels (self Sample.connected)).
  { intros c Hc Hin. change (c ∈ ["foo"; "bar"]) in Hin.
    apply list_elem_of_In in Hc, Hin. simpl in Hc, Hin.
    destruct Hc as [<-|[<-|[]]]; intuition discriminate. }
  eexists. split; [reflexivity|]. split; [reflexivity|].
  split; [discriminate|]. split; [exact H|].
  exact (proj1 (join_then_part_restores_channels Sample.connected ["baz"; "qux"]
                  _ eq_refl eq_refl ltac:(discriminate) H)).
Defined.

End session_channels.

Section session_shutdown.

Import IRCShard.

(** * The session: connecting, shutting down, being stopped *)

(** What a successful [connect] leaves behind. *)
Lemma connect_result (st : State) :
  exists c,
    connect st true
    = (None,
       set_context
         (set_self st
            (set_channel_users
               (set_sock (self st)
                  (Some (mkSocket Connected
                     (["PASS " +:+
                         match RuntimeContext.bot_state (context st) !! "oauth_token" with
                         | Some v => py_str v
                         | None => TWITCH_OAUTH
                         end +:+ Py.crlf;
                       "NICK " +:+ username (self st) +:+ Py.crlf;
                       "CAP REQ :twitch.tv/tags twitch.tv/commands twitch.tv/membership"
                         +:+ Py.crlf] ++
                      match channels (self st) with
                      | [] => []
                      | chans =>
                          ["JOIN " +:+ Py.join "," (map (fun c => "#" +:+ c) chans)
                             +:+ Py.crlf]
                      end))))
               (foldl (fun u chan => <[Py.lower chan := (∅ : gset string)]> u)
                      (channel_users (self st)) (channels (self st)))))
         c) /\
    RuntimeContext.control_queue c = RuntimeContext.control_queue (context st) /\
    RuntimeContext.send_queue c = RuntimeContext.send_queue (context st) /\
    RuntimeContext.bot_state c = RuntimeContext.bot_state (context st) /\
    RuntimeContext.gui_queue c
    = RuntimeContext.gui_queue (context st) ++
      map (fun chan =>
             msg3 (Py.lower chan) "SYSTEM"
               "Collecting chatters in real-time from joins, parts & messages...")
          (channels (self st)) ++
      [msg3 "SYSTEM" "SYSTEM"
         ("Shard " +:+ shard_id (self st) +:+ " connected to "
            +:+ Py.str_of_Z (Z.of_nat (length (channels (self st))))
            +:+ " channels")].
Proof.
  unfold connect. cbn [negb].
  destruct (channels (self st)) as [|c0 cs] eqn:Hc.
  { eexists. split; [reflexivity|]. done. }
  pose proof (start_tracking_users (c0 :: cs) (channel_users (self st)) (context st)) as Hu.
  pose proof (start_tracking_gui (c0 :: cs) (channel_users (self st)) (context st)) as Hg.
  pose proof (start_tracking_frame (c0 :: cs) (channel_users (self st)) (context st))
    as (Hcq & Hsq & Hbs & _).
  destruct (start_tracking _ _ _) as [users c]. cbn [fst snd] in *. subst users.
  eexists. split; [reflexivity|].
  cbn [RuntimeContext.log_system RuntimeContext.set_data_logger
       RuntimeContext.gui_put RuntimeContext.set_gui_queue
       RuntimeContext.control_queue RuntimeContext.send_queue
       RuntimeContext.bot_state RuntimeContext.gui_queue].
  rewrite Hg, <- app_assoc. done.
Qed.

(** X10.  A successful [connect] opens a new socket and sends on it, in
    this order, PASS with the token of the bot state (the configured one
    if there is none), NICK with the session's user name, the capability
    request, and then at most one JOIN naming all the session's
    channels; and it resets the speaker tracking: every channel of the
    session starts again with an empty speaker set, whatever was tracked
    before the connection, while the channel list is unchanged. *)
Theorem connect_resets_speaker_sets (st : State) :
  (connect st true).1 = None /\
  channels (self (connect st true).2) = channels (self st) /\
  sock (self (connect st true).2)
  = Some (mkSocket Connected
      (["PASS " +:+
          match RuntimeContext.bot_state (context st) !! "oauth_token" with
          | Some token => py_str token
          | None => TWITCH_OAUTH
          end +:+ Py.crlf;
        "NICK " +:+ username (self st) +:+ Py.crlf;
        "CAP REQ :twitch.tv/tags twitch.tv/commands twitch.tv/membership"
          +:+ Py.crlf] ++
       match channels (self st) with
       | [] => []
       | chans =>
           ["JOIN " +:+ Py.join "," (map (fun c => "#" +:+ c) chans)
              +:+ Py.crlf]
       end)) /\
  (forall k,
     channel_users (self (connect st true).2) !! k
     = if bool_decide (k ∈ map Py.lower (channels (self st)))
       then Some ∅ else channel_users (self st) !! k) /\
  (forall chan users user,
     chan ∈ map Py.lower (channels (self st)) ->
     channel_users (self (connect st true).2) !! chan = Some users ->
     user ∉ users).
Proof.
  destruct (connect_result st) as (c & -> & _).
  cbn [fst snd self set_self set_context channels set_channel_users set_sock
       sock channel_users].
  split; [done|]. split; [done|]. split; [done|].
  split; [intros k; apply tracked_lookup|].
  intros chan users user Hin. rewrite tracked_lookup.
  rewrite bool_decide_eq_true_2 by done. intros [= <-]. set_solver.
Qed.

Lemma send_parts_frame (chans : list string) :
  forall (sk : Socket) (c : RuntimeContext.t),
    RuntimeContext.control_queue (send_parts sk c chans).2
      = RuntimeContext.control_queue c /\
    RuntimeContext.send_queue (send_parts sk c chans).2
      = RuntimeContext.send_queue c.
Proof.
  induction chans as [|chan rest IH]; intros sk c; cbn [send_parts]; [done|].
  destruct (sock_send sk _); [apply IH|].
  destruct (IH s (RuntimeContext.gui_put c
                    (msg3 chan "SYSTEM" ("Bot parted #" +:+ chan)))) as [-> ->].
  done.
Qed.

(** [cleanup] is the parting of the owned channels, if there is a socket,
    then the closing of the socket; the snapshot only adds a file. *)
Lemma cleanup_unfold (st : State) :
  self (cleanup st)
  = set_sock
      (self match sock (self st), channels (self st) with
            | Some _, _ :: _ => part_channels st (channels (self st))
            | _, _ => st
            end)
      (sock_close <$>
         sock (self match sock (self st), channels (self st) with
                    | Some _, _ :: _ => part_channels st (channels (self st))
                    | _, _ => st
                    end)) /\
  context (cleanup st)
  = context match sock (self st), channels (self st) with
            | Some _, _ :: _ => part_channels st (channels (self st))
            | _, _ => st
            end /\
  clock (cleanup st)
  = clock match sock (self st), channels (self st) with
          | Some _, _ :: _ => part_channels st (channels (self st))
          | _, _ => st
          end /\
  slept (cleanup st)
  = slept match sock (self st), channels (self st) with
          | Some _, _ :: _ => part_channels st (channels (self st))
          | _, _ => st
          end.
Proof.
  unfold cleanup. cbn [data_dir self set_self set_sock].
  by destruct (data_dir (self _)).
Qed.

(** [cleanup] never touches the queues the sessions share for control
    and for outgoing messages, nor the clock, and leaves no socket open. *)
Lemma cleanup_frame (st : State) :
  running (self (cleanup st)) = running (self st) /\
  RuntimeContext.control_queue (context (cleanup st))
    = RuntimeContext.control_queue (context st) /\
  RuntimeContext.send_queue (context (cleanup st))
    = RuntimeContext.send_queue (context st) /\
  clock (cleanup st) = clock st /\
  slept (cleanup st) = slept st /\
  sock_alive <$> sock (self (cleanup st)) = (fun _ => false) <$> sock (self st).
Proof.
  destruct (cleanup_unfold st) as (-> & -> & -> & ->).
  destruct (sock (self st)) as [sk|] eqn:Hs.
  - destruct (channels (self st)) as [|c0 cs] eqn:Hc.
    + by rewrite Hs.
    + unfold part_channels. rewrite Hs.
      pose proof (send_parts_frame (c0 :: cs) sk (context st)) as [Hcq Hsq].
      destruct (send_parts sk (context st) (c0 :: cs)) as [sk' c'].
      cbn [snd] in Hcq, Hsq. by rewrite <- Hcq, <- Hsq.
  - by rewrite Hs.
Qed.

(** On a live socket [cleanup] parts every channel and closes. *)
Lemma cleanup_wire (st : State) (sk : Socket) :
  sock (self st) = Some sk -> sock_alive sk = true ->
  sock (self (cleanup st))
  = Some (mkSocket Closed
      (sock_sent sk ++
         map (fun chan => "PART #" +:+ chan +:+ Py.crlf) (channels (self st)))).
Proof.
  intros Hs Hlive. rewrite (proj1 (cleanup_unfold st)), Hs.
  destruct (channels (self st)) as [|c0 cs] eqn:Hc.
  - rewrite Hs. simpl. by rewrite app_nil_r.
  - unfold part_channels. rewrite Hs.
    by rewrite (send_parts_alive _ _ _ Hlive).
Qed.

(** A session that is no longer running goes straight to [cleanup]. *)
Lemma run_not_running (fuel : nat) (st : State) (script : list Attempt) :
  running (self st) = false -> run fuel st script = Some (cleanup st, true).
Proof.
  intros Hr. destruct script as [|[reachable recvs] rest]; cbn [run]; by rewrite Hr.
Qed.

(** X11.  A shutdown request is honoured before anything else.  A running
    session that finds SHUTDOWN at the head of the control queue when it
    enters the connected loop takes that one item off the queue, sends
    none of the waiting outgoing messages, reads nothing, does not sleep,
    and its thread terminates: it parts each of its channels, closes the
    socket and returns, whatever the rest of the script holds. *)
Theorem shutdown_request_ends_run
    (fuel : nat) (st : State) (rest : list string)
    (r : RecvResult) (recvs : list RecvResult) (script : list Attempt) :
  running (self st) = true ->
  RuntimeContext.control_queue (context st) = "SHUTDOWN" :: rest ->
  exists final sk,
    run fuel st (mkAttempt true (r :: recvs) :: script) = Some (final, true) /\
    running (self final) = false /\
    RuntimeContext.control_queue (context final) = rest /\
    RuntimeContext.send_queue (context final)
      = RuntimeContext.send_queue (context st) /\
    sock (self (connect st true).2) = Some sk /\
    sock (self final)
      = Some (mkSocket Closed
          (sock_sent sk ++
             map (fun chan => "PART #" +:+ chan +:+ Py.crlf) (channels (self st)))) /\
    slept final = slept st /\
    clock final = clock st.
Proof.
  intros Hr Hq. cbn [run]. rewrite Hr. cbn [negb].
  destruct (connect_result st) as (c & -> & Hcq & Hsq & _).
  cbn [fst snd].
  match goal with
  | |- context [connected_loop fuel ?s (r :: recvs)] => set (st2 := s)
  end.
  assert (Hloop : exists st3,
            connected_loop fuel st2 (r :: recvs) = Some (Break, st3) /\
            st3 = set_self
                    (set_context st2
                       (RuntimeContext.set_control_queue (context st2) rest))
                    (set_running (self st2) false)).
  { eexists. split; [|reflexivity].
    cbn [connected_loop]. change (running (self st2)) with (running (self st)).
    rewrite Hr. cbn [negb]. unfold connected_iteration, check_control.
    change (RuntimeContext.control_queue (context st2))
      with (RuntimeContext.control_queue c).
    rewrite Hcq, Hq. reflexivity. }
  destruct Hloop as (st3 & -> & Hst3).
  rewrite (run_not_running fuel st3 script) by (by subst st3).
  destruct (cleanup_frame st3) as (Hrun & Hcq3 & Hsq3 & Hck & Hsl & _).
  eexists (cleanup st3), _. split; [reflexivity|].
  split; [rewrite Hrun; by subst st3|].
  split; [rewrite Hcq3; by subst st3|].
  split; [rewrite Hsq3; subst st3; exact Hsq|].
  split; [reflexivity|].
  split; [|split; [rewrite Hsl | rewrite Hck]; by subst st3].
  rewrite (cleanup_wire st3 _ ltac:(subst st3; reflexivity) eq_refl).
  by subst st3.
Qed.

Lemma shutdown_request_ends_run_witness :
  running (self (set_context (Sample.fresh ["foo"; "bar"])
     (RuntimeContext.set_control_queue Sample.context ["SHUTDOWN"; "SHUTDOWN"])))
  = true /\
  exists final,
    run 0 (set_context (Sample.fresh ["foo"; "bar"])
             (RuntimeContext.set_control_queue Sample.context
                ["SHUTDOWN"; "SHUTDOWN"]))
        [mkAttempt true [RecvTimeout]] = Some (final, true) /\
    RuntimeContext.control_queue (context final) = ["SHUTDOWN"].
Proof.
  split; [reflexivity|].
  destruct (shutdown_request_ends_run 0
              (set_context (Sample.fresh ["foo"; "bar"])
                 (RuntimeContext.set_control_queue Sample.context
                    ["SHUTDOWN"; "SHUTDOWN"]))
              ["SHUTDOWN"] RecvTimeout [] [] eq_refl eq_refl)
    as (final & sk & Hrun & _ & Hq & _).
  by exists final.
Defined.

(** From just after its test, the outer loop of [run] is [run_attempt]. *)
Lemma run_unfold (fuel : nat) (st : State) (a : Attempt) (rest : list Attempt) :
  run fuel st (a :: rest)
  = if negb (running (self st)) then Some (cleanup st, true)
    else run_attempt fuel st a rest.
Proof. by destruct a. Qed.

(** The connected loop is not entered by a session that is no longer
    running. *)
Lemma connected_loop_not_running (fuel : nat) (st : State) (recvs : list RecvResult) :
  running (self st) = false -> connected_loop fuel st recvs = Some (Break, st).
Proof. intros Hr. destruct recvs; cbn [connected_loop]; by rewrite Hr. Qed.

(** X12.  [stop] clears the running flag and closes the socket the
    session has at that moment; what the thread's own [cleanup] then
    sends depends on where the thread is.  If the thread next comes to a
    loop test, of the connected loop or of the outer loop, it leaves the
    loops and its [cleanup] finds the socket closed: no PART goes out and
    no parting notice reaches the GUI queue.  If [stop] lands after the
    test of the outer loop and before [connect], the thread opens a new
    socket, sends the handshake and the JOIN on it, skips the connected
    loop, and its [cleanup] parts every channel on the new socket, with a
    notice each, before closing it. *)
Theorem stop_races_with_reconnect
    (fuel : nat) (st : State) (sk : Socket) (script : list Attempt) :
  sock (self st) = Some sk ->
  (forall recvs,
     connected_loop fuel (set_self st (stop (self st))) recvs
     = Some (Break, set_self st (stop (self st)))) /\
  run fuel (set_self st (stop (self st))) script
    = Some (cleanup (set_self st (stop (self st))), true) /\
  running (self (cleanup (set_self st (stop (self st))))) = false /\
  sock (self (cleanup (set_self st (stop (self st)))))
    = Some (mkSocket Closed (sock_sent sk)) /\
  context (cleanup (set_self st (stop (self st)))) = context st /\
  (forall recvs, exists st2 sk2,
     (connect (set_self st (stop (self st))) true).1 = None /\
     st2 = set_self (connect (set_self st (stop (self st))) true).2
             (set_reconnect_delay
                (self (connect (set_self st (stop (self st))) true).2) 1) /\
     sock (self st2) = Some sk2 /\
     sock_status sk2 = Connected /\
     run_attempt fuel (set_self st (stop (self st))) (mkAttempt true recvs) script
       = Some (cleanup st2, true) /\
     sock (self (cleanup st2))
       = Some (mkSocket Closed
           (sock_sent sk2 ++
              map (fun chan => "PART #" +:+ chan +:+ Py.crlf) (channels (self st)))) /\
     RuntimeContext.gui_queue (context (cleanup st2))
       = RuntimeContext.gui_queue (context st2) ++
         map (fun chan => msg3 chan "SYSTEM" ("Bot parted #" +:+ chan))
             (channels (self st))).
Proof.
  intros Hs.
  split; [intros recvs; by apply connected_loop_not_running|].
  split; [by apply run_not_running|].
  split; [by rewrite (proj1 (cleanup_frame _))|].
  split; [|split].
  - rewrite (proj1 (cleanup_unfold (set_self st (stop (self st))))).
    unfold stop. cbn [self set_self sock set_sock set_running channels].
    rewrite Hs. cbn [fmap option_fmap option_map].
    destruct (channels (self st)) as [|c0 cs] eqn:Hc; [done|].
    unfold part_channels.
    cbn [self set_self sock set_sock set_running channels context].
    by rewrite send_parts_dead.
  - rewrite (proj1 (proj2 (cleanup_unfold (set_self st (stop (self st)))))).
    unfold stop. cbn [self set_self sock set_sock set_running channels].
    rewrite Hs. cbn [fmap option_fmap option_map].
    destruct (channels (self st)) as [|c0 cs] eqn:Hc; [done|].
    unfold part_channels.
    cbn [self set_self sock set_sock set_running channels context].
    by rewrite send_parts_dead.
  - intros recvs.
    set (stopped := set_self st (stop (self st))).
    destruct (connect_result stopped) as (c & Hconnect & _).
    eexists _, _. split; [by rewrite Hconnect|]. split; [reflexivity|].
    rewrite Hconnect. cbn [fst snd].
    match goal with
    | |- context [cleanup ?s] => set (st2 := s)
    end.
    split; [reflexivity|]. split; [reflexivity|].
    assert (Hr : running (self st2) = false) by reflexivity.
    split.
    { unfold run_attempt. rewrite Hconnect. fold st2.
      rewrite (connected_loop_not_running fuel st2 recvs Hr).
      by apply run_not_running. }
    assert (Hs2 : exists sk2, sock (self st2) = Some sk2 /\ sock_alive sk2 = true)
      by (by eexists).
    destruct Hs2 as (sk2 & Hs2 & Hlive).
    split.
    { rewrite (cleanup_wire st2 sk2 Hs2 Hlive). by injection Hs2 as <-. }
    rewrite (proj1 (proj2 (cleanup_unfold st2))). rewrite Hs2.
    change (channels (self st2)) with (channels (self st)).
    destruct (channels (self st)) as [|c0 cs] eqn:Hc; [by rewrite app_nil_r|].
    unfold part_channels. rewrite Hs2.
    rewrite (send_parts_alive _ _ _ Hlive).
    cbn [context set_context]. generalize (context st2). generalize (c0 :: cs).
    clear. intros l. induction l as [|x l IH]; intros c; simpl.
    + by rewrite app_nil_r.
    + rewrite IH. simpl. by rewrite <- app_assoc.
Qed.

Lemma stop_races_with_reconnect_witness :
  exists sk,
    sock (self Sample.connected) = Some sk /\
    sock (self (cleanup (set_self Sample.connected (stop (self Sample.connected)))))
    = Some (mkSocket Closed (sock_sent sk)) /\
    exists final,
      run_attempt 0 (set_self Sample.connected (stop (self Sample.connected)))
                  (mkAttempt true []) []
      = Some (final, true) /\
      sock_sent <$> sock (self final)
      = Some ["PASS oauth:token" +:+ Py.crlf; "NICK fame_bot" +:+ Py.crlf;
              "CAP REQ :twitch.tv/tags twitch.tv/commands twitch.tv/membership"
                +:+ Py.crlf;
              "JOIN #foo,#bar" +:+ Py.crlf;
              "PART #foo" +:+ Py.crlf; "PART #bar" +:+ Py.crlf].
Proof.
  eexists. split; [reflexivity|].
  destruct (stop_races_with_reconnect 0 Sample.connected _ [] eq_refl)
    as (_ & _ & _ & Hclosed & _ & Hrace).
  split; [exact Hclosed|].
  destruct (Hrace []) as (st2 & sk2 & _ & -> & _ & _ & Hrun & _).
  eexists. split; [exact Hrun|]. reflexivity.
Defined.

End session_shutdown.

Section session_framing.

Import IRCShard.

(** * The session: framing of the byte stream into lines *)








End session_framing.

Section session_chat_log.

Import IRCShard.

(** * The session: what incoming chat lines leave behind *)

Lemma lower_char_idem (c : ascii) :
  Py.lower_char (Py.lower_char c) = Py.lower_char c.
Proof. destruct c as [[] [] [] [] [] [] [] []]; vm_compute; reflexivity. Qed.

Lemma lower_idem (s : string) : Py.lower (Py.lower s) = Py.lower s.
Proof.
  induction s as [|c s IH]; [done|].
  cbn [Py.lower]. by rewrite lower_char_idem, IH.
Qed.

(** A chat line is either dropped (or logged as a parse error) with
    nothing counted, or counted once with one chat row and one CHAT
    event, before the speaker is tracked. *)
Lemma parse_privmsg_cases (st : State) (line : string) :
  (self (parse_privmsg st line) = self st /\
   RuntimeContext.gui_queue (context (parse_privmsg st line))
     = RuntimeContext.gui_queue (context st) /\
   DataLogger.chat_rows (RuntimeContext.data_logger (context (parse_privmsg st line)))
     = DataLogger.chat_rows (RuntimeContext.data_logger (context st)) /\
   clock (parse_privmsg st line) = clock st) \/
  (exists chan user msg c,
     parse_privmsg st line
     = track_speaker
         (set_context
            (set_self st (set_message_count (self st) (message_count (self st) + 1)))
            c)
         (Py.lower chan) (Py.lower user) /\
     RuntimeContext.gui_queue c
     = RuntimeContext.gui_queue (context st)
       ++ [msg3 (Py.lower chan) "CHAT" (Py.lower user +:+ ": " +:+ msg)] /\
     DataLogger.chat_rows (RuntimeContext.data_logger c)
     = DataLogger.chat_rows (RuntimeContext.data_logger (context st))
       ++ [DataLogger.mkChatRow (clock st) (Py.lower chan)
             (Py.lower (Py.lower user)) "CHAT" msg
             (DataLogger.experiment_id (RuntimeContext.data_logger (context st)))
             0 (Z.of_nat (String.length msg))]).
Proof.
  unfold parse_privmsg, parse_privmsg_body.
  repeat case_match; simplify_eq; try (by left);
    right; eexists _, _, _, _; (split; [reflexivity|]); done.
Qed.

Lemma chats_added_refl (st : State) : chats_added st st [].
Proof.
  split; [by rewrite app_nil_r | simpl; lia | | constructor].
  exists []. by rewrite app_nil_r.
Qed.

Lemma chats_added_trans (st1 st2 st3 : State) (rows1 rows2 : list DataLogger.ChatRow) :
  clock st2 = clock st1 ->
  chats_added st1 st2 rows1 -> chats_added st2 st3 rows2 ->
  chats_added st1 st3 (rows1 ++ rows2).
Proof.
  intros Hck [Hr1 Hc1 (ev1 & Hg1 & Hf1) Hs1] [Hr2 Hc2 (ev2 & Hg2 & Hf2) Hs2].
  split.
  - by rewrite Hr2, Hr1, app_assoc.
  - rewrite Hc2, Hc1, length_app. lia.
  - exists (ev1 ++ ev2). split.
    + by rewrite Hg2, Hg1, app_assoc.
    + by rewrite List.filter_app, Hf1, Hf2, map_app.
  - apply Forall_app. split; [exact Hs1|].
    eapply Forall_impl; [exact Hs2|]. simpl. intros row. by rewrite Hck.
Qed.

Lemma parse_privmsg_chats (st : State) (line : string) :
  exists rows, chats_added st (parse_privmsg st line) rows.
Proof.
  destruct (parse_privmsg_cases st line)
    as [(Hs & Hg & Hr & _) | (chan & user & msg & c & -> & Hg & Hr)].
  - exists []. split; [by rewrite Hr, app_nil_r | rewrite Hs; simpl; lia | |constructor].
    exists []. by rewrite Hg, app_nil_r.
  - eexists [_].
    match goal with
    | |- context [track_speaker ?s ?ch ?u] =>
        destruct (track_speaker_events s ch u) as (Hg' & Hr' & Hc')
    end.
    split.
    + rewrite Hr'. exact Hr.
    + rewrite Hc'. simpl. lia.
    + eexists [_]. split; [rewrite Hg'; exact Hg|]. simpl.
      unfold chat_event. simpl. by rewrite lower_idem.
    + constructor; [|constructor]. simpl.
      by rewrite !lower_idem.
Qed.

Lemma parse_notice_chats (st : State) (line : string) :
  chats_added st (parse_notice st line) [].
Proof.
  unfold parse_notice.
  repeat case_match; simplify_eq; try apply chats_added_refl;
    (split; [by rewrite app_nil_r | simpl; lia | | constructor]);
    first [ exists []; by rewrite app_nil_r
          | eexists [_]; split; [reflexivity | done] ].
Qed.

Lemma parse_presence_chats (st : State) (line : string) :
  chats_added st (parse_presence st line) [].
Proof.
  unfold parse_presence.
  repeat case_match; simplify_eq; try apply chats_added_refl;
    try match goal with
    | |- context [track_speaker ?s ?ch ?u] =>
        destruct (track_speaker_events s ch u) as (Hg' & Hr' & Hc');
        split; [by rewrite Hr', app_nil_r | rewrite Hc'; simpl; lia | | constructor];
        exists []; by rewrite Hg', app_nil_r
    end;
    (split; [by rewrite app_nil_r | simpl; lia | | constructor]);
    exists []; by rewrite app_nil_r.
Qed.

Lemma handle_lines_chats (lines : list string) : forall (st : State),
  exists rows, chats_added st (handle_lines st lines).2 rows.
Proof.
  induction lines as [|line rest IH]; intros st.
  { exists []. apply chats_added_refl. }
  assert (Hnext : forall st1 rows1,
            clock st1 = clock st -> chats_added st st1 rows1 ->
            exists rows, chats_added st (handle_lines st1 rest).2 rows).
  { intros st1 rows1 Hck H1. destruct (IH st1) as [rows2 H2].
    exists (rows1 ++ rows2). by eapply chats_added_trans. }
  cbn [handle_lines].
  destruct (String.eqb line ""); [by apply (Hnext st []), chats_added_refl|].
  destruct (Py.startswith line "PING").
  { destruct (sock (self st)) as [sk|]; [|exists []; apply chats_added_refl].
    destruct (sock_send sk _); [exists []; apply chats_added_refl|].
    apply (Hnext _ []); [done|].
    split; [by rewrite app_nil_r | simpl; lia | | constructor].
    exists []. by rewrite app_nil_r. }
  destruct (Py.contains "PRIVMSG" line).
  { destruct (parse_privmsg_chats st line) as [rows1 H1].
    apply (Hnext _ rows1); [|exact H1].
    apply (same_clock _ _ (parse_privmsg_untouched st line)). }
  destruct (Py.contains "NOTICE" line).
  { apply (Hnext _ []); [|apply parse_notice_chats].
    apply (same_clock _ _ (parse_notice_untouched st line)). }
  destruct (_ || _).
  { apply (Hnext _ []); [|apply parse_presence_chats].
    apply (same_clock _ _ (parse_presence_untouched st line)). }
  by apply (Hnext st []), chats_added_refl.
Qed.

(** X14.  The counters of the incoming path agree.  Whatever lines a read
    delivers, the session's [message_count] grows by exactly the number of
    chat rows it logs, the rows are appended in order to the chat log,
    every one is of type CHAT with a lower-case channel and user and the
    length of its message, and the CHAT events it puts on the GUI queue
    are those of the rows, one per row and in the same order.  Earlier
    rows and queued events are never changed. *)
Theorem chat_rows_events_and_count_agree (st : State) (lines : list string) :
  exists rows, chats_added st (handle_lines st lines).2 rows.
Proof. apply handle_lines_chats. Qed.

End session_chat_log.

Section session_invariants.

Import IRCShard.

(** * The session and the bridge: chat events reach the subscribers *)

(** A lower-cased string starts with a character that lower-casing
    leaves alone. *)
Lemma lower_head (s t : string) (c : ascii) :
  Py.lower s = String c t -> Py.lower_char c = c.
Proof.
  destruct s as [|c' s]; [done|]. cbn [Py.lower]. intros [= <- _].
  apply lower_char_idem.
Qed.

Lemma lower_not_reserved (s : string) :
  Py.lower s = s ->
  String.eqb s "GUI_UPDATE_META" = false /\
  String.eqb s "ONLINE_PROMPT" = false /\
  String.eqb s "GUI_JOIN_NOW" = false /\
  String.eqb s "SYSTEM" = false /\
  String.eqb s "EXPERIMENT_DATA" = false.
Proof.
  intros Hs.
  repeat split; apply String.eqb_neq; intros ->;
    apply lower_head in Hs; vm_compute in Hs; discriminate.
Qed.

(** X15.  Every chat line a session counts reaches the subscribers.  The
    CHAT event queued for each chat row carries a lower-cased channel
    name, so it can never be taken for one of the three command shapes
    nor for the reserved SYSTEM and EXPERIMENT_DATA channels: the bridge
    turns it into exactly one [chat_message] with the row's channel, the
    tag CHAT and the text [user: message], and raises nothing. *)
Theorem counted_chat_reaches_subscribers (st : State) (lines : list string) :
  exists rows,
    chats_added st (handle_lines st lines).2 rows /\
    forall row, row ∈ rows ->
      forall (out : QueueBridge.Emitted) (now : TimeOfDay),
        QueueBridge._dispatch out (chat_event row) now
        = (None,
           out ++ [QueueBridge.chat_message (DataLogger.chat_channel row) "CHAT"
                     (DataLogger.chat_user row +:+ ": "
                        +:+ DataLogger.chat_message row) now]).
Proof.
  destruct (handle_lines_chats lines st) as [rows Hadd].
  exists rows. split; [exact Hadd|].
  intros row Hrow out now.
  pose proof (added_shape _ _ _ Hadd) as Hshape.
  rewrite Forall_forall in Hshape.
  destruct (Hshape row Hrow) as (Htype & _ & Hchan & _).
  destruct (lower_not_reserved _ Hchan) as (H1 & H2 & H3 & H4 & H5).
  unfold chat_event, msg3, QueueBridge._dispatch, QueueBridge.tuple_get,
    QueueBridge.chat_message.
  cbn [lookup list_lookup py_eq_str py_sliceable].
  by rewrite H1, H2, H3, H4, H5, Htype.
Qed.

(** * The session: the speaker sets *)

Lemma track_speaker_tracking (st : State) (chan user : string) :
  Py.lower user = user ->
  lowercase_tracking (channel_users (self st)) ->
  lowercase_tracking (channel_users (self (track_speaker st chan user))) /\
  dom (channel_users (self (track_speaker st chan user)))
  = dom (channel_users (self st)).
Proof.
  intros Hu Hinv. unfold track_speaker.
  destruct (channel_users (self st) !! chan) as [users|] eqn:Hl; [|done].
  destruct (bool_decide (user ∈ users)); [done|].
  cbn [self set_self set_context channel_users set_channel_users].
  split.
  - intros k names Hk. destruct (decide (k = chan)) as [->|Hne].
    + rewrite lookup_insert_eq in Hk. injection Hk as <-.
      destruct (Hinv chan users Hl) as [Hc Hn]. split; [exact Hc|].
      intros u Hin. apply elem_of_union in Hin as [Hin|Hin]; [|by apply Hn].
      apply elem_of_singleton in Hin. by subst u.
    + rewrite lookup_insert_ne in Hk by done. by apply (Hinv k).
  - rewrite dom_insert_L. apply elem_of_dom_2 in Hl.
    apply subseteq_union_1_L. by apply singleton_subseteq_l.
Qed.

Lemma parse_privmsg_tracking (st : State) (line : string) :
  lowercase_tracking (channel_users (self st)) ->
  lowercase_tracking (channel_users (self (parse_privmsg st line))) /\
  dom (channel_users (self (parse_privmsg st line)))
  = dom (channel_users (self st)).
Proof.
  intros Hinv.
  destruct (parse_privmsg_cases st line)
    as [(Hs & _) | (chan & user & msg & c & -> & _)].
  - by rewrite Hs.
  - exact (track_speaker_tracking
             (set_context
                (set_self st
                   (set_message_count (self st) (message_count (self st) + 1)))
                c)
             _ _ (lower_idem _) Hinv).
Qed.

Lemma parse_notice_self (st : State) (line : string) :
  self (parse_notice st line) = self st.
Proof. unfold parse_notice. repeat case_match; done. Qed.

Lemma parse_presence_tracking (st : State) (line : string) :
  lowercase_tracking (channel_users (self st)) ->
  lowercase_tracking (channel_users (self (parse_presence st line))) /\
  dom (channel_users (self (parse_presence st line)))
  = dom (channel_users (self st)).
Proof.
  intros Hinv. unfold parse_presence.
  destruct (Py.contains "JOIN" line).
  { destruct (Py.split1 "JOIN" line) as [|before [|after [|]]]; try done.
    exact (track_speaker_tracking (set_context st _) _ _ (lower_idem _) Hinv). }
  destruct (Py.contains "PART" line); [|done].
  destruct (Py.split1 "PART" line) as [|before [|after [|]]]; try done.
  cbn [self set_context channel_users].
  destruct (channel_users (self st) !! _) as [users|] eqn:Hl; [|done].
  cbn [self set_self set_context channel_users set_channel_users].
  split.
  - intros k names Hk.
    match type of Hl with _ !! ?chan = _ =>
      destruct (decide (k = chan)) as [->|Hne] end.
    + rewrite lookup_insert_eq in Hk. injection Hk as <-.
      destruct (Hinv _ users Hl) as [Hc Hn]. split; [exact Hc|].
      intros u Hin. apply Hn. by apply elem_of_difference in Hin as [? _].
    + rewrite lookup_insert_ne in Hk by done. by apply (Hinv k).
  - rewrite dom_insert_L. apply elem_of_dom_2 in Hl.
    apply subseteq_union_1_L. by apply singleton_subseteq_l.
Qed.

Lemma handle_lines_tracking (lines : list string) : forall (st : State),
  lowercase_tracking (channel_users (self st)) ->
  lowercase_tracking (channel_users (self (handle_lines st lines).2)) /\
  dom (channel_users (self (handle_lines st lines).2))
  = dom (channel_users (self st)).
Proof.
  induction lines as [|line rest IH]; intros st Hinv; [done|].
  assert (Hnext : forall st1,
            lowercase_tracking (channel_users (self st1)) /\
            dom (channel_users (self st1)) = dom (channel_users (self st)) ->
            lowercase_tracking (channel_users (self (handle_lines st1 rest).2)) /\
            dom (channel_users (self (handle_lines st1 rest).2))
            = dom (channel_users (self st))).
  { intros st1 [H1 H2]. destruct (IH st1 H1) as [H3 H4].
    split; [exact H3 | by rewrite H4]. }
  cbn [handle_lines].
  destruct (String.eqb line ""); [by apply Hnext|].
  destruct (Py.startswith line "PING").
  { destruct (sock (self st)) as [sk|]; [|done].
    destruct (sock_send sk _); [done|]. by apply Hnext. }
  destruct (Py.contains "PRIVMSG" line);
    [by apply Hnext, parse_privmsg_tracking|].
  destruct (Py.contains "NOTICE" line).
  { apply Hnext. by rewrite parse_notice_self. }
  destruct (_ || _); [by apply Hnext, parse_presence_tracking|].
  by apply Hnext.
Qed.

Lemma tracked_tracking (chans : list string) (users : gmap string (gset string)) :
  lowercase_tracking users ->
  lowercase_tracking
    (foldl (fun u chan => <[Py.lower chan := (∅ : gset string)]> u) users chans).
Proof.
  intros Hinv k names. rewrite tracked_lookup.
  destruct (decide (k ∈ map Py.lower chans)) as [Hin|Hout].
  - rewrite bool_decide_eq_true_2 by done. intros [= <-].
    apply list_elem_of_fmap in Hin as (c & -> & _).
    split; [apply lower_idem | set_solver].
  - rewrite bool_decide_eq_false_2 by done. apply Hinv.
Qed.

(** X16.  The speaker sets only ever hold lower-case names under
    lower-case channel keys.  This holds of a new session, is kept by
    every successful [connect] and every [join_channels], and by the
    handling of any lines whatever; and handling lines never starts or
    stops the tracking of a channel: the set of tracked channels is the
    same before and after. *)
Theorem speaker_tracking_stays_lowercase :
  (forall (chans : list string) (shard_id : string)
          (ctx : RuntimeContext.t) (now : Q),
     lowercase_tracking (channel_users (init chans shard_id ctx now))) /\
  (forall (st : State),
     lowercase_tracking (channel_users (self st)) ->
     lowercase_tracking (channel_users (self (connect st true).2))) /\
  (forall (st : State) (new_channels : list string),
     lowercase_tracking (channel_users (self st)) ->
     lowercase_tracking (channel_users (self (join_channels st new_channels)))) /\
  (forall (st : State) (lines : list string),
     lowercase_tracking (channel_users (self st)) ->
     lowercase_tracking (channel_users (self (handle_lines st lines).2)) /\
     dom (channel_users (self (handle_lines st lines).2))
     = dom (channel_users (self st))).
Proof.
  split; [|split; [|split]].
  - intros chans shard_id ctx now k names Hk. cbn [init channel_users] in Hk.
    apply elem_of_list_to_map_2, list_elem_of_fmap in Hk as (c & [= -> ->] & _).
    split; [apply lower_idem | set_solver].
  - intros st Hinv. destruct (connect_result st) as (c & -> & _).
    by apply tracked_tracking.
  - intros st new_channels Hinv. unfold join_channels.
    destruct (sock (self st)) as [sk|]; [|by destruct new_channels].
    destruct new_channels as [|n0 ns]; [done|].
    destruct (filter _ (n0 :: ns)) as [|f fs]; [done|].
    destruct (sock_send sk _); [done|].
    pose proof (start_tracking_users (f :: fs)) as Hu.
    match goal with
    | |- context [start_tracking ?u ?c (f :: fs)] =>
        specialize (Hu u c); destruct (start_tracking u c (f :: fs)) as [users c2]
    end.
    cbn [fst] in Hu. subst users.
    by apply tracked_tracking.
  - intros st lines. apply handle_lines_tracking.
Qed.

Lemma speaker_tracking_stays_lowercase_witness :
  lowercase_tracking (channel_users (self Sample.connected)) /\
  lowercase_tracking
    (channel_users (self (handle_lines Sample.connected [Sample.hello_line]).2)).
Proof.
  assert (H : lowercase_tracking (channel_users (self Sample.connected))).
  { apply (proj1 (proj2 speaker_tracking_stays_lowercase)
             (Sample.fresh ["foo"; "bar"])).
    apply (proj1 speaker_tracking_stays_lowercase). }
  split; [exact H|].
  exact (proj1 (proj2 (proj2 (proj2 speaker_tracking_stays_lowercase))
                  Sample.connected [Sample.hello_line] H)).
Defined.

End session_invariants.

Section orchestrator_workers.

Import Main.

(** * The orchestrator: sessions and audio workers follow the active set *)

Lemma flat_map_singletons {A B} (f : A -> list B) (h : A -> B) (l : list A) :
  Forall (fun x => f x = [h x]) l -> flat_map f l = map h l.
Proof. induction 1 as [|x l Hx _ IH]; [done|]. simpl. by rewrite Hx, IH. Qed.

(** The sessions [rebuild_shards] creates, one per slice of ten. *)
Lemma rebuild_shards_new (c : RuntimeContext.t) (old : list IRCShard.t) (now : Q) :
  (ShardManager.rebuild_shards c old now).2
  = map (fun k =>
           IRCShard.init
             (py_slice (py_sorted (RuntimeContext.active_channels c))
                       (k * 10) (k * 10 + 10))
             ("shard_" +:+ Py.str_of_Z (Z.of_nat k)) c now)
        (seq 0 ((size (RuntimeContext.active_channels c) + 9) / 10)).
Proof.
  unfold ShardManager.rebuild_shards. cbn [snd].
  rewrite py_sorted_length. unfold py_range_step, MAX_CHANNELS_PER_CONN.
  replace (size (RuntimeContext.active_channels c) + 10 - 1)%nat
    with (size (RuntimeContext.active_channels c) + 9)%nat by lia.
  set (l := py_sorted _). set (n := size _).
  assert (Hlen : length l = n) by apply py_sorted_length.
  rewrite flat_map_concat_map, map_map, <- flat_map_concat_map.
  apply flat_map_singletons, Forall_forall. intros k Hk.
  apply elem_of_seq in Hk.
  assert (Hi : (k * 10 < length l)%nat).
  { rewrite Hlen. pose proof (Nat.div_mod_eq (n + 9) 10).
    pose proof (Nat.mod_upper_bound (n + 9) 10). lia. }
  pose proof (slice_bounds l 10 (k * 10) ltac:(lia) Hi) as Hb.
  rewrite Nat.div_mul by lia.
  destruct (py_slice l (k * 10) (k * 10 + 10)); [simpl in Hb; lia | done].
Qed.

(** X17.  [rebuild_shards] stops every old session and creates
    ceil(n / 10) new ones for n active channels (none when the active set
    is empty), named shard_0, shard_1, ... in order.  Each new session
    starts unconnected, running, with the initial reconnect delay and
    nothing counted; each old one is left stopped with its socket, if it
    had one, closed. *)
Theorem rebuild_shards_numbers_sessions
    (c : RuntimeContext.t) (old : list IRCShard.t) (now : Q) :
  length (ShardManager.rebuild_shards c old now).2
    = ((size (RuntimeContext.active_channels c) + 9) / 10)%nat /\
  map IRCShard.shard_id (ShardManager.rebuild_shards c old now).2
    = map (fun k => "shard_" +:+ Py.str_of_Z (Z.of_nat k))
          (seq 0 (length (ShardManager.rebuild_shards c old now).2)) /\
  Forall (fun s => IRCShard.sock s = None /\ IRCShard.running s = true /\
                   IRCShard.reconnect_delay s = 1%Z /\
                   IRCShard.message_count s = 0%Z /\
                   IRCShard.channels s <> [])
         (ShardManager.rebuild_shards c old now).2 /\
  map IRCShard.channels (ShardManager.rebuild_shards c old now).1
    = map IRCShard.channels old /\
  Forall (fun s => IRCShard.running s = false /\
                   forall sk, IRCShard.sock s = Some sk -> sock_alive sk = false)
         (ShardManager.rebuild_shards c old now).1.
Proof.
  rewrite rebuild_shards_new.
  split; [by rewrite length_map, length_seq|].
  split; [by rewrite map_map, length_map, length_seq|].
  split.
  { apply Forall_forall. intros s Hs.
    apply list_elem_of_fmap in Hs as (k & -> & Hk). apply elem_of_seq in Hk.
    repeat split. cbn [IRCShard.init IRCShard.channels].
    set (l := py_sorted _).
    assert (Hi : (k * 10 < length l)%nat).
    { unfold l. rewrite py_sorted_length.
      pose proof (Nat.div_mod_eq (size (RuntimeContext.active_channels c) + 9) 10).
      pose proof (Nat.mod_upper_bound
                    (size (RuntimeContext.active_channels c) + 9) 10). lia. }
    pose proof (slice_bounds l 10 (k * 10) ltac:(lia) Hi) as Hb.
    intros Hnil. rewrite Hnil in Hb. simpl in Hb. lia. }
  unfold ShardManager.rebuild_shards. cbn [fst]. split.
  - rewrite map_map. apply map_ext. by intros [].
  - apply Forall_forall. intros s Hs.
    apply list_elem_of_fmap in Hs as (s0 & -> & _).
    split; [done|]. unfold IRCShard.stop. cbn [IRCShard.sock IRCShard.set_sock].
    destruct (IRCShard.sock _); [|done]. by intros sk [= <-].
Qed.

(** ** [update_audio_workers] *)

Lemma terminate_length (tbl : list Process) (pid : nat) :
  length (terminate tbl pid) = length tbl.
Proof. apply length_alter. Qed.

Lemma stop_worker_frame (st : State) (chan : string) :
  context (stop_worker st chan) = context st /\
  shards (stop_worker st chan) = shards st /\
  retired (stop_worker st chan) = retired st /\
  processes (stop_worker st chan) = processes st /\
  channels_with_workers (stop_worker st chan) = channels_with_workers st /\
  selected_channels (stop_worker st chan) = selected_channels st /\
  known_live_channels (stop_worker st chan) = known_live_channels st /\
  live_data (stop_worker st chan) = live_data st /\
  length (table (stop_worker st chan)) = length (table st) /\
  audio_procs (stop_worker st chan) = delete chan (audio_procs st).
Proof.
  unfold stop_worker. destruct (audio_procs st !! chan) eqn:Hl; simpl.
  - by rewrite terminate_length.
  - by rewrite delete_id.
Qed.

Lemma stop_workers_frame (l : list string) : forall (st : State),
  context (foldl stop_worker st l) = context st /\
  shards (foldl stop_worker st l) = shards st /\
  retired (foldl stop_worker st l) = retired st /\
  processes (foldl stop_worker st l) = processes st /\
  channels_with_workers (foldl stop_worker st l) = channels_with_workers st /\
  selected_channels (foldl stop_worker st l) = selected_channels st /\
  known_live_channels (foldl stop_worker st l) = known_live_channels st /\
  live_data (foldl stop_worker st l) = live_data st /\
  length (table (foldl stop_worker st l)) = length (table st) /\
  forall k, audio_procs (foldl stop_worker st l) !! k
            = if bool_decide (k ∈ l) then None else audio_procs st !! k.
Proof.
  induction l as [|chan rest IH]; intros st; [done|]. cbn [foldl].
  destruct (IH (stop_worker st chan))
    as (-> & -> & -> & -> & -> & -> & -> & -> & -> & Hp).
  destruct (stop_worker_frame st chan)
    as (-> & -> & -> & -> & -> & -> & -> & -> & -> & Hd).
  repeat split. intros k. rewrite Hp, Hd.
  destruct (decide (k ∈ rest)) as [Hin|Hout].
  - rewrite !bool_decide_eq_true_2; [done | by right | done].
  - rewrite (bool_decide_eq_false_2 _ Hout).
    destruct (decide (k = chan)) as [->|Hne].
    + rewrite lookup_delete_eq. rewrite bool_decide_eq_true_2; [done | by left].
    + rewrite lookup_delete_ne by done.
      rewrite bool_decide_eq_false_2; [done|].
      intros Hk. apply elem_of_cons in Hk as [?|?]; done.
Qed.

(** A process no removed channel refers to is left as it is. *)
Lemma stop_workers_others (l : list string) : forall (st : State) (pid : nat),
  (forall chan, chan ∈ l -> audio_procs st !! chan <> Some pid) ->
  table (foldl stop_worker st l) !! pid = table st !! pid.
Proof.
  induction l as [|chan rest IH]; intros st pid Hno; [done|]. cbn [foldl].
  rewrite IH.
  - unfold stop_worker. destruct (audio_procs st !! chan) as [pid'|] eqn:Hl; [|done].
    cbn [table]. unfold terminate. apply list_lookup_alter_ne.
    intros ->. by apply (Hno chan); [left|].
  - intros chan' Hin. rewrite (proj2 (proj2 (proj2 (proj2 (proj2 (proj2 (proj2
      (proj2 (proj2 (stop_worker_frame st chan)))))))))).
    destruct (decide (chan' = chan)) as [->|Hne].
    + by rewrite lookup_delete_eq.
    + rewrite lookup_delete_ne by done. apply Hno. by right.
Qed.

(** A terminated process stays terminated. *)
Lemma stop_workers_dead (l : list string) : forall (st : State) (pid : nat) (p : Process),
  table st !! pid = Some p -> alive p = false ->
  table (foldl stop_worker st l) !! pid = Some p.
Proof.
  induction l as [|chan rest IH]; intros st pid p Hp Hdead; [done|]. cbn [foldl].
  apply IH; [|done]. unfold stop_worker.
  destruct (audio_procs st !! chan) as [pid'|]; [|done]. cbn [table].
  unfold terminate. destruct (decide (pid' = pid)) as [->|Hne].
  - rewrite list_lookup_alter_eq, Hp. simpl. destruct p. simpl in *. by subst.
  - by rewrite list_lookup_alter_ne.
Qed.

(** The process of a removed channel is terminated. *)
Lemma stop_workers_terminated (l : list string) :
  forall (st : State) (chan : string) (pid : nat) (p : Process),
  chan ∈ l -> audio_procs st !! chan = Some pid -> table st !! pid = Some p ->
  table (foldl stop_worker st l) !! pid
  = Some (mkProcess (target p) (arg_channel p) false).
Proof.
  induction l as [|chan0 rest IH]; intros st chan pid p Hin Hl Hp.
  { by apply elem_of_nil in Hin. }
  cbn [foldl]. destruct (decide (chan0 = chan)) as [->|Hne].
  - apply stop_workers_dead; [|done]. unfold stop_worker. rewrite Hl. cbn [table].
    unfold terminate. by rewrite list_lookup_alter_eq, Hp.
  - apply elem_of_cons in Hin as [->|Hin]; [done|].
    destruct (audio_procs st !! chan0) as [pid0|] eqn:Hl0.
    + destruct (decide (pid0 = pid)) as [->|Hpid].
      * apply stop_workers_dead; [|done]. unfold stop_worker. rewrite Hl0.
        cbn [table]. unfold terminate. by rewrite list_lookup_alter_eq, Hp.
      * apply (IH _ chan); [done| |].
        -- rewrite (proj2 (proj2 (proj2 (proj2 (proj2 (proj2 (proj2
             (proj2 (proj2 (stop_worker_frame st chan0)))))))))).
           by rewrite lookup_delete_ne.
        -- unfold stop_worker. rewrite Hl0. cbn [table]. unfold terminate.
           by rewrite list_lookup_alter_ne.
    + unfold stop_worker. rewrite Hl0. by apply (IH _ chan).
Qed.

Lemma start_workers_effect (l : list string) : forall (st : State),
  context (foldl start_worker st l) = context st /\
  shards (foldl start_worker st l) = shards st /\
  retired (foldl start_worker st l) = retired st /\
  channels_with_workers (foldl start_worker st l) = channels_with_workers st /\
  selected_channels (foldl start_worker st l) = selected_channels st /\
  known_live_channels (foldl start_worker st l) = known_live_channels st /\
  live_data (foldl start_worker st l) = live_data st /\
  table (foldl start_worker st l)
    = table st ++ map (fun chan => mkProcess "audio_worker" (Some chan) true) l /\
  processes (foldl start_worker st l)
    = processes st ++ seq (length (table st)) (length l) /\
  (forall k, k ∉ l -> audio_procs (foldl start_worker st l) !! k
                      = audio_procs st !! k) /\
  (NoDup l -> forall i k, l !! i = Some k ->
     audio_procs (foldl start_worker st l) !! k = Some (length (table st) + i)%nat).
Proof.
  induction l as [|chan rest IH]; intros st.
  { cbn [foldl map length seq]. rewrite !app_nil_r. repeat split; done. }
  cbn [foldl].
  destruct (IH (start_worker st chan))
    as (-> & -> & -> & -> & -> & -> & -> & -> & -> & Hout & Hin).
  cbn [start_worker context shards retired channels_with_workers
       selected_channels known_live_channels live_data table processes
       audio_procs] in *.
  rewrite length_app in *. cbn [length map seq] in *.
  rewrite <- !app_assoc. cbn [app].
  replace (length (table st) + 1)%nat with (S (length (table st))) in * by lia.
  repeat split; try done.
  - intros k Hk. rewrite Hout.
    + rewrite lookup_insert_ne; [done|]. intros ->. apply Hk. by left.
    + intros Hr. apply Hk. by right.
  - intros Hnd i k Hi. apply NoDup_cons in Hnd as [Hnotin Hnd].
    destruct i as [|i]; cbn in Hi.
    + injection Hi as <-. rewrite Hout by done.
      rewrite lookup_insert_eq. f_equal. lia.
    + rewrite (Hin Hnd i k Hi). f_equal. lia.
Qed.

Lemma elements_difference_self (X : gset string) : elements (X ∖ X) = [].
Proof.
  replace (X ∖ X) with (∅ : gset string); [apply elements_empty|].
  apply leibniz_equiv. intros x. rewrite elem_of_difference.
  split; [by intros ?%elem_of_empty | tauto].
Qed.

(** What [update_audio_workers] leaves behind. *)
Lemma update_audio_workers_effect (st : State) :
  workers_ok st ->
  dom (audio_procs (update_audio_workers st))
    = RuntimeContext.active_channels (context st) /\
  workers_ok (update_audio_workers st) /\
  (forall chan pid,
     audio_procs st !! chan = Some pid ->
     chan ∈ RuntimeContext.active_channels (context st) ->
     audio_procs (update_audio_workers st) !! chan = Some pid) /\
  (forall chan pid,
     audio_procs st !! chan = Some pid ->
     chan ∉ RuntimeContext.active_channels (context st) ->
     table (update_audio_workers st) !! pid
     = Some (mkProcess "audio_worker" (Some chan) false)) /\
  context (update_audio_workers st) = context st /\
  shards (update_audio_workers st) = shards st /\
  retired (update_audio_workers st) = retired st /\
  channels_with_workers (update_audio_workers st) = channels_with_workers st /\
  selected_channels (update_audio_workers st) = selected_channels st /\
  known_live_channels (update_audio_workers st) = known_live_channels st /\
  live_data (update_audio_workers st) = live_data st.
Proof.
  intros Hok. unfold update_audio_workers.
  set (needed := RuntimeContext.active_channels (context st)).
  set (gone := elements (dom (audio_procs st) ∖ needed)).
  set (fresh := elements (needed ∖ dom (audio_procs st))).
  destruct (stop_workers_frame gone st)
    as (Hc1 & Hs1 & Hr1 & Hp1 & Hw1 & Hsel1 & Hk1 & Hl1 & Hlen1 & Hprocs1).
  set (st1 := foldl stop_worker st gone) in *.
  destruct (start_workers_effect fresh st1)
    as (Hc2 & Hs2 & Hr2 & Hw2 & Hsel2 & Hk2 & Hl2 & Htab2 & _ & Hout2 & Hin2).
  set (st2 := foldl start_worker st1 fresh) in *.
  assert (Hgone : forall k, k ∈ gone <-> k ∈ dom (audio_procs st) /\ k ∉ needed).
  { intros k. unfold gone. by rewrite elem_of_elements, elem_of_difference. }
  assert (Hfresh : forall k, k ∈ fresh <-> k ∈ needed /\ k ∉ dom (audio_procs st)).
  { intros k. unfold fresh. by rewrite elem_of_elements, elem_of_difference. }
  assert (Hnd : NoDup fresh) by apply NoDup_elements.
  (* the entries after the update *)
  assert (Hlookup : forall k,
            (k ∈ fresh /\ exists i, fresh !! i = Some k /\
                          audio_procs st2 !! k = Some (length (table st1) + i)%nat) \/
            ((k ∉ fresh) /\
             audio_procs st2 !! k
             = (if bool_decide (k ∈ gone) then None else audio_procs st !! k))).
  { intros k. destruct (decide (k ∈ fresh)) as [Hin|Hout].
    - left. split; [done|]. apply list_elem_of_lookup in Hin as [i Hi].
      exists i. split; [done|]. by apply Hin2.
    - right. split; [done|]. by rewrite Hout2, Hprocs1. }
  split; [|split; [|split; [|split]]].
  - apply leibniz_equiv. intros k. rewrite elem_of_dom.
    destruct (Hlookup k) as [(Hin & i & _ & ->) | (Hout & ->)].
    + apply Hfresh in Hin. split; [tauto | by eauto].
    + destruct (decide (k ∈ gone)) as [Hg|Hg].
      * rewrite bool_decide_eq_true_2 by done. apply Hgone in Hg.
        split; [by intros [? ?] | tauto].
      * rewrite bool_decide_eq_false_2 by done. rewrite <- elem_of_dom.
        rewrite Hgone in Hg. rewrite Hfresh in Hout.
        destruct (decide (k ∈ needed)); destruct (decide (k ∈ dom (audio_procs st)));
          tauto.
  - intros k pid Hk. rewrite Htab2.
    destruct (Hlookup k) as [(Hin & i & Hi & Hpid) | (Hout & Hpid)];
      rewrite Hpid in Hk.
    + injection Hk as <-. rewrite lookup_app_r by lia.
      replace (length (table st1) + i - length (table st1))%nat with i by lia.
      by rewrite list_lookup_fmap, Hi.
    + destruct (bool_decide (k ∈ gone)) eqn:Hg; [done|].
      apply bool_decide_eq_false in Hg.
      pose proof (Hok k pid Hk) as Hp.
      rewrite lookup_app_l by (rewrite Hlen1; by eapply lookup_lt_Some).
      unfold st1. rewrite stop_workers_others; [done|].
      intros chan Hchan Hl. pose proof (Hok chan pid Hl) as Hp'.
      rewrite Hp in Hp'. injection Hp' as ->. done.
  - intros chan pid Hl Hact.
    destruct (Hlookup chan) as [(Hin & _) | (Hout & ->)].
    + apply Hfresh in Hin. apply elem_of_dom_2 in Hl. tauto.
    + rewrite bool_decide_eq_false_2; [done|]. rewrite Hgone. tauto.
  - intros chan pid Hl Hact. rewrite Htab2.
    pose proof (Hok chan pid Hl) as Hp.
    rewrite lookup_app_l by (rewrite Hlen1; by eapply lookup_lt_Some).
    unfold st1.
    rewrite (stop_workers_terminated gone st chan pid _
               ltac:(apply Hgone; split; [by eapply elem_of_dom_2 | done]) Hl Hp).
    done.
  - by rewrite Hc2, Hc1, Hs2, Hs1, Hr2, Hr1, Hw2, Hw1, Hsel2, Hsel1, Hk2, Hk1,
      Hl2, Hl1.
Qed.

(** X18.  [update_audio_workers] reconciles the audio workers with the
    active set.  When every entry of [audio_procs] refers to a live
    worker for its channel, then afterwards the channels with a worker
    are exactly the active channels, each entry again refers to a live
    worker for its channel, the worker of a channel that stays active is
    the same process as before (it is not restarted), the worker of a
    channel that left the active set has been terminated, the sessions
    and the context are untouched, and running it again changes nothing. *)
Theorem update_audio_workers_reconciles (st : State) :
  workers_ok st ->
  dom (audio_procs (update_audio_workers st))
    = RuntimeContext.active_channels (context st) /\
  workers_ok (update_audio_workers st) /\
  (forall chan pid,
     audio_procs st !! chan = Some pid ->
     chan ∈ RuntimeContext.active_channels (context st) ->
     audio_procs (update_audio_workers st) !! chan = Some pid) /\
  (forall chan pid,
     audio_procs st !! chan = Some pid ->
     chan ∉ RuntimeContext.active_channels (context st) ->
     table (update_audio_workers st) !! pid
     = Some (mkProcess "audio_worker" (Some chan) false)) /\
  context (update_audio_workers st) = context st /\
  shards (update_audio_workers st) = shards st /\
  update_audio_workers (update_audio_workers st) = update_audio_workers st.
Proof.
  intros Hok.
  destruct (update_audio_workers_effect st Hok)
    as (Hdom & Hok' & Hkeep & Hgone & Hc & Hs & _).
  repeat (split; [done|]).
  unfold update_audio_workers at 1. rewrite Hc, Hdom.
  by rewrite elements_difference_self.
Qed.

Lemma update_audio_workers_reconciles_witness :
  workers_ok
    (set_context Case.idle_main
       (RuntimeContext.set_active_channels Sample.context {["foo"; "bar"]})) /\
  dom (audio_procs
         (update_audio_workers
            (set_context Case.idle_main
               (RuntimeContext.set_active_channels Sample.context {["foo"; "bar"]}))))
  = {["foo"; "bar"]}.
Proof.
  assert (H : workers_ok
            (set_context Case.idle_main
               (RuntimeContext.set_active_channels Sample.context {["foo"; "bar"]}))).
  { unfold workers_ok, Case.idle_main, initial. cbn [audio_procs set_context].
    intros chan pid Hl. by rewrite lookup_empty in Hl. }
  split; [exact H|].
  exact (proj1 (update_audio_workers_reconciles _ H)).
Defined.

End orchestrator_workers.

Section orchestrator_joining.

Import Main.

(** * The orchestrator: joining channels and the monitor pass *)

Lemma rebuild_cover (c : RuntimeContext.t) (old : list IRCShard.t) (now : Q) :
  concat (map IRCShard.channels (ShardManager.rebuild_shards c old now).2)
  = py_sorted (RuntimeContext.active_channels c).
Proof.
  change ((ShardManager.rebuild_shards c old now).2) with (ShardManager.rebuilt c now).
  rewrite rebuilt_groups. apply slices_partition. unfold MAX_CHANNELS_PER_CONN. lia.
Qed.

Lemma main_rebuild_effect (st : State) (now : Q) :
  context (rebuild_shards st now) = context st /\
  sessions_cover (rebuild_shards st now) /\
  table (rebuild_shards st now) = table st /\
  audio_procs (rebuild_shards st now) = audio_procs st /\
  processes (rebuild_shards st now) = processes st /\
  channels_with_workers (rebuild_shards st now) = channels_with_workers st /\
  selected_channels (rebuild_shards st now) = selected_channels st /\
  known_live_channels (rebuild_shards st now) = known_live_channels st /\
  live_data (rebuild_shards st now) = live_data st.
Proof.
  unfold rebuild_shards, sessions_cover.
  pose proof (rebuild_cover (context st) (shards st) now) as Hc.
  destruct (ShardManager.rebuild_shards (context st) (shards st) now)
    as [stopped new]. done.
Qed.

Lemma union_singleton_elem (ch : string) (X : gset string) :
  ch ∈ X -> X = {[ch]} ∪ X.
Proof.
  intros Hin. apply leibniz_equiv. intros x.
  rewrite elem_of_union, elem_of_singleton. split; [tauto|]. by intros [->|].
Qed.

(** What [handle_join_channel] leaves behind. *)
Lemma handle_join_channel_effect (st : State) (ch : string) (now : Q) :
  workers_ok st ->
  RuntimeContext.active_channels (context (handle_join_channel st ch now))
    = {[ch]} ∪ RuntimeContext.active_channels (context st) /\
  RuntimeContext.gui_queue (context (handle_join_channel st ch now))
    = RuntimeContext.gui_queue (context st)
      ++ [msg3 ch "SYSTEM" ("Joined " +:+ ch)] /\
  sessions_cover (handle_join_channel st ch now) /\
  dom (audio_procs (handle_join_channel st ch now))
    = RuntimeContext.active_channels (context (handle_join_channel st ch now)) /\
  workers_ok (handle_join_channel st ch now) /\
  channels_with_workers (handle_join_channel st ch now) = channels_with_workers st /\
  selected_channels (handle_join_channel st ch now) = selected_channels st /\
  known_live_channels (handle_join_channel st ch now) = known_live_channels st.
Proof.
  intros Hok. unfold handle_join_channel.
  set (c1 := if bool_decide _ then _ else _).
  assert (Hact : RuntimeContext.active_channels c1
                 = {[ch]} ∪ RuntimeContext.active_channels (context st)).
  { unfold c1. destruct (decide (ch ∈ RuntimeContext.active_channels (context st))).
    - rewrite bool_decide_eq_true_2 by done. by apply union_singleton_elem.
    - by rewrite bool_decide_eq_false_2. }
  assert (Hgui : RuntimeContext.gui_queue c1 = RuntimeContext.gui_queue (context st)).
  { unfold c1. by destruct (bool_decide _). }
  destruct (main_rebuild_effect (set_context st c1) now)
    as (Hc & Hcover & Htab & Hprocs & _ & Hw & Hsel & Hk & _).
  set (st1 := rebuild_shards (set_context st c1) now) in *.
  assert (Hok1 : workers_ok st1).
  { intros chan pid. rewrite Hprocs, Htab. apply Hok. }
  destruct (update_audio_workers_effect st1 Hok1)
    as (Hdom & Hok2 & _ & _ & Hc2 & Hs2 & _ & Hw2 & Hsel2 & Hk2 & _).
  set (st2 := update_audio_workers st1) in *.
  cbn [context set_context audio_procs channels_with_workers selected_channels
       known_live_channels RuntimeContext.gui_put RuntimeContext.set_gui_queue
       RuntimeContext.active_channels RuntimeContext.gui_queue].
  rewrite Hc2, Hc. cbn [context set_context].
  split; [exact Hact|]. split; [by rewrite Hgui|].
  split.
  { unfold sessions_cover in *.
    cbn [shards context set_context RuntimeContext.gui_put
         RuntimeContext.set_gui_queue RuntimeContext.active_channels].
    by rewrite Hs2, Hcover, Hc. }
  split; [by rewrite Hdom, Hc|].
  split; [exact Hok2|].
  by rewrite Hw2, Hw, Hsel2, Hsel, Hk2, Hk.
Qed.

(** The loop of [process_join_requests] over channels that are all
    active already. *)
Lemma join_loop_effect (now : Q) (l : list string) : forall (st : State),
  workers_ok st ->
  (forall ch, ch ∈ l -> ch ∈ RuntimeContext.active_channels (context st)) ->
  RuntimeContext.active_channels
    (context (foldl (start_workers_for now) st l))
    = RuntimeContext.active_channels (context st) /\
  RuntimeContext.gui_queue
    (context (foldl (start_workers_for now) st l))
    = RuntimeContext.gui_queue (context st)
      ++ map (fun ch => msg3 ch "SYSTEM" ("Joined " +:+ ch)) l /\
  workers_ok (foldl (start_workers_for now) st l) /\
  channels_with_workers
    (foldl (start_workers_for now) st l)
    = list_to_set l ∪ channels_with_workers st /\
  (l <> [] ->
   sessions_cover
     (foldl (start_workers_for now) st l) /\
   dom (audio_procs
          (foldl (start_workers_for now) st l))
   = RuntimeContext.active_channels (context st)).
Proof.
  induction l as [|ch rest IH]; intros st Hok Hact.
  { cbn [foldl map list_to_set]. rewrite app_nil_r.
    split; [done|]. split; [done|]. split; [done|]. split; [|done].
    apply leibniz_equiv. intros x. rewrite elem_of_union, elem_of_empty. tauto. }
  cbn [foldl].
  destruct (handle_join_channel_effect st ch now Hok)
    as (Ha & Hg & Hcov & Hdom & Hok1 & Hw & _).
  set (st1 := start_workers_for now st ch).
  assert (Hst1 : st1 = set_channels_with_workers (handle_join_channel st ch now)
            ({[ch]} ∪ channels_with_workers (handle_join_channel st ch now)))
    by done.
  assert (Ha1 : RuntimeContext.active_channels (context st1)
                = RuntimeContext.active_channels (context st)).
  { rewrite Hst1. cbn [context set_channels_with_workers]. rewrite Ha.
    symmetry. apply union_singleton_elem, Hact. by left. }
  destruct (IH st1) as (Ha2 & Hg2 & Hok2 & Hw2 & Hne).
  { exact Hok1. }
  { intros c Hc. rewrite Ha1. apply Hact. by right. }
  split; [by rewrite Ha2|].
  split.
  { rewrite Hg2, Hst1. cbn [context set_channels_with_workers map].
    by rewrite Hg, <- app_assoc. }
  split; [exact Hok2|].
  split.
  { rewrite Hw2, Hst1. cbn [channels_with_workers set_channels_with_workers].
    rewrite Hw. cbn [list_to_set]. apply leibniz_equiv. intros x.
    rewrite !elem_of_union. tauto. }
  intros _. destruct rest as [|ch' rest'].
  - cbn [foldl]. split.
    + exact Hcov.
    + rewrite Hst1. cbn [audio_procs set_channels_with_workers].
      rewrite Hdom, <- Ha1. by rewrite Hst1.
  - destruct Hne as [Hc Hd]; [done|]. split; [exact Hc|]. by rewrite Hd, Ha1.
Qed.

(** A route request that names a channel. *)
Lemma join_channel_accepts (st : State) (d : list (string * PyVal)) (s : string) :
  dict_get d "channel" VNone = VStr s ->
  Py.lower (Py.strip s) <> "" ->
  Routes.join_channel (Some st) (VDict d)
  = (inr (VDict [("success", VBool true);
                 ("channel", VStr (Py.lower (Py.strip s)))], 200%Z),
     Some (set_context
             (set_selected_channels
                (set_context st
                   (RuntimeContext.set_active_channels (context st)
                      ({[Py.lower (Py.strip s)]}
                         ∪ RuntimeContext.active_channels (context st))))
                ({[Py.lower (Py.strip s)]} ∪ selected_channels st))
             (RuntimeContext.gui_put
                (RuntimeContext.set_active_channels (context st)
                   ({[Py.lower (Py.strip s)]}
                      ∪ RuntimeContext.active_channels (context st)))
                (VTuple [VStr "GUI_JOIN_NOW"; VStr "SYSTEM";
                         VStr (Py.lower (Py.strip s))])))).
Proof.
  intros Hd Hne. unfold Routes.join_channel. rewrite Hd.
  assert ((if py_truthy (VStr s) then VStr s else VStr "") = VStr s) as ->.
  { cbn [py_truthy]. destruct (String.eqb_spec s ""); [by subst | done]. }
  apply String.eqb_neq in Hne. by rewrite Hne.
Qed.

(** X19.  Joining a channel end to end.  A POST to the join route names a
    channel; the route normalises the name (stripped, lower-cased), adds
    it to the active set and answers 200.  If the join processor has not
    handled that channel before, its next turn leaves the channel active,
    the sessions rebuilt so that their channel lists put end to end are
    the sorted active set (so one session owns the channel), a live audio
    worker started for it, a Joined notice on the GUI queue, every active
    channel marked as handled, and the selection cleared. *)
Theorem joined_channel_gets_session_and_worker
    (st : State) (d : list (string * PyVal)) (s ch : string) (now : Q) :
  workers_ok st ->
  dict_get d "channel" VNone = VStr s ->
  Py.lower (Py.strip s) = ch -> ch <> "" ->
  ch ∉ channels_with_workers st ->
  exists st1,
    Routes.join_channel (Some st) (VDict d)
    = (inr (VDict [("success", VBool true); ("channel", VStr ch)], 200%Z),
       Some st1) /\
    RuntimeContext.active_channels (context (process_join_requests st1 now))
      = {[ch]} ∪ RuntimeContext.active_channels (context st) /\
    sessions_cover (process_join_requests st1 now) /\
    (exists shard, shard ∈ shards (process_join_requests st1 now) /\
                   ch ∈ IRCShard.channels shard) /\
    (exists pid,
        audio_procs (process_join_requests st1 now) !! ch = Some pid /\
        table (process_join_requests st1 now) !! pid
        = Some (mkProcess "audio_worker" (Some ch) true)) /\
    msg3 ch "SYSTEM" ("Joined " +:+ ch)
      ∈ RuntimeContext.gui_queue (context (process_join_requests st1 now)) /\
    RuntimeContext.active_channels (context (process_join_requests st1 now))
      ⊆ channels_with_workers (process_join_requests st1 now) /\
    selected_channels (process_join_requests st1 now) = ∅.
Proof.
  intros Hok Hd Hch Hne Hnew. subst ch.
  eexists. split; [by apply join_channel_accepts|].
  set (ch := Py.lower (Py.strip s)) in *.
  match goal with |- context [process_join_requests ?s now] => set (st1 := s) end.
  assert (Hact1 : RuntimeContext.active_channels (context st1)
                  = {[ch]} ∪ RuntimeContext.active_channels (context st)) by done.
  assert (Hok1 : workers_ok st1) by exact Hok.
  unfold process_join_requests.
  set (needing := elements (RuntimeContext.active_channels (context st1)
                              ∖ channels_with_workers st1)).
  assert (Hneed : forall c, c ∈ needing <->
            c ∈ RuntimeContext.active_channels (context st1) /\
            c ∉ channels_with_workers st) .
  { intros c. unfold needing. by rewrite elem_of_elements, elem_of_difference. }
  assert (Hin : ch ∈ needing).
  { apply Hneed. split; [|done]. rewrite Hact1. apply elem_of_union_l.
    by apply elem_of_singleton. }
  assert (Hnil : needing <> []).
  { intros E. rewrite E in Hin. by apply elem_of_nil in Hin. }
  destruct (join_loop_effect now needing st1 Hok1) as (Ha & Hg & Hok2 & Hw & Hcov).
  { intros c Hc. by apply Hneed in Hc as [? _]. }
  destruct (Hcov Hnil) as [Hcover Hdom].
  set (st2 := foldl _ st1 needing) in *.
  cbn [context set_selected_channels shards audio_procs table
       channels_with_workers selected_channels].
  split; [by rewrite Ha|].
  split; [exact Hcover|].
  split.
  { assert (Hmem : ch ∈ concat (map IRCShard.channels (shards st2))).
    { rewrite Hcover, py_sorted_perm, elem_of_elements, Ha, Hact1.
      apply elem_of_union_l. by apply elem_of_singleton. }
    apply list_elem_of_In, in_concat in Hmem as (g & Hg' & Hc).
    apply in_map_iff in Hg' as (shard & <- & Hs).
    exists shard. by rewrite !list_elem_of_In. }
  split.
  { assert (Hk : ch ∈ dom (audio_procs st2)).
    { rewrite Hdom, Hact1. apply elem_of_union_l. by apply elem_of_singleton. }
    apply elem_of_dom in Hk as [pid Hpid]. exists pid. split; [done|].
    by apply Hok2. }
  split.
  { rewrite Hg. apply elem_of_app. right.
    apply list_elem_of_fmap. by exists ch. }
  split; [|done].
  rewrite Hw, Ha. intros c Hc.
  destruct (decide (c ∈ channels_with_workers st)) as [Hold|Hnot].
  - by apply elem_of_union_r.
  - apply elem_of_union_l, elem_of_list_to_set, Hneed. done.
Qed.

Lemma joined_channel_gets_session_and_worker_witness :
  workers_ok Case.idle_main /\
  dict_get [("channel", VStr " Foo ")] "channel" VNone = VStr " Foo " /\
  Py.lower (Py.strip " Foo ") = "foo" /\ "foo" <> "" /\
  ("foo" ∉ channels_with_workers Case.idle_main) /\
  exists st1,
    Routes.join_channel (Some Case.idle_main) (VDict [("channel", VStr " Foo ")])
    = (inr (VDict [("success", VBool true); ("channel", VStr "foo")], 200%Z),
       Some st1) /\
    sessions_cover (process_join_requests st1 0) /\
    exists shard, shard ∈ shards (process_join_requests st1 0) /\
                  "foo" ∈ IRCShard.channels shard.
Proof.
  assert (H1 : workers_ok Case.idle_main).
  { unfold workers_ok, Case.idle_main, initial. cbn [audio_procs].
    intros chan pid H. by rewrite lookup_empty in H. }
  assert (H2 : "foo" <> "") by discriminate.
  assert (H3 : "foo" ∉ channels_with_workers Case.idle_main)
    by apply not_elem_of_empty.
  split; [exact H1|]. split; [reflexivity|]. split; [reflexivity|].
  split; [exact H2|]. split; [exact H3|].
  destruct (joined_channel_gets_session_and_worker Case.idle_main
              [("channel", VStr " Foo ")] " Foo " "foo" 0 H1 eq_refl eq_refl H2 H3)
    as (st1 & Hroute & _ & Hcover & Hshard & _).
  exists st1. split; [exact Hroute|]. split; [exact Hcover | exact Hshard].
Defined.

(** ** The monitor pass *)

Lemma drop_offline_effect (l : list string) : forall (c : RuntimeContext.t),
  RuntimeContext.gui_queue (drop_offline c l)
    = RuntimeContext.gui_queue c ++ map offline_notice l /\
  RuntimeContext.active_channels (drop_offline c l)
    = RuntimeContext.active_channels c ∖ list_to_set l /\
  RuntimeContext.send_queue (drop_offline c l) = RuntimeContext.send_queue c /\
  RuntimeContext.control_queue (drop_offline c l) = RuntimeContext.control_queue c /\
  RuntimeContext.bot_state (drop_offline c l) = RuntimeContext.bot_state c /\
  RuntimeContext.data_logger (drop_offline c l) = RuntimeContext.data_logger c.
Proof.
  unfold drop_offline.
  induction l as [|ch rest IH]; intros c.
  { cbn [foldl map list_to_set]. rewrite app_nil_r. repeat split.
    apply leibniz_equiv. intros x. rewrite elem_of_difference, elem_of_empty. tauto. }
  cbn [foldl]. destruct (IH (RuntimeContext.set_active_channels
                     (RuntimeContext.gui_put c (msg3 ch "SYSTEM" (ch +:+ " went offline")))
                     (RuntimeContext.active_channels
                        (RuntimeContext.gui_put c
                           (msg3 ch "SYSTEM" (ch +:+ " went offline"))) ∖ {[ch]})))
    as (-> & -> & -> & -> & -> & ->).
  cbn [RuntimeContext.gui_queue RuntimeContext.set_active_channels
       RuntimeContext.gui_put RuntimeContext.set_gui_queue
       RuntimeContext.active_channels RuntimeContext.send_queue
       RuntimeContext.control_queue RuntimeContext.bot_state
       RuntimeContext.data_logger map list_to_set].
  rewrite <- app_assoc. repeat split.
  apply leibniz_equiv. intros x.
  rewrite !elem_of_difference, elem_of_union, elem_of_singleton. tauto.
Qed.

Lemma prompt_new_streams_effect (data : gmap string PyVal) (l : list string) :
  forall (c : RuntimeContext.t),
  RuntimeContext.gui_queue (prompt_new_streams c data l)
    = RuntimeContext.gui_queue c
      ++ map (online_prompt data)
             (filter (fun n => (n ∉ RuntimeContext.active_channels c)
                               /\ is_Some (data !! n)) l) /\
  RuntimeContext.active_channels (prompt_new_streams c data l)
    = RuntimeContext.active_channels c /\
  RuntimeContext.send_queue (prompt_new_streams c data l)
    = RuntimeContext.send_queue c /\
  RuntimeContext.control_queue (prompt_new_streams c data l)
    = RuntimeContext.control_queue c /\
  RuntimeContext.bot_state (prompt_new_streams c data l)
    = RuntimeContext.bot_state c /\
  RuntimeContext.data_logger (prompt_new_streams c data l)
    = RuntimeContext.data_logger c.
Proof.
  unfold prompt_new_streams.
  induction l as [|n rest IH]; intros c.
  { cbn [foldl]. rewrite filter_nil. cbn [map]. by rewrite app_nil_r. }
  cbn [foldl].
  destruct (decide (n ∈ RuntimeContext.active_channels c)) as [Hin|Hout].
  - rewrite bool_decide_eq_true_2 by done.
    rewrite filter_cons_False by tauto. apply IH.
  - rewrite bool_decide_eq_false_2 by done.
    destruct (data !! n) as [info|] eqn:Hd.
    + rewrite filter_cons_True by (split; [done | by rewrite Hd]).
      destruct (IH (RuntimeContext.gui_put c
                      (VTuple [VStr "ONLINE_PROMPT"; VStr "SYSTEM"; info])))
        as (-> & -> & -> & -> & -> & ->).
      cbn [RuntimeContext.gui_queue RuntimeContext.gui_put
           RuntimeContext.set_gui_queue RuntimeContext.active_channels
           RuntimeContext.send_queue RuntimeContext.control_queue
           RuntimeContext.bot_state RuntimeContext.data_logger map].
      rewrite <- app_assoc. unfold online_prompt at 2. by rewrite Hd.
    + rewrite filter_cons_False; [apply IH|].
      rewrite Hd. intros [_ [? ?]]. done.
Qed.

Lemma metadata_loop_effect (data : gmap string PyVal) (l : list string) :
  forall (c : RuntimeContext.t),
  RuntimeContext.gui_queue
    (foldl (fun c ch =>
              match data !! ch with
              | Some meta =>
                  RuntimeContext.gui_put c
                    (VTuple [VStr "GUI_UPDATE_META"; VStr ch; meta])
              | None => c
              end) c l)
    = RuntimeContext.gui_queue c
      ++ map (metadata_update data) (filter (fun ch => is_Some (data !! ch)) l) /\
  RuntimeContext.active_channels
    (foldl (fun c ch =>
              match data !! ch with
              | Some meta =>
                  RuntimeContext.gui_put c
                    (VTuple [VStr "GUI_UPDATE_META"; VStr ch; meta])
              | None => c
              end) c l)
    = RuntimeContext.active_channels c /\
  RuntimeContext.send_queue
    (foldl (fun c ch =>
              match data !! ch with
              | Some meta =>
                  RuntimeContext.gui_put c
                    (VTuple [VStr "GUI_UPDATE_META"; VStr ch; meta])
              | None => c
              end) c l)
    = RuntimeContext.send_queue c /\
  RuntimeContext.control_queue
    (foldl (fun c ch =>
              match data !! ch with
              | Some meta =>
                  RuntimeContext.gui_put c
                    (VTuple [VStr "GUI_UPDATE_META"; VStr ch; meta])
              | None => c
              end) c l)
    = RuntimeContext.control_queue c.
Proof.
  induction l as [|ch rest IH]; intros c.
  { cbn [foldl]. rewrite filter_nil. cbn [map]. by rewrite app_nil_r. }
  cbn [foldl]. destruct (data !! ch) as [meta|] eqn:Hd.
  - rewrite filter_cons_True by (by rewrite Hd).
    destruct (IH (RuntimeContext.gui_put c
                    (VTuple [VStr "GUI_UPDATE_META"; VStr ch; meta])))
      as (-> & -> & -> & ->).
    cbn [RuntimeContext.gui_queue RuntimeContext.gui_put
         RuntimeContext.set_gui_queue RuntimeContext.active_channels
         RuntimeContext.send_queue RuntimeContext.control_queue map].
    rewrite <- app_assoc. unfold metadata_update at 2. by rewrite Hd.
  - rewrite filter_cons_False; [apply IH|]. rewrite Hd. by intros [? ?].
Qed.

(** What one monitor pass leaves behind: the channels that went offline,
    the streams prompted for and the channels whose metadata was
    refreshed are given as lists, each in the order the pass went through
    them. *)
Lemma monitor_pass_effect (st : State) (data : gmap string PyVal) (now : Q) :
  workers_ok st ->
  exists offline prompted updated,
    NoDup offline /\ NoDup prompted /\ NoDup updated /\
    (forall ch, ch ∈ offline <->
       ch ∈ RuntimeContext.active_channels (context st) /\ Py.lower ch ∉ dom data) /\
    (forall n, n ∈ prompted <->
       n ∈ dom data /\ (n ∉ known_live_channels st) /\
       n ∉ RuntimeContext.active_channels (context (monitor_pass st data now))) /\
    (forall ch, ch ∈ updated <->
       ch ∈ RuntimeContext.active_channels (context (monitor_pass st data now)) /\
       ch ∈ dom data) /\
    RuntimeContext.gui_queue (context (monitor_pass st data now))
      = RuntimeContext.gui_queue (context st)
        ++ map offline_notice offline
        ++ map (online_prompt data) prompted
        ++ map (metadata_update data) updated /\
    (forall ch,
       ch ∈ RuntimeContext.active_channels (context (monitor_pass st data now)) <->
       ch ∈ RuntimeContext.active_channels (context st) /\ Py.lower ch ∈ dom data) /\
    known_live_channels (monitor_pass st data now) = dom data /\
    live_data (monitor_pass st data now) = data /\
    channels_with_workers (monitor_pass st data now) = channels_with_workers st /\
    workers_ok (monitor_pass st data now) /\
    (offline <> [] ->
       sessions_cover (monitor_pass st data now) /\
       dom (audio_procs (monitor_pass st data now))
       = RuntimeContext.active_channels (context (monitor_pass st data now))) /\
    (offline = [] ->
       shards (monitor_pass st data now) = shards st /\
       audio_procs (monitor_pass st data now) = audio_procs st /\
       table (monitor_pass st data now) = table st).
Proof.
  intros Hok. unfold monitor_pass.
  set (offline := filter (fun ch => Py.lower ch ∉ dom data)
                         (elements (RuntimeContext.active_channels (context st)))).
  set (live := filter (fun ch => ch ∉ known_live_channels st) (elements (dom data))).
  destruct (drop_offline_effect offline (context st)) as (Hg1 & Ha1 & _).
  set (c1 := drop_offline (context st) offline) in *.
  destruct (prompt_new_streams_effect data live c1) as (Hg2 & Ha2 & _).
  set (c2 := prompt_new_streams c1 data live) in *.
  pose proof (metadata_loop_effect data
                (elements (RuntimeContext.active_channels c2)) c2) as (Hg3 & Ha3 & _).
  fold (update_metadata c2 data) in Hg3, Ha3.
  set (c3 := update_metadata c2 data) in *.
  set (st1 := mkState c3 data _ _ _ _ _ _ _ _).
  assert (Hoff : forall ch, ch ∈ offline <->
            ch ∈ RuntimeContext.active_channels (context st) /\
            Py.lower ch ∉ dom data).
  { intros ch. unfold offline. rewrite list_elem_of_filter, elem_of_elements. tauto. }
  assert (Hact : forall ch, ch ∈ RuntimeContext.active_channels c3 <->
            ch ∈ RuntimeContext.active_channels (context st) /\
            Py.lower ch ∈ dom data).
  { intros ch. rewrite Ha3, Ha2, Ha1, elem_of_difference, elem_of_list_to_set, Hoff.
    destruct (decide (Py.lower ch ∈ dom data)); tauto. }
  set (prompted := filter (fun n => (n ∉ RuntimeContext.active_channels c1)
                                    /\ is_Some (data !! n)) live) in *.
  set (updated := filter (fun ch => is_Some (data !! ch))
                         (elements (RuntimeContext.active_channels c2))) in *.
  assert (Hfinal : forall stf,
            context stf = c3 -> known_live_channels stf = dom data ->
            live_data stf = data ->
            channels_with_workers stf = channels_with_workers st ->
            workers_ok stf ->
            (offline <> [] -> sessions_cover stf /\
               dom (audio_procs stf) = RuntimeContext.active_channels (context stf)) ->
            (offline = [] -> shards stf = shards st /\
               audio_procs stf = audio_procs st /\ table stf = table st) ->
            exists offline prompted updated,
              NoDup offline /\ NoDup prompted /\ NoDup updated /\
              (forall ch, ch ∈ offline <->
                 ch ∈ RuntimeContext.active_channels (context st) /\
                 Py.lower ch ∉ dom data) /\
              (forall n, n ∈ prompted <->
                 n ∈ dom data /\ (n ∉ known_live_channels st) /\
                 n ∉ RuntimeContext.active_channels (context stf)) /\
              (forall ch, ch ∈ updated <->
                 ch ∈ RuntimeContext.active_channels (context stf) /\ ch ∈ dom data) /\
              RuntimeContext.gui_queue (context stf)
                = RuntimeContext.gui_queue (context st)
                  ++ map offline_notice offline
                  ++ map (online_prompt data) prompted
                  ++ map (metadata_update data) updated /\
              (forall ch,
                 ch ∈ RuntimeContext.active_channels (context stf) <->
                 ch ∈ RuntimeContext.active_channels (context st) /\
                 Py.lower ch ∈ dom data) /\
              known_live_channels stf = dom data /\
              live_data stf = data /\
              channels_with_workers stf = channels_with_workers st /\
              workers_ok stf /\
              (offline <> [] -> sessions_cover stf /\
                 dom (audio_procs stf)
                 = RuntimeContext.active_channels (context stf)) /\
              (offline = [] -> shards stf = shards st /\
                 audio_procs stf = audio_procs st /\ table stf = table st)).
  { intros stf Hc Hk Hl Hw Hokf Hne Hnil.
    exists offline, prompted, updated. rewrite Hc.
    split; [apply NoDup_filter, NoDup_elements|].
    split; [apply NoDup_filter, NoDup_filter, NoDup_elements|].
    split; [apply NoDup_filter, NoDup_elements|].
    split; [exact Hoff|].
    split.
    { intros n. unfold prompted, live.
      rewrite !list_elem_of_filter, elem_of_elements, <- elem_of_dom.
      rewrite Ha3, Ha2. tauto. }
    split.
    { intros ch. unfold updated.
      rewrite list_elem_of_filter, elem_of_elements, <- elem_of_dom, Ha3. tauto. }
    split; [by rewrite Hg3, Hg2, Hg1, <- !app_assoc|].
    split; [exact Hact|].
    rewrite <- Hc. done. }
  destruct offline as [|o os] eqn:Hoffl.
  - apply Hfinal; try done.
  - assert (Hok1 : workers_ok st1) by exact Hok.
    destruct (main_rebuild_effect st1 now)
      as (Hc & Hcover & Htab & Hprocs & _ & Hw & _ & Hk & Hl).
    assert (Hok2 : workers_ok (rebuild_shards st1 now)).
    { intros chan pid. rewrite Hprocs, Htab. apply Hok1. }
    destruct (update_audio_workers_effect _ Hok2)
      as (Hdom & Hok3 & _ & _ & Hc3 & Hs3 & _ & Hw3 & _ & Hk3 & Hl3).
    apply Hfinal.
    + by rewrite Hc3, Hc.
    + by rewrite Hk3, Hk.
    + by rewrite Hl3, Hl.
    + by rewrite Hw3, Hw.
    + exact Hok3.
    + intros _. split.
      * unfold sessions_cover in *. by rewrite Hs3, Hc3.
      * by rewrite Hdom, Hc3.
    + done.
Qed.

(** X20.  One pass of the monitor.  Given the live data just fetched,
    the pass removes from the active set exactly the channels whose
    lower-cased name is not live and queues one offline notice for each;
    it queues one prompt for each stream that is live now, was not known
    to be live before and is not being monitored; and one metadata update
    for each remaining active channel found in the live data.  It records
    the live data and the live names.  If some channel went offline the
    sessions are rebuilt over the remaining channels and the audio
    workers reconciled with them; otherwise sessions and workers are not
    touched.  In particular a fetch that returns nothing (as after an API
    error, which [get_live_status] swallows) empties the active set. *)
Theorem monitor_pass_follows_live_data
    (st : State) (data : gmap string PyVal) (now : Q) :
  workers_ok st ->
  (exists offline prompted updated,
    NoDup offline /\ NoDup prompted /\ NoDup updated /\
    (forall ch, ch ∈ offline <->
       ch ∈ RuntimeContext.active_channels (context st) /\ Py.lower ch ∉ dom data) /\
    (forall n, n ∈ prompted <->
       n ∈ dom data /\ (n ∉ known_live_channels st) /\
       n ∉ RuntimeContext.active_channels (context (monitor_pass st data now))) /\
    (forall ch, ch ∈ updated <->
       ch ∈ RuntimeContext.active_channels (context (monitor_pass st data now)) /\
       ch ∈ dom data) /\
    RuntimeContext.gui_queue (context (monitor_pass st data now))
      = RuntimeContext.gui_queue (context st)
        ++ map offline_notice offline
        ++ map (online_prompt data) prompted
        ++ map (metadata_update data) updated /\
    (offline <> [] ->
       sessions_cover (monitor_pass st data now) /\
       dom (audio_procs (monitor_pass st data now))
       = RuntimeContext.active_channels (context (monitor_pass st data now))) /\
    (offline = [] ->
       shards (monitor_pass st data now) = shards st /\
       audio_procs (monitor_pass st data now) = audio_procs st /\
       table (monitor_pass st data now) = table st)) /\
  (forall ch,
     ch ∈ RuntimeContext.active_channels (context (monitor_pass st data now)) <->
     ch ∈ RuntimeContext.active_channels (context st) /\ Py.lower ch ∈ dom data) /\
  known_live_channels (monitor_pass st data now) = dom data /\
  live_data (monitor_pass st data now) = data /\
  workers_ok (monitor_pass st data now) /\
  (data = ∅ ->
   RuntimeContext.active_channels (context (monitor_pass st data now)) = ∅).
Proof.
  intros Hok.
  destruct (monitor_pass_effect st data now Hok)
    as (offline & prompted & updated & H1 & H2 & H3 & H4 & H5 & H6 & H7 & H8
        & H9 & H10 & H11 & H12 & H13 & H14).
  split.
  { exists offline, prompted, updated. repeat (split; [assumption|]). assumption. }
  repeat (split; [assumption|]).
  intros ->. apply leibniz_equiv. intros ch. rewrite H8, dom_empty_L.
  rewrite !elem_of_empty. tauto.
Qed.

Lemma monitor_pass_follows_live_data_witness :
  workers_ok Case.two_channels /\
  known_live_channels (monitor_pass Case.two_channels Case.only_bar_live 0)
  = dom Case.only_bar_live /\
  forall ch,
    ch ∈ RuntimeContext.active_channels
           (context (monitor_pass Case.two_channels Case.only_bar_live 0)) <->
    ch ∈ RuntimeContext.active_channels (context Case.two_channels) /\
    Py.lower ch ∈ dom Case.only_bar_live.
Proof.
  assert (H : workers_ok Case.two_channels).
  { unfold Case.two_channels, process_join_requests.
    apply join_loop_effect.
    - unfold workers_ok, Case.idle_main, initial. cbn [audio_procs set_context].
      intros chan pid H. by rewrite lookup_empty in H.
    - intros ch Hch. apply elem_of_elements in Hch.
      by apply elem_of_difference in Hch as [? _]. }
  split; [exact H|].
  destruct (monitor_pass_follows_live_data Case.two_channels Case.only_bar_live 0 H)
    as (_ & Hact & Hk & _).
  split; [exact Hk | exact Hact].
Defined.

(** X21.  The join processor handles a channel once only.  When every
    active channel is already marked in [channels_with_workers], a turn
    of [process_join_requests] does nothing but clear the selection.  So
    for a channel that was handled before: once a monitor pass has found
    it offline (it leaves the active set, the rebuilt sessions do not own
    it and its audio worker is gone), joining it again through the join
    route puts it back into the active set, but the next turn of the join
    processor starts nothing for it: no session owns it and it has no
    audio worker. *)
Theorem rejoined_channel_is_not_picked_up
    (st : State) (data : gmap string PyVal) (ch : string) (now now' : Q) :
  workers_ok st ->
  RuntimeContext.active_channels (context st) ⊆ channels_with_workers st ->
  ch ∈ RuntimeContext.active_channels (context st) ->
  Py.lower ch ∉ dom data ->
  Py.lower (Py.strip ch) = ch -> ch <> "" ->
  (ch ∉ RuntimeContext.active_channels (context (monitor_pass st data now))) /\
  exists st2,
    Routes.join_channel (Some (monitor_pass st data now))
      (VDict [("channel", VStr ch)])
    = (inr (VDict [("success", VBool true); ("channel", VStr ch)], 200%Z),
       Some st2) /\
    ch ∈ RuntimeContext.active_channels (context (process_join_requests st2 now')) /\
    shards (process_join_requests st2 now') = shards (monitor_pass st data now) /\
    (forall shard, shard ∈ shards (process_join_requests st2 now') ->
                   ch ∉ IRCShard.channels shard) /\
    audio_procs (process_join_requests st2 now') !! ch = None.
Proof.
  intros Hok Hsub Hact Hoffline Hnorm Hne.
  destruct (monitor_pass_effect st data now Hok)
    as (offline & prompted & updated & _ & _ & _ & Hoff & _ & _ & _ & Hact1
        & _ & _ & Hw1 & Hok1 & Hsome & _).
  set (st1 := monitor_pass st data now) in *.
  assert (Hgone : ch ∉ RuntimeContext.active_channels (context st1)).
  { rewrite Hact1. tauto. }
  split; [exact Hgone|].
  assert (Hin : ch ∈ offline) by (apply Hoff; done).
  destruct Hsome as [Hcover Hdom].
  { intros E. rewrite E in Hin. by apply elem_of_nil in Hin. }
  pose proof (join_channel_accepts st1 [("channel", VStr ch)] ch eq_refl) as Hroute.
  rewrite Hnorm in Hroute. specialize (Hroute Hne).
  eexists. split; [exact Hroute|].
  match goal with |- context [process_join_requests ?s now'] => set (st2 := s) end.
  assert (Hnone : RuntimeContext.active_channels (context st2)
                    ∖ channels_with_workers st2 = ∅).
  { apply leibniz_equiv. intros x.
    rewrite elem_of_difference, elem_of_empty.
    change (RuntimeContext.active_channels (context st2))
      with ({[ch]} ∪ RuntimeContext.active_channels (context st1)).
    change (channels_with_workers st2) with (channels_with_workers st1).
    rewrite Hw1, elem_of_union, elem_of_singleton, Hact1.
    split; [|done]. intros [[->|[Hx _]] Hnot]; apply Hnot, Hsub; done. }
  unfold process_join_requests. rewrite Hnone, elements_empty. cbn [foldl].
  cbn [context set_selected_channels shards audio_procs].
  split.
  { change (RuntimeContext.active_channels (context st2))
      with ({[ch]} ∪ RuntimeContext.active_channels (context st1)).
    apply elem_of_union_l. by apply elem_of_singleton. }
  split; [done|].
  split.
  { intros shard Hshard Hc.
    change (shards st2) with (shards st1) in Hshard.
    assert (Hmem : ch ∈ concat (map IRCShard.channels (shards st1))).
    { apply list_elem_of_In, in_concat. exists (IRCShard.channels shard).
      split; [apply in_map | ]; by apply list_elem_of_In. }
    rewrite Hcover, py_sorted_perm, elem_of_elements in Hmem. done. }
  change (audio_procs st2) with (audio_procs st1).
  apply not_elem_of_dom. by rewrite Hdom.
Qed.

Lemma rejoined_channel_is_not_picked_up_witness :
  workers_ok Case.two_channels /\
  RuntimeContext.active_channels (context Case.two_channels)
    ⊆ channels_with_workers Case.two_channels /\
  "foo" ∈ RuntimeContext.active_channels (context Case.two_channels) /\
  (Py.lower "foo" ∉ dom Case.only_bar_live) /\
  exists st2,
    Routes.join_channel (Some (monitor_pass Case.two_channels Case.only_bar_live 60))
      (VDict [("channel", VStr "foo")])
    = (inr (VDict [("success", VBool true); ("channel", VStr "foo")], 200%Z),
       Some st2) /\
    "foo" ∈ RuntimeContext.active_channels (context (process_join_requests st2 61)) /\
    audio_procs (process_join_requests st2 61) !! "foo" = None.
Proof.
  assert (Hloop : workers_ok Case.two_channels /\
            RuntimeContext.active_channels (context Case.two_channels)
              ⊆ channels_with_workers Case.two_channels /\
            RuntimeContext.active_channels (context Case.two_channels)
              = {["foo"; "bar"]}).
  { unfold Case.two_channels, process_join_requests.
    match goal with
    | |- context [foldl (start_workers_for ?t) ?s ?l] =>
        destruct (join_loop_effect t l s) as (Ha & _ & Hok & Hw & _)
    end.
    - unfold workers_ok, Case.idle_main, initial. cbn [audio_procs set_context].
      intros chan pid H. by rewrite lookup_empty in H.
    - intros ch Hch. apply elem_of_elements in Hch.
      by apply elem_of_difference in Hch as [? _].
    - cbn [context set_selected_channels channels_with_workers].
      split; [exact Hok|]. split; [|exact Ha].
      rewrite Ha, Hw. intros x Hx. apply elem_of_union_l.
      apply elem_of_list_to_set, elem_of_elements, elem_of_difference.
      split; [exact Hx | apply not_elem_of_empty]. }
  destruct Hloop as (H1 & H2 & H3).
  assert (H4 : "foo" ∈ RuntimeContext.active_channels (context Case.two_channels)).
  { rewrite H3. apply elem_of_union_l. by apply elem_of_singleton. }
  assert (H5 : Py.lower "foo" ∉ dom Case.only_bar_live).
  { unfold Case.only_bar_live. rewrite dom_singleton_L.
    intros H%elem_of_singleton. discriminate. }
  split; [exact H1|]. split; [exact H2|]. split; [exact H4|]. split; [exact H5|].
  destruct (rejoined_channel_is_not_picked_up Case.two_channels Case.only_bar_live
              "foo" 60 61 H1 H2 H4 H5 eq_refl ltac:(discriminate))
    as (_ & st2 & Hroute & Hact & _ & _ & Hnone).
  exists st2. split; [exact Hroute|]. split; [exact Hact | exact Hnone].
Defined.

(** X22.  The join route.  A request without a usable channel name (no
    [channel] key, null or another falsy value, or a name that is empty
    once stripped) is answered 400 and changes nothing; a request body
    that is not an object (null, a number, a boolean, a string, a list)
    raises an [AttributeError], and so does a channel that is neither
    falsy nor a string; nothing is changed then either.  Otherwise the
    name is stripped and lower-cased, so
    requests that differ only in case or surrounding white space name the
    same channel; it is added to the active and the selected set, the
    answer is 200, and the item queued for the subscribers is turned by
    the bridge into exactly one [channel_joined] event carrying the
    normalised name. *)
Theorem join_route_normalises_channel :
  (forall (context : option State) (d : list (string * PyVal)),
     py_truthy (dict_get d "channel" VNone) = false ->
     Routes.join_channel context (VDict d)
     = (inr (VDict [("error", VStr "No channel specified")], 400%Z), context)) /\
  (forall (context : option State) (d : list (string * PyVal)) (s : string),
     dict_get d "channel" VNone = VStr s -> Py.lower (Py.strip s) = "" ->
     Routes.join_channel context (VDict d)
     = (inr (VDict [("error", VStr "No channel specified")], 400%Z), context)) /\
  (forall (context : option State) (data : PyVal),
     (forall d, data <> VDict d) ->
     Routes.join_channel context data
     = (inl (AttributeError
               ("'" +:+ py_type_name data +:+ "' object has no attribute 'get'")),
        context)) /\
  (forall (context : option State) (d : list (string * PyVal)),
     py_truthy (dict_get d "channel" VNone) = true ->
     (forall s, dict_get d "channel" VNone <> VStr s) ->
     Routes.join_channel context (VDict d)
     = (inl (AttributeError
               ("'" +:+ py_type_name (dict_get d "channel" VNone)
                  +:+ "' object has no attribute 'strip'")),
        context)) /\
  (forall (st : State) (d : list (string * PyVal)) (s : string),
     dict_get d "channel" VNone = VStr s -> Py.lower (Py.strip s) <> "" ->
     exists st',
       Routes.join_channel (Some st) (VDict d)
       = (inr (VDict [("success", VBool true);
                      ("channel", VStr (Py.lower (Py.strip s)))], 200%Z),
          Some st') /\
       RuntimeContext.active_channels (Main.context st')
         = {[Py.lower (Py.strip s)]} ∪ RuntimeContext.active_channels (Main.context st) /\
       selected_channels st' = {[Py.lower (Py.strip s)]} ∪ selected_channels st /\
       RuntimeContext.gui_queue (Main.context st')
         = RuntimeContext.gui_queue (Main.context st)
           ++ [VTuple [VStr "GUI_JOIN_NOW"; VStr "SYSTEM";
                       VStr (Py.lower (Py.strip s))]] /\
       shards st' = shards st /\ audio_procs st' = audio_procs st /\
       forall (out : QueueBridge.Emitted) (now : TimeOfDay),
         QueueBridge._dispatch out
           (VTuple [VStr "GUI_JOIN_NOW"; VStr "SYSTEM";
                    VStr (Py.lower (Py.strip s))]) now
         = (None,
            out ++ [("channel_joined",
                     VDict [("channel", VStr (Py.lower (Py.strip s)))])])).
Proof.
  split; [|split; [|split; [|split]]].
  - intros context d Hfalse. unfold Routes.join_channel. by rewrite Hfalse.
  - intros context d s Hd Hempty. unfold Routes.join_channel. rewrite Hd.
    assert ((if py_truthy (VStr s) then VStr s else VStr "") = VStr s) as ->.
    { cbn [py_truthy]. destruct (String.eqb_spec s ""); [by subst | done]. }
    by rewrite Hempty.
  - intros context data Hdata. destruct data; try done. by destruct (Hdata d).
  - intros context d Htrue Hstr. unfold Routes.join_channel. rewrite Htrue.
    destruct (dict_get d "channel" VNone) as [| | | |s| | | |]; try done.
    by destruct (Hstr s).
  - intros st d s Hd Hne. eexists. split; [by apply join_channel_accepts|].
    done.
Qed.

Lemma join_route_normalises_channel_witness :
  dict_get [("channel", VStr " Foo ")] "channel" VNone = VStr " Foo " /\
  Py.lower (Py.strip " Foo ") <> "" /\
  exists st',
    Routes.join_channel (Some Case.idle_main) (VDict [("channel", VStr " Foo ")])
    = (inr (VDict [("success", VBool true); ("channel", VStr "foo")], 200%Z),
       Some st') /\
    RuntimeContext.active_channels (Main.context st')
    = {["foo"]} ∪ RuntimeContext.active_channels (Main.context Case.idle_main).
Proof.
  split; [reflexivity|]. split; [discriminate|].
  destruct (proj2 (proj2 (proj2 (proj2 join_route_normalises_channel))) Case.idle_main
              [("channel", VStr " Foo ")] " Foo " eq_refl ltac:(discriminate))
    as (st' & Hroute & Hact & _).
  exists st'. split; [exact Hroute | exact Hact].
Defined.

End orchestrator_joining.

Section bridge_polling.

(** * The queue bridge: the polling loop *)

(** Dispatching an item emits nothing or one event, after what was
    emitted before. *)
Lemma dispatch_appends (out : QueueBridge.Emitted) (item : PyVal) (now : TimeOfDay) :
  exists evs,
    (QueueBridge._dispatch out item now).2 = out ++ evs /\ (length evs <= 1)%nat.
Proof.
  assert (Hnone : exists evs : QueueBridge.Emitted,
             out = out ++ evs /\ (length evs <= 1)%nat).
  { exists []. split; [by rewrite app_nil_r | simpl; lia]. }
  assert (Hone : forall ev, exists evs : QueueBridge.Emitted,
             out ++ [ev] = out ++ evs /\ (length evs <= 1)%nat).
  { intros ev. exists [ev]. split; [done | simpl; lia]. }
  unfold QueueBridge._dispatch, QueueBridge._handle_metadata.
  repeat case_match; simplify_eq; cbn [snd]; try exact Hnone; apply Hone.
Qed.

Lemma dispatch_chat (out : QueueBridge.Emitted) (channel tag text : string)
    (now : TimeOfDay) :
  channel ∉ QueueBridge.command_tags ->
  channel ∉ QueueBridge.reserved_channels ->
  QueueBridge._dispatch out (msg3 channel tag text) now
  = (None, out ++ [QueueBridge.chat_message channel tag text now]).
Proof.
  intros Hcmd Hres.
  unfold QueueBridge.command_tags, QueueBridge.reserved_channels in *.
  assert (H1 : channel <> "GUI_UPDATE_META") by (intros ->; apply Hcmd; by left).
  assert (H2 : channel <> "ONLINE_PROMPT")
    by (intros ->; apply Hcmd; right; by left).
  assert (H3 : channel <> "GUI_JOIN_NOW")
    by (intros ->; apply Hcmd; right; right; by left).
  assert (H4 : channel <> "SYSTEM") by (intros ->; apply Hres; by left).
  assert (H5 : channel <> "EXPERIMENT_DATA")
    by (intros ->; apply Hres; right; by left).
  unfold QueueBridge._dispatch, msg3, QueueBridge.tuple_get.
  cbn [lookup list_lookup]. rewrite !py_eq_str_VStr.
  rewrite (bool_decide_eq_false_2 _ H1), (bool_decide_eq_false_2 _ H2),
    (bool_decide_eq_false_2 _ H3), (bool_decide_eq_false_2 _ H4),
    (bool_decide_eq_false_2 _ H5).
  done.
Qed.

(** X23.  The bridge forwards in queue order and loses nothing it
    emitted.  Each turn of the polling loop takes at most one item off
    the GUI queue, so after [n] turns the first [n] items are gone and
    the rest is untouched; what was emitted before stays, and at most one
    event per item taken is added, whatever the items are (an item that
    makes the dispatch raise is dropped and the loop goes on).  A queue
    of [(channel, tag, text)] events on ordinary channels is emitted as
    the corresponding [chat_message] events, one for one and in the same
    order. *)
Theorem bridge_forwards_in_queue_order :
  (forall (nows : list TimeOfDay) (queue : list PyVal) (out : QueueBridge.Emitted),
     (_poll_loop queue out nows).1 = drop (length nows) queue /\
     exists evs,
       (_poll_loop queue out nows).2 = out ++ evs /\
       (length evs <= length nows)%nat /\ (length evs <= length queue)%nat) /\
  (forall (events : list (string * string * string)) (nows : list TimeOfDay)
          (out : QueueBridge.Emitted),
     length nows = length events ->
     Forall (fun ev => (ev.1.1 ∉ QueueBridge.command_tags) /\
                       ev.1.1 ∉ QueueBridge.reserved_channels) events ->
     _poll_loop (map (fun ev => msg3 ev.1.1 ev.1.2 ev.2) events) out nows
     = ([],
        out ++ zip_with (fun ev now =>
                           QueueBridge.chat_message ev.1.1 ev.1.2 ev.2 now)
                        events nows)).
Proof.
  split.
  - induction nows as [|now rest IH]; intros queue out.
    { split; [done|]. exists []. split; [by rewrite app_nil_r | simpl; lia]. }
    cbn [_poll_loop length]. destruct queue as [|item queue].
    + cbn [QueueBridge._poll_step].
      destruct (IH [] out) as (Hq & evs & Ho & Hn & Hl).
      split; [by rewrite Hq, !drop_nil|].
      exists evs. split; [done|]. split; [lia | done].
    + cbn [QueueBridge._poll_step drop].
      destruct (dispatch_appends out item now) as (ev1 & He1 & Hl1).
      destruct (IH queue (QueueBridge._dispatch out item now).2)
        as (Hq & evs & Ho & Hn & Hl).
      split; [exact Hq|].
      exists (ev1 ++ evs). split; [by rewrite Ho, He1, app_assoc|].
      rewrite length_app. cbn [length]. lia.
  - induction events as [|[[channel tag] text] events IH]; intros nows out Hlen Hall.
    { destruct nows; [|done]. cbn. by rewrite app_nil_r. }
    destruct nows as [|now nows]; [done|].
    apply Forall_cons in Hall as [[Hcmd Hres] Hall].
    cbn [map _poll_loop QueueBridge._poll_step zip_with fst snd].
    rewrite (dispatch_chat out channel tag text now Hcmd Hres). cbn [snd].
    rewrite IH by (simpl in Hlen; lia || done).
    by rewrite <- app_assoc.
Qed.

Lemma bridge_forwards_in_queue_order_witness :
  length [Sample.noon; Sample.noon]
  = length [("foo", "CHAT", "a: hi"); ("bar", "SELF", "You: yo")] /\
  Forall (fun ev : string * string * string =>
            (ev.1.1 ∉ QueueBridge.command_tags) /\
            ev.1.1 ∉ QueueBridge.reserved_channels)
         [("foo", "CHAT", "a: hi"); ("bar", "SELF", "You: yo")] /\
  _poll_loop [msg3 "foo" "CHAT" "a: hi"; msg3 "bar" "SELF" "You: yo"] []
             [Sample.noon; Sample.noon]
  = ([], [QueueBridge.chat_message "foo" "CHAT" "a: hi" Sample.noon;
          QueueBridge.chat_message "bar" "SELF" "You: yo" Sample.noon]).
Proof.
  assert (H : Forall (fun ev : string * string * string =>
                        (ev.1.1 ∉ QueueBridge.command_tags) /\
                        ev.1.1 ∉ QueueBridge.reserved_channels)
                     [("foo", "CHAT", "a: hi"); ("bar", "SELF", "You: yo")]).
  { repeat constructor; cbn [fst]; intros Hin; apply list_elem_of_In in Hin;
      simpl in Hin; intuition discriminate. }
  split; [reflexivity|]. split; [exact H|].
  exact (proj2 bridge_forwards_in_queue_order
               [("foo", "CHAT", "a: hi"); ("bar", "SELF", "You: yo")]
               [Sample.noon; Sample.noon] [] eq_refl H).
Defined.

(** X26.  The bridge understands every item a monitor pass queues.  An
    offline notice for a channel is forwarded as a [chat_message] on that
    channel with the tag SYSTEM (unless the channel bears one of the
    reserved names); a prompt for a new stream becomes one
    [stream_online] event naming the stream's [user]; a metadata update
    becomes one [channel_meta] event with the game (Unknown when
    missing), the viewer count (0 when missing) and the thumbnail encoded
    in base 64, or null when there are no thumbnail bytes. *)
Theorem monitor_items_reach_subscribers
    (data : gmap string PyVal) (name : string) (d : list (string * PyVal))
    (out : QueueBridge.Emitted) (now : TimeOfDay) :
  data !! name = Some (VDict d) ->
  QueueBridge._dispatch out (Main.online_prompt data name) now
  = (None,
     out ++ [("stream_online",
              VDict [("channel", dict_get d "user" (VStr "Unknown"));
                     ("info", VDict d)])]) /\
  QueueBridge._dispatch out (Main.metadata_update data name) now
  = (None,
     out ++ [("channel_meta",
              VDict [("channel", VStr name);
                     ("game", dict_get d "game" (VStr "Unknown"));
                     ("viewers", dict_get d "viewers" (VInt 0));
                     ("thumbnail",
                      match dict_get d "thumb_bytes" VNone with
                      | VBytes (b :: bs) => VStr (b64encode (b :: bs))
                      | _ => VNone
                      end)])]) /\
  (name ∉ QueueBridge.command_tags -> name ∉ QueueBridge.reserved_channels ->
   QueueBridge._dispatch out (Main.offline_notice name) now
   = (None,
      out ++ [QueueBridge.chat_message name "SYSTEM" (name +:+ " went offline")
                now])).
Proof.
  intros Hd. split; [|split].
  - unfold Main.online_prompt. rewrite Hd. reflexivity.
  - unfold Main.metadata_update. rewrite Hd. cbv [from_option id].
    unfold QueueBridge._dispatch, QueueBridge.tuple_get, QueueBridge._handle_metadata.
    cbn [lookup list_lookup py_eq_str String.eqb Ascii.eqb Bool.eqb].
    destruct (dict_get d "thumb_bytes" VNone) as [| [] | z | q | s | [|b bs] | l | l | l];
      cbn [py_truthy]; try done; by destruct (negb _).
  - intros Hcmd Hres. by apply dispatch_chat.
Qed.

Lemma monitor_items_reach_subscribers_witness :
  Case.only_bar_live !! "bar"
  = Some (VDict [("user", VStr "bar"); ("game", VStr "Chess");
                 ("viewers", VInt 12); ("thumb_bytes", VNone)]) /\
  QueueBridge._dispatch [] (Main.metadata_update Case.only_bar_live "bar") Sample.noon
  = (None,
     [("channel_meta",
       VDict [("channel", VStr "bar"); ("game", VStr "Chess");
              ("viewers", VInt 12); ("thumbnail", VNone)])]).
Proof.
  assert (H : Case.only_bar_live !! "bar"
              = Some (VDict [("user", VStr "bar"); ("game", VStr "Chess");
                             ("viewers", VInt 12); ("thumb_bytes", VNone)]))
    by apply lookup_singleton_eq.
  split; [exact H|].
  exact (proj1 (proj2 (monitor_items_reach_subscribers Case.only_bar_live "bar" _
                         [] Sample.noon H))).
Defined.

End bridge_polling.

Section audio_numbering.

(** * Audio capture: chunk numbering *)

(** X24.  A capture loop numbers the chunks it enqueues consecutively.
    Whatever the reads return, the chunks it adds to the audio queue all
    carry its channel, the k-th of them spans seconds
    [(idx + k) * 5, (idx + k + 1) * 5) where [idx] is the counter the
    loop started with, and the counter advances by the number of chunks
    added: a read that is dropped under backpressure leaves no gap in the
    numbering, so each chunk ends where the next begins.  No more than
    one chunk is added per read, and the queue is never taken past 51
    items or the depth it was found at. *)
Theorem capture_loop_numbers_chunks
    (chan : string) (reads : list (list Byte.byte)) (st : Audio.State) :
  exists added,
    Audio.audio_queue (Audio.capture_loop chan st reads).2
      = Audio.audio_queue st ++ added /\
    Audio.idx (Audio.capture_loop chan st reads).2
      = (Audio.idx st + Z.of_nat (length added))%Z /\
    (forall k c, added !! k = Some c ->
       Audio.channel c = chan /\
       Audio.chunk_start c = ((Audio.idx st + Z.of_nat k) * CHUNK_DURATION)%Z /\
       Audio.chunk_end c = ((Audio.idx st + Z.of_nat k + 1) * CHUNK_DURATION)%Z) /\
    (length added <= length reads)%nat /\
    (length (Audio.audio_queue (Audio.capture_loop chan st reads).2)
     <= length (Audio.audio_queue st) `max` 51)%nat.
Proof.
  revert st. induction reads as [|raw rest IH]; intros st.
  { exists []. cbn [Audio.capture_loop snd length]. rewrite app_nil_r.
    split; [done|]. split; [lia|]. split; [|lia].
    intros k c Hk. by rewrite lookup_nil in Hk. }
  assert (Hstep :
    (exists samples,
        Audio.capture_iteration chan st raw
        = (Audio.Continue,
           Audio.mkState (Audio.idx st + 1)
             (Audio.audio_queue st ++
                [Audio.mkChunk chan samples (Audio.idx st * CHUNK_DURATION)
                               ((Audio.idx st + 1) * CHUNK_DURATION)])
             (tail (Audio.control_queue st)) (Audio.terminated st)) /\
        (length (Audio.audio_queue st) <= 50)%nat) \/
    (Audio.audio_queue (Audio.capture_iteration chan st raw).2 = Audio.audio_queue st /\
     Audio.idx (Audio.capture_iteration chan st raw).2 = Audio.idx st)).
  { unfold Audio.capture_iteration.
    destruct (Audio.control_queue st) as [|item q] eqn:Hq;
      [|destruct (String.eqb item "SHUTDOWN"); [by right|]];
      cbn [Audio.audio_queue Audio.idx Audio.control_queue Audio.terminated];
      (destruct raw as [|b raw']; [by right|]);
      (destruct (50 <? _)%Z eqn:Hd; [by right|]);
      apply Z.ltb_ge in Hd;
      (destruct (Audio.frombuffer_float32 _) as [samples|]; [|by right]);
      left; exists samples; (split; [|lia]); destruct st; simpl in *; by subst. }
  cbn [Audio.capture_loop length].
  destruct Hstep as [(samples & Hit & Hdepth) | (Hq & Hi)].
  - rewrite Hit.
    match goal with
    | |- context [Audio.capture_loop chan ?s rest] =>
        destruct (IH s) as (added & Ha & Hx & Hk & Hn & Hd)
    end.
    cbn [Audio.audio_queue Audio.idx] in *.
    eexists (_ :: added).
    split; [by rewrite Ha, <- app_assoc|].
    split; [rewrite Hx; cbn [length]; lia|].
    split.
    { intros [|k] c Hc; cbn in Hc.
      - injection Hc as <-. cbn [Audio.channel Audio.chunk_start Audio.chunk_end].
        repeat split; f_equal; lia.
      - destruct (Hk k c Hc) as (H1 & H2 & H3). rewrite H2, H3.
        repeat split; [done | f_equal; lia | f_equal; lia]. }
    split; [cbn [length]; lia|].
    rewrite length_app in Hd. cbn [length] in Hd. lia.
  - destruct (Audio.capture_iteration chan st raw) as [flow st1].
    cbn [snd] in Hq, Hi.
    assert (Hsame : exists added : list Audio.Chunk,
              Audio.audio_queue st1 = Audio.audio_queue st ++ added /\
              Audio.idx st1 = (Audio.idx st + Z.of_nat (length added))%Z /\
              (forall k c, added !! k = Some c ->
                 Audio.channel c = chan /\
                 Audio.chunk_start c
                 = ((Audio.idx st + Z.of_nat k) * CHUNK_DURATION)%Z /\
                 Audio.chunk_end c
                 = ((Audio.idx st + Z.of_nat k + 1) * CHUNK_DURATION)%Z) /\
              (length added <= S (length rest))%nat /\
              (length (Audio.audio_queue st1)
               <= length (Audio.audio_queue st) `max` 51)%nat).
    { exists []. rewrite app_nil_r, Hq, Hi. cbn [length].
      split; [done|]. split; [lia|]. split; [|lia].
      intros k c Hk. by rewrite lookup_nil in Hk. }
    destruct flow; try exact Hsame.
    destruct (IH st1) as (added & Ha & Hx & Hk & Hn & Hd).
    rewrite Hq, Hi in *. exists added.
    split; [done|]. split; [done|]. split; [done|]. split; [lia | done].
Qed.

End audio_numbering.

Section socket_runs.

(** * WebSocket events: whole runs of the server *)







End socket_runs.

Section user_configuration.

Import UserConfig.

(** * The user configuration *)

Lemma json_entries_stable (m : gmap string PyVal) :
  (forall k v, m !! k = Some v -> json_value v = Some v) ->
  json_entries m = Some (map_to_list m).
Proof.
  intros Hstable. unfold json_entries. apply mapM_Some.
  apply Forall2_same_length_lookup. split; [done|].
  intros i [k v] [k' v'] Hi Hi'. rewrite Hi in Hi'. injection Hi' as <- <-.
  cbn [fst snd]. apply list_elem_of_lookup_2, elem_of_map_to_list in Hi.
  by rewrite (Hstable k v Hi).
Qed.

Lemma dict_of_map_to_list (m : gmap string PyVal) : dict_of (map_to_list m) = m.
Proof.
  unfold dict_of. rewrite <- (list_to_map_to_list m) at 2.
  apply list_to_map_proper.
  - rewrite fmap_reverse, reverse_Permutation. apply NoDup_fst_map_to_list.
  - apply reverse_Permutation.
Qed.

Lemma default_lookup (k : string) :
  DEFAULT_CONFIG !! k =
  if decide (k = "twitch_client_id") then Some (VStr "")
  else if decide (k = "twitch_client_secret") then Some (VStr "")
  else if decide (k = "access_token") then Some (VStr "")
  else if decide (k = "refresh_token") then Some (VStr "")
  else if decide (k = "bot_username") then Some (VStr "")
  else if decide (k = "main_username") then Some (VStr "")
  else if decide (k = "setup_complete") then Some (VBool false)
  else None.
Proof.
  unfold DEFAULT_CONFIG. cbn [list_to_map foldr uncurry].
  repeat (destruct (decide _) as [->|?];
          [by rewrite lookup_insert_eq | rewrite lookup_insert_ne by done]).
  apply lookup_empty.
Qed.

(** Saving a configuration whose values JSON gives back unchanged, then
    loading the file, gives the configuration completed with the
    defaults. *)
Lemma save_then_load (self : t) :
  json_stable self ->
  save self = (None, mk (config self) (Parsed (VDict (map_to_list (config self))))) /\
  _load (Parsed (VDict (map_to_list (config self))))
  = inr (config self ∪ DEFAULT_CONFIG).
Proof.
  intros Hstable. unfold save. rewrite (json_entries_stable _ Hstable).
  split; [done|]. cbn [_load]. by rewrite dict_of_map_to_list.
Qed.

(** X27.  How the configuration is loaded.  A missing file, a file that
    cannot be opened or read ([OSError]), one whose text is not JSON
    ([JSONDecodeError]) and one cut short by a failed save give the
    defaults, for which the setup is not complete.  Any other exception
    of the read escapes [_load] and with it the constructor: a file
    whose bytes are not text ([UnicodeDecodeError]) or whose JSON is
    nested too deeply ([RecursionError]) makes loading raise.  A file
    holding a JSON object gives that object completed with the
    defaults: every default key is present, a saved value wins over the
    default, and keys the defaults do not know are kept.  A file holding
    JSON that is not an object is not handled either: loading raises a
    [TypeError] that names the type. *)
Theorem config_load_merges_defaults :
  _load Missing = inr DEFAULT_CONFIG /\
  _load Truncated = inr DEFAULT_CONFIG /\
  (forall msg, _load (Raising (OSError msg)) = inr DEFAULT_CONFIG) /\
  (forall msg, _load (Raising (JSONDecodeError msg)) = inr DEFAULT_CONFIG) /\
  (forall e, (forall msg, e <> OSError msg) -> (forall msg, e <> JSONDecodeError msg) ->
     _load (Raising e) = inl e /\ init (Raising e) = inl e) /\
  (forall msg,
     init (Raising (UnicodeDecodeError msg)) = inl (UnicodeDecodeError msg) /\
     init (Raising (RecursionError msg)) = inl (RecursionError msg)) /\
  (forall f, py_truthy (is_setup_complete (mk DEFAULT_CONFIG f)) = false) /\
  (forall d, exists c,
     _load (Parsed (VDict d)) = inr c /\
     (forall k, is_Some (DEFAULT_CONFIG !! k) -> is_Some (c !! k)) /\
     (forall k v, dict_of d !! k = Some v -> c !! k = Some v) /\
     (forall k, dict_of d !! k = None -> c !! k = DEFAULT_CONFIG !! k)) /\
  (forall v, (forall d, v <> VDict d) ->
     _load (Parsed v)
       = inl (TypeError ("'" +:+ py_type_name v +:+ "' object is not a mapping")) /\
     init (Parsed v)
       = inl (TypeError ("'" +:+ py_type_name v +:+ "' object is not a mapping"))).
Proof.
  split; [done|]. split; [done|]. split; [done|]. split; [done|].
  split.
  { intros e Hos Hjson. unfold init.
    destruct e; try done; [by destruct (Hos msg) | by destruct (Hjson msg)]. }
  split; [done|]. split; [done|]. split.
  - intros d. eexists. split; [reflexivity|]. split; [|split].
    + intros k [v Hv]. rewrite lookup_union.
      rewrite Hv. destruct (dict_of d !! k); by eexists.
    + intros k v Hk. by apply lookup_union_Some_l.
    + intros k Hk. by apply lookup_union_r.
  - intros v Hv. unfold init.
    destruct v; try done. by destruct (Hv d).
Qed.

Lemma config_load_merges_defaults_witness :
  (forall msg,
     UnicodeDecodeError "'utf-8' codec can't decode byte 0xff in position 0: invalid start byte"
     <> OSError msg) /\
  (forall msg,
     UnicodeDecodeError "'utf-8' codec can't decode byte 0xff in position 0: invalid start byte"
     <> JSONDecodeError msg) /\
  (forall d, VList [VStr "foo"] <> VDict d) /\
  init (Raising (UnicodeDecodeError
         "'utf-8' codec can't decode byte 0xff in position 0: invalid start byte"))
  = inl (UnicodeDecodeError
         "'utf-8' codec can't decode byte 0xff in position 0: invalid start byte") /\
  init (Parsed (VList [VStr "foo"]))
  = inl (TypeError "'list' object is not a mapping").
Proof.
  split; [discriminate|]. split; [discriminate|]. split; [discriminate|].
  destruct config_load_merges_defaults as (_ & _ & _ & _ & Hescape & _ & _ & _ & Hother).
  split.
  - exact (proj2 (Hescape
             (UnicodeDecodeError
                "'utf-8' codec can't decode byte 0xff in position 0: invalid start byte")
             ltac:(discriminate) ltac:(discriminate))).
  - exact (proj2 (Hother (VList [VStr "foo"]) ltac:(discriminate))).
Defined.

(** X28.  Saving the setup.  When the wizard posts the client id, the
    client secret, the user name and the tokens, [save_setup] stores them
    (the id, the secret and the name stripped of surrounding white
    space), marks the setup as done, writes the file and answers 200.
    The setup then counts as complete exactly when the stripped client id
    is not empty and an access token was given; and it persists: loading
    the file again, in this run or the next, gives back the very
    configuration that was saved. *)
Theorem setup_saved_is_complete_and_persists
    (user_config : t) (d : list (string * PyVal))
    (client_id client_secret username : string) (access_token refresh_token : PyVal) :
  json_stable user_config ->
  dict_get d "client_id" (VStr "") = VStr client_id ->
  dict_get d "client_secret" (VStr "") = VStr client_secret ->
  dict_get d "username" (VStr "") = VStr username ->
  dict_get d "access_token" (VStr "") = access_token ->
  json_value access_token = Some access_token ->
  dict_get d "refresh_token" (VStr "") = refresh_token ->
  json_value refresh_token = Some refresh_token ->
  exists saved,
    save_setup user_config (VDict d)
    = (inr (VDict [("success", VBool true)], 200%Z), saved) /\
    get saved "twitch_client_id" VNone = VStr (Py.strip client_id) /\
    get saved "twitch_client_secret" VNone = VStr (Py.strip client_secret) /\
    get saved "bot_username" VNone = VStr (Py.strip username) /\
    get saved "main_username" VNone = VStr (Py.strip username) /\
    get saved "access_token" VNone = access_token /\
    get saved "refresh_token" VNone = refresh_token /\
    get saved "setup_complete" VNone = VBool true /\
    (py_truthy (is_setup_complete saved) = true <->
     Py.strip client_id <> "" /\ py_truthy access_token = true) /\
    (forall k v, config user_config !! k = Some v ->
                 is_Some (config saved !! k)) /\
    reload saved = inr saved /\
    init (file saved) = inr saved /\
    json_stable saved.
Proof.
  intros Hstable Hid Hsecret Huser Htok Htokj Href Hrefj.
  unfold save_setup. rewrite Hid, Hsecret, Huser, Htok, Href.
  cbn [py_str_strip]. unfold update. cbn [foldl fst snd config file].
  set (m := <["setup_complete" := VBool true]> _).
  assert (Hm : json_stable (mk m (file user_config))).
  { intros k v Hk. cbn [config] in Hk. unfold m in Hk.
    repeat (apply lookup_insert_Some in Hk as [[<- <-]|[? Hk]];
            [assumption || reflexivity|]).
    by apply (Hstable k). }
  destruct (save_then_load _ Hm) as [Hsave Hload]. cbn [config] in *.
  rewrite Hsave. eexists. split; [reflexivity|].
  assert (Hfull : m ∪ DEFAULT_CONFIG = m).
  { apply map_eq. intros k. rewrite lookup_union.
    destruct (m !! k) as [v|] eqn:Hv.
    - by destruct (DEFAULT_CONFIG !! k).
    - unfold m in Hv. repeat (apply lookup_insert_None in Hv as [Hv ?]).
      rewrite default_lookup. by rewrite !decide_False by done. }
  unfold get, is_setup_complete, get, reload, init. cbn [config file].
  rewrite Hload, Hfull.
  assert (Hl1 : m !! "twitch_client_id" = Some (VStr (Py.strip client_id))).
  { unfold m. repeat (rewrite lookup_insert_ne by done). apply lookup_insert_eq. }
  assert (Hl2 : m !! "twitch_client_secret" = Some (VStr (Py.strip client_secret))).
  { unfold m. repeat (rewrite lookup_insert_ne by done). apply lookup_insert_eq. }
  assert (Hl3 : m !! "access_token" = Some access_token).
  { unfold m. repeat (rewrite lookup_insert_ne by done). apply lookup_insert_eq. }
  assert (Hl4 : m !! "refresh_token" = Some refresh_token).
  { unfold m. repeat (rewrite lookup_insert_ne by done). apply lookup_insert_eq. }
  assert (Hl5 : m !! "bot_username" = Some (VStr (Py.strip username))).
  { unfold m. repeat (rewrite lookup_insert_ne by done). apply lookup_insert_eq. }
  assert (Hl6 : m !! "main_username" = Some (VStr (Py.strip username))).
  { unfold m. repeat (rewrite lookup_insert_ne by done). apply lookup_insert_eq. }
  assert (Hl7 : m !! "setup_complete" = Some (VBool true)).
  { unfold m. apply lookup_insert_eq. }
  rewrite Hl1, Hl2, Hl3, Hl4, Hl5, Hl6, Hl7.
  repeat (split; [done|]).
  split.
  { unfold py_and. cbn [py_truthy].
    destruct (String.eqb_spec (Py.strip client_id) "") as [->|Hne]; cbn [negb].
    - split; [done | by intros [? _]].
    - tauto. }
  split.
  { intros k v Hk. destruct (m !! k) as [w|] eqn:Hmk; [by eexists|].
    exfalso. unfold m in Hmk.
    repeat (apply lookup_insert_None in Hmk as [Hmk ?]). congruence. }
  done.
Qed.

Lemma setup_saved_is_complete_and_persists_witness :
  json_stable (mk DEFAULT_CONFIG Missing) /\
  exists saved,
    save_setup (mk DEFAULT_CONFIG Missing)
      (VDict [("client_id", VStr " abc123 "); ("client_secret", VStr "s3cret");
              ("username", VStr "fame_bot"); ("access_token", VStr "token");
              ("refresh_token", VStr "refresh")])
    = (inr (VDict [("success", VBool true)], 200%Z), saved) /\
    get saved "twitch_client_id" VNone = VStr "abc123" /\
    py_truthy (is_setup_complete saved) = true /\
    init (file saved) = inr saved.
Proof.
  assert (H : json_stable (mk DEFAULT_CONFIG Missing)).
  { intros k v. cbn [config]. rewrite default_lookup.
    repeat (destruct (decide _); [by intros [= <-]|]). done. }
  split; [exact H|].
  destruct (setup_saved_is_complete_and_persists (mk DEFAULT_CONFIG Missing)
              [("client_id", VStr " abc123 "); ("client_secret", VStr "s3cret");
               ("username", VStr "fame_bot"); ("access_token", VStr "token");
               ("refresh_token", VStr "refresh")]
              " abc123 " "s3cret" "fame_bot" (VStr "token") (VStr "refresh")
              H eq_refl eq_refl eq_refl eq_refl eq_refl eq_refl eq_refl)
    as (saved & Hsave & Hid & _ & _ & _ & _ & _ & _ & Hdone & _ & _ & Hinit & _).
  exists saved. split; [exact Hsave|]. split; [exact Hid|].
  split; [|exact Hinit]. apply Hdone. split; [discriminate | reflexivity].
Defined.

End user_configuration.
